(** * DataFrameProcessorFramework: a shallow embedding

    The framework drives a tabular-data library from a notebook form.  It has
    three classes:

    - [DataFrameProcessor] (data_processor.py): the cleaning operations, each
      a validated delegation to the tabular library, with a message log;
    - [DriveIOHandler] (drive_io_handler.py): export of a table to a file
      under a mounted drive;
    - [DataProcessorUI] (colab_processor_ui.py): the widgets, their show/hide
      wiring and the handler of the process button.

    Python objects live in a store: a DataFrame is a location of the heap, so
    that in-place updates ([df[col] = ...], [set_index(inplace=True)]),
    rebinding ([self.df = self.df.dropna()]) and [copy()] are told apart.
    Exceptions are results: a computation returns [Ok a] or [Raise e], and
    the state reached when an exception is raised is kept, as in Python.

    The tabular library, the JSON parser and the number parsers are not part
    of the repository: they are the fields of the class [Library], and every
    theorem holds for every instance of it.  [Toy] is a small instance on
    which the closed examples are evaluated. *)

From Stdlib Require Import ZArith Ascii String List Lia.
From stdpp Require Import base list strings.

Local Open Scope string_scope.
Local Open Scope list_scope.

(** ** Python strings *)

Module Py.

(** [x in l] for a list of strings. *)
Definition str_in (x : string) (l : list string) : bool :=
existsb (String.eqb x) l.

(** The characters [str.strip()] removes, for text that is ASCII: space, the
  control characters 9 to 13 and the separators 28 to 31. *)
Definition is_space (c : ascii) : bool :=
let n := nat_of_ascii c in
(n =? 32)%nat || ((9 <=? n)%nat && (n <=? 13)%nat)
|| ((28 <=? n)%nat && (n <=? 31)%nat).

Fixpoint lstrip (s : string) : string :=
match s with
| String c s' => if is_space c then lstrip s' else s
| EmptyString => EmptyString
end.

(** Removes trailing blanks: a character is kept when it is not blank or
  when something is kept after it. *)
Fixpoint rstrip (s : string) : string :=
match s with
| String c s' =>
    match rstrip s' with
    | EmptyString => if is_space c then EmptyString else String c EmptyString
    | r => String c r
    end
| EmptyString => EmptyString
end.

(** [s.strip()] *)
Definition strip (s : string) : string := rstrip (lstrip s).

(** [s.split(',')]: the fields between the commas; one field for a string
  without comma, the empty string included. *)
Fixpoint split_comma_aux (cur : string) (s : string) : list string :=
match s with
| EmptyString => [cur]
| String c s' =>
    if Ascii.eqb c ","%char then cur :: split_comma_aux EmptyString s'
    else split_comma_aux (cur ++ String c EmptyString) s'
end.

Definition split_comma (s : string) : list string :=
split_comma_aux EmptyString s.

(** Truth value of a string: non-empty. *)
Definition truthy (s : string) : bool :=
match s with EmptyString => false | _ => true end.

(** [c in s] for a character. *)
Fixpoint has_char (c : ascii) (s : string) : bool :=
match s with
| EmptyString => false
| String d s' => Ascii.eqb c d || has_char c s'
end.

(** [s.startswith(p)] *)
Fixpoint startswith (p s : string) : bool :=
match p, s with
| EmptyString, _ => true
| String a p', String b s' => Ascii.eqb a b && startswith p' s'
| String _ _, EmptyString => false
end.

(** [s.endswith('/')] *)
Fixpoint ends_with_slash (s : string) : bool :=
match s with
| EmptyString => false
| String c EmptyString => Ascii.eqb c "/"%char
| String _ s' => ends_with_slash s'
end.

(** [p in s] for strings: [p] occurs in [s]. *)
Fixpoint contains (p s : string) : bool :=
startswith p s ||
match s with
| EmptyString => false
| String _ s' => contains p s'
end.

(** [[col.strip() for col in text.split(',')] if text else None] *)
Definition column_list (text : string) : option (list string) :=
if truthy text then Some (map strip (split_comma text)) else None.

End Py.

(** ** Exceptions and log messages

    Every message the code builds with an f-string is a constructor that
    carries the interpolated values; the text of the message is a fixed
    rendering of it, which no code of the framework reads back. *)

(** [keep] of [drop_duplicates]: ['first'], ['last'] or [False]. *)
Inductive Keep := KeepStr (s : string) | KeepFalse.

Inductive Exn :=
| KeyError (t : ErrText)
| ValueError (t : ErrText)
| JSONDecodeError (t : ErrText)
| OtherError (name : string) (t : ErrText)
with ErrText :=
| TColumnNotFound (col : string)
    (* Столбец '{col}' не найден в DataFrame *)
| TUnsupportedStrategy (strategy : string) (valid : list string)
    (* Стратегия '{strategy}' не поддерживается. Допустимые стратегии: ... *)
| TFillValueRequired
    (* При использовании стратегии 'fill_constant' необходимо указать ... *)
| TColumnsNotFound (cols : list string)
    (* Следующие колонки не найдены в DataFrame: {missing_columns} *)
| TUnsupportedType (target : string)
    (* Неподдерживаемый тип данных: '{target_type}' *)
| TConvertFailed (col target : string) (cause : Exn)
    (* Ошибка при преобразовании колонки '{col}' в {target_type}: {str(e)} *)
| TRenameNotFound (cols : list string)
    (* Следующие колонки для переименования не найдены: {missing_columns} *)
| TSelectNotFound (cols : list string)
    (* Следующие колонки не найдены: {missing_columns} *)
| TNotDataFrame (type_name : string)
    (* Пользовательская функция вернула {type(result)}, ожидался pd.DataFrame *)
| TUnsupportedFormat (fmt : string) (valid : list string)
    (* Неподдерживаемый формат файла: '{file_format}'. Поддерживаемые ... *)
| TText (s : string).
    (* a message of the library's own *)

(** Result of a computation that may raise. *)
Inductive Res (A : Type) :=
| Ok (a : A)
| Raise (e : Exn).
Arguments Ok {A} a.
Arguments Raise {A} e.


(** [df.shape]: rows and columns. *)
Definition Shape : Type := nat * nat.

(** ** The libraries the framework calls

    The operations of the tabular library are functions on values: what
    Python does in place is written back to the heap by the caller.  An
    operation that can raise returns a [Res]. *)

(** Target of [Series.astype]. *)
Inductive AsType := TyFloat | TyInt64 | TyInt | TyStr | TyCategory | TyBool.

(** File formats of the writers. *)
Inductive Format := Parquet | Csv | Feather | Pickle.

Class Library := {
  DataFrame : Type;
  Series : Type;
  Scalar : Type;
  (** [pd.DataFrame()] *)
  empty_frame : DataFrame;
  (** [df.shape], [df.columns], [df.dtypes.to_dict()] with dtypes as text *)
  shape : DataFrame -> Shape;
  columns : DataFrame -> list string;
  dtypes : DataFrame -> list (string * string);
  (** [df[col]], [df[cols]], and the frame after [df[col] = s], [df[cols] = f] *)
  getitem : DataFrame -> string -> Res Series;
  getitem_list : DataFrame -> list string -> Res DataFrame;
  setitem : DataFrame -> string -> Series -> Res DataFrame;
  setitem_list : DataFrame -> list string -> DataFrame -> Res DataFrame;
  (** [pd.to_datetime(s, errors=, infer_datetime_format=)]; the last argument
      is [None] when the call does not give it *)
  to_datetime : Series -> string -> option bool -> Res Series;
  (** the frame after [df.set_index(col, inplace=True)] *)
  set_index : DataFrame -> string -> Res DataFrame;
  (** [df.isna().sum().sum()], [s.isna().any()] *)
  isna_count : DataFrame -> nat;
  isna_any : Series -> bool;
  (** [df.fillna(method=m)], [df.fillna(v)], [s.fillna(v)] *)
  fillna_method : DataFrame -> string -> Res DataFrame;
  fillna_value : DataFrame -> Scalar -> Res DataFrame;
  series_fillna : Series -> Scalar -> Res Series;
  (** [df.dropna()] and [df.dropna(subset=cols)]; [df.dropna(axis=1)] *)
  dropna : DataFrame -> option (list string) -> Res DataFrame;
  dropna_columns : DataFrame -> Res DataFrame;
  (** [df.interpolate(method=m)] *)
  interpolate : DataFrame -> string -> Res DataFrame;
  (** [pd.api.types.is_numeric_dtype(s)], [s.mean()], [s.median()] *)
  is_numeric_dtype : Series -> bool;
  mean : Series -> Res Scalar;
  median : Series -> Res Scalar;
  (** [s.astype(t, errors=e)], [str(s.dtype)] *)
  astype : Series -> AsType -> string -> Res Series;
  dtype_str : Series -> string;
  (** [df.drop_duplicates(subset=, keep=)], [df.rename(columns=m)] *)
  drop_duplicates : DataFrame -> option (list string) -> Keep -> Res DataFrame;
  rename : DataFrame -> list (string * string) -> Res DataFrame;
  (** [df.reset_index()] and the writers [to_parquet], [to_csv], [to_feather],
      [to_pickle]: [None] when the file was written *)
  reset_index : DataFrame -> Res DataFrame;
  write_frame : Format -> DataFrame -> string -> option Exn;
  (** the scalars [0], an [int], a [str]; [int(text)] and [float(text)], which
      are [None] when Python raises [ValueError] *)
  scalar_of_int : Z -> Scalar;
  scalar_of_str : string -> Scalar;
  py_int : string -> option Z;
  py_float : string -> option Scalar;
  (** [json.loads(text)] for a text that is an object of strings, or is not
      JSON at all (then [JSONDecodeError]) *)
  json_loads : string -> Res (list (string * string));
}.

(** ** State and exceptions *)

Section Monad.
Context {S : Type}.

Definition M (A : Type) : Type := S -> Res A * S.

Definition ret {A} (a : A) : M A := fun s => (Ok a, s).

Definition bind {A B} (m : M A) (k : A -> M B) : M B :=
  fun s =>
    match m s with
    | (Ok a, s') => k a s'
    | (Raise e, s') => (Raise e, s')
    end.

Definition raise {A} (e : Exn) : M A := fun s => (Raise e, s).

(** [try: m except Exception as e: h(e)] *)
Definition try_except {A} (m : M A) (h : Exn -> M A) : M A :=
  fun s =>
    match m s with
    | (Ok a, s') => (Ok a, s')
    | (Raise e, s') => h e s'
    end.

(** A library call: its exception, if any, is raised here. *)
Definition lift {A} (r : Res A) : M A := fun s => (r, s).

Definition gets {A} (f : S -> A) : M A := fun s => (Ok (f s), s).

Definition modify (f : S -> S) : M unit := fun s => (Ok tt, f s).
End Monad.
Arguments M S A : clear implicits.

Declare Scope py_scope.
Delimit Scope py_scope with py.
Notation "x <- m ;; k" := (bind m (fun x => k))
  (at level 100, m at next level, k at level 200, right associativity) : py_scope.
Notation "m ;; k" := (bind m (fun _ => k))
  (at level 100, k at level 200, right associativity) : py_scope.
Local Open Scope py_scope.

(** [for x in l: body(x)] *)
Fixpoint for_each {S A} (l : list A) (body : A -> M S unit) : M S unit :=
  match l with
  | [] => ret tt
  | x :: l' => body x ;; for_each l' body
  end.

(** [[x for x in l if p(x)]] where the test may raise *)
Fixpoint filter_m {S A} (p : A -> M S bool) (l : list A) : M S (list A) :=
  match l with
  | [] => ret []
  | x :: l' =>
      b <- p x ;;
      r <- filter_m p l' ;;
      ret (if b then x :: r else r)
  end.

(** ** The processor's log *)

Section Framework.
Context {L : Library}.

(** [strategy_desc] of [handle_missing_values]. *)
Inductive StrategyDesc :=
| DescFfill                     (* заполнение вперед (ffill) *)
| DescBfill                     (* заполнение назад (bfill) *)
| DescDropRows (removed : Z)    (* удаление строк с пропусками (удалено N строк) *)
| DescDropCols (removed : Z)    (* удаление столбцов с пропусками (удалено N столбцов) *)
| DescInterpolate (method : string)  (* интерполяция методом '{method}' *)
| DescConstant (v : Scalar)     (* заполнение константой {fill_value} *)
| DescMean                      (* заполнение средним *)
| DescMedian                    (* заполнение медианой *)
| DescZero.                     (* заполнение нулями *)

Inductive LogMsg :=
(* __init__: Создана копия исходного DataFrame с размером {shape} *)
| LogCreated (sh : Shape)
(* set_datetime_index *)
| LogDatetimeSet (col : string)
| LogShapeChanged (before after : Shape)
| LogDatetimeError (e : Exn)
(* handle_missing_values *)
| LogMissingHandled (subset : option (list string)) (d : StrategyDesc)
| LogMissingCounts (before after : nat)
| LogMissingError (e : Exn)
(* convert_data_types *)
| LogColumnSkipped (col : string)
| LogConverted (col from to : string)
| LogConvertSkipped (col target : string) (e : Exn)
| LogConvertError (e : Exn)
(* remove_duplicate_rows *)
| LogDuplicatesRemoved (removed : Z) (subset : option (list string)) (keep : Keep)
| LogDuplicatesError (e : Exn)
(* rename_columns *)
| LogRenamed (m : list (string * string))
| LogRenameError (e : Exn)
(* select_columns *)
| LogKept (cols : list string)
| LogColumnsRemoved (cols : list string)
| LogSelectError (e : Exn)
(* apply_custom_function *)
| LogCustomShape (before after : Shape)
| LogCustomDtypes (changed : list (string * (string * string)))
| LogCustomAdded (cols : list string)
| LogCustomRemoved (cols : list string)
| LogCustomDone
| LogCustomError (e : Exn)
(* get_processed_df: Получен обработанный DataFrame размером {shape} *)
| LogGot (sh : Shape).

(** What the handler of the button and the drive handler print. *)
Inductive UiMsg :=
| UiStart                          (* Начинаю обработку данных... *)
| UiHeaderDatetime | UiHeaderMissing | UiHeaderConvert
| UiHeaderDuplicates | UiHeaderRename | UiHeaderSelect | UiHeaderSave
| UiDatetimeError (e : Exn)
| UiMissingError (e : Exn)
| UiConvertJsonError (e : Exn)
| UiConvertError (e : Exn)
| UiDuplicatesError (e : Exn)
| UiRenameJsonError (e : Exn)
| UiRenameError (e : Exn)
| UiSelectError (e : Exn)
| UiSelectSkipped                  (* Не указаны колонки для сохранения. Пропускаю этот шаг. *)
| UiSaved (path : string)          (* DataFrame успешно сохранен: {file_path} *)
| UiSaveError (e : Exn)
| UiDone                           (* Обработка данных завершена! *)
| DriveDirCreated (path : string)
| DriveDirWarning (path : string) (e : Exn)
| DriveMounting | DriveMounted
| DriveNoColab
| DriveMountError (e : Exn)
| DriveDirFailed (path : string) (e : Exn)
| DriveCheckError (e : Exn)
| DriveUnavailable                 (* Ошибка: Google Drive не смонтирован или недоступен *)
| DriveFileSaved (path : string)   (* DataFrame сохранен в файл: {full_path} *)
| DriveMetadataSaved (path : string)
| DriveSaveError (e : Exn).

Inductive Line :=
| LineLog (m : LogMsg)    (* printed by [_log] *)
| LineUi (m : UiMsg).

(** ** The store *)

(** A method call of the processor or of the drive handler, with its
    arguments.  The list of calls is kept for the statements only: no
    code reads it. *)
Inductive Call :=
| CallInit
| CallSetDatetimeIndex (time_col errors : string) (infer : bool)
| CallHandleMissing (strategy : string) (subset : option (list string))
    (fill_value : option Scalar) (method : string)
| CallConvertTypes (column_types : list (string * string)) (errors : string)
| CallRemoveDuplicates (subset : option (list string)) (keep : Keep)
| CallRenameColumns (rename_map : list (string * string))
| CallSelectColumns (columns_to_keep : list string)
| CallApplyCustom
| CallGetProcessedDf
| CallSaveDataframe (filename_prefix file_format : string) (include_timestamp : bool).

Definition loc := nat.

(** [datetime.now()] *)
Record Clock := {
  year : nat; month : nat; day : nat;
  hour : nat; minute : nat; second : nat
}.

(** What [from google.colab import drive; drive.mount(...)] does. *)
Inductive Colab :=
| ColabAbsent                      (* ImportError *)
| ColabMountFails (e : Exn)
| ColabMounts (appear : list string).  (* paths that exist once mounted *)

Record World := {
  heap : list DataFrame;           (* the DataFrame objects *)
  stdout : list Line;              (* what was printed, oldest first *)
  calls : list Call;               (* method calls, oldest first *)
  paths : list string;             (* paths for which os.path.exists holds *)
  files : list (string * (Format * DataFrame));  (* table files written *)
  metadata_files : list string;    (* metadata files written *)
  colab : Colab;
  makedirs_error : option Exn;     (* what os.makedirs raises, if it does *)
  open_error : option Exn;         (* what writing the metadata raises *)
  now : Clock
}.

Definition with_heap (h : list DataFrame) (w : World) : World :=
  {| heap := h; stdout := stdout w; calls := calls w; paths := paths w;
     files := files w; metadata_files := metadata_files w; colab := colab w;
     makedirs_error := makedirs_error w; open_error := open_error w;
     now := now w |}.

Definition with_stdout (o : list Line) (w : World) : World :=
  {| heap := heap w; stdout := o; calls := calls w; paths := paths w;
     files := files w; metadata_files := metadata_files w; colab := colab w;
     makedirs_error := makedirs_error w; open_error := open_error w;
     now := now w |}.

Definition with_calls (c : list Call) (w : World) : World :=
  {| heap := heap w; stdout := stdout w; calls := c; paths := paths w;
     files := files w; metadata_files := metadata_files w; colab := colab w;
     makedirs_error := makedirs_error w; open_error := open_error w;
     now := now w |}.

Definition with_paths (p : list string) (w : World) : World :=
  {| heap := heap w; stdout := stdout w; calls := calls w; paths := p;
     files := files w; metadata_files := metadata_files w; colab := colab w;
     makedirs_error := makedirs_error w; open_error := open_error w;
     now := now w |}.

Definition with_files (f : list (string * (Format * DataFrame))) (w : World) : World :=
  {| heap := heap w; stdout := stdout w; calls := calls w; paths := paths w;
     files := f; metadata_files := metadata_files w; colab := colab w;
     makedirs_error := makedirs_error w; open_error := open_error w;
     now := now w |}.

Definition with_metadata_files (f : list string) (w : World) : World :=
  {| heap := heap w; stdout := stdout w; calls := calls w; paths := paths w;
     files := files w; metadata_files := f; colab := colab w;
     makedirs_error := makedirs_error w; open_error := open_error w;
     now := now w |}.

(** The frame at a location; a location never allocated reads as the
    empty frame. *)
Definition read (h : list DataFrame) (r : loc) : DataFrame :=
  default empty_frame (h !! r).

(** The fields of a [DataFrameProcessor]. *)
Record Processor := {
  df : loc;
  log_messages : list LogMsg
}.

(** State of a method of the processor: [self] and the world. *)
Definition PState : Type := Processor * World.

Definition P := M PState.

Definition print {S} (get : S -> World) (set : World -> S -> S) (l : Line) : M S unit :=
  modify (fun s => set (with_stdout (stdout (get s) ++ [l]) (get s)) s).

Definition set_world (w : World) (s : PState) : PState := (fst s, w).
Definition set_self (p : Processor) (s : PState) : PState := (p, snd s).

(** [self._log(message)]: prints the message and appends it to the log. *)
Definition _log (m : LogMsg) : P unit :=
  print snd set_world (LineLog m) ;;
  modify (fun s =>
    set_self {| df := df (fst s); log_messages := log_messages (fst s) ++ [m] |} s).

(** Entry of a method. *)
Definition enter {S} (get : S -> World) (set : World -> S -> S) (c : Call) : M S unit :=
  modify (fun s => set (with_calls (calls (get s) ++ [c]) (get s)) s).

(** The value of [self.df]. *)
Definition self_df : P DataFrame :=
  gets (fun s => read (heap (snd s)) (df (fst s))).

(** An update of the object [self.df] in place. *)
Definition update_df (d : DataFrame) : P unit :=
  modify (fun s => set_world (with_heap (<[df (fst s) := d]> (heap (snd s))) (snd s)) s).

(** A new DataFrame object. *)
Definition alloc {S} (get : S -> World) (set : World -> S -> S) (d : DataFrame) : M S loc :=
  fun s => (Ok (length (heap (get s))), set (with_heap (heap (get s) ++ [d]) (get s)) s).

(** [self.df = d] for a frame [d] the library has just returned. *)
Definition assign_df (d : DataFrame) : P unit :=
  r <- alloc snd set_world d ;;
  modify (fun s => set_self {| df := r; log_messages := log_messages (fst s) |} s).

(** The body of every operation:
    [try: body except Exception as e: self._log(error(e)); raise] *)
Definition logged (c : Call) (error : Exn -> LogMsg) (body : P unit) : P unit :=
  enter snd set_world c ;;
  try_except body (fun e => _log (error e) ;; raise e).

(** ** DataFrameProcessor *)

(** [DataFrameProcessor(df)]: the state after [__init__], for [input] the
    location of the argument. *)
Definition init (input : loc) : P unit :=
  enter snd set_world CallInit ;;
  d <- gets (fun s => read (heap (snd s)) input) ;;
  r <- alloc snd set_world d ;;                       (* df.copy() *)
  modify (set_self {| df := r; log_messages := [] |}) ;;
  _log (LogCreated (shape d)).

Definition set_datetime_index (time_col errors : string) (infer_datetime_format : bool)
  : P unit :=
  logged (CallSetDatetimeIndex time_col errors infer_datetime_format) LogDatetimeError (
    d <- self_df ;;
    if negb (Py.str_in time_col (columns d))
    then raise (KeyError (TColumnNotFound time_col))
    else
      let orig_shape := shape d in
      s <- lift (getitem d time_col) ;;
      s' <- lift (to_datetime s errors (Some infer_datetime_format)) ;;
      d1 <- lift (setitem d time_col s') ;;
      update_df d1 ;;
      d2 <- lift (set_index d1 time_col) ;;
      update_df d2 ;;
      _log (LogDatetimeSet time_col) ;;
      if negb (fst orig_shape =? fst (shape d2))%nat
      then _log (LogShapeChanged orig_shape (shape d2))
      else ret tt).

Definition valid_strategies : list string :=
  ["ffill"; "bfill"; "dropna_rows"; "dropna_cols"; "interpolate";
   "fill_constant"; "fill_mean"; "fill_median"; "fill_zero"].

(** Truth value of an optional list: neither [None] nor empty. *)
Definition given (cols : option (list string)) : option (list string) :=
  match cols with
  | Some (c :: l) => Some (c :: l)
  | _ => None
  end.

(** [for col in cols: if col not in self.df.columns: raise ValueError(...)] *)
Definition check_columns (cols : list string) : P unit :=
  for_each cols (fun col =>
    d <- self_df ;;
    if negb (Py.str_in col (columns d))
    then raise (ValueError (TColumnNotFound col))
    else ret tt).

(** [self.df[subset_cols] = f(self.df[subset_cols])] *)
Definition update_subset (cols : list string) (f : DataFrame -> Res DataFrame) : P unit :=
  d <- self_df ;;
  sub <- lift (getitem_list d cols) ;;
  sub' <- lift (f sub) ;;
  d' <- lift (setitem_list d cols sub') ;;
  update_df d'.

(** [self.df = f(self.df)] *)
Definition replace_df (f : DataFrame -> Res DataFrame) : P unit :=
  d <- self_df ;;
  d' <- lift (f d) ;;
  assign_df d'.

(** The two forms every filling strategy has: on the subset in place, or
    on the whole frame. *)
Definition fill_with (subset : option (list string)) (f : DataFrame -> Res DataFrame)
  : P unit :=
  match subset with
  | Some cols => update_subset cols f
  | None => replace_df f
  end.

(** [for col in cols: if is_numeric_dtype(self.df[col]):
      self.df[col] = self.df[col].fillna(stat(self.df[col]))];
    the three reads of [self.df[col]] give the same series *)
Definition fill_statistic (cols : list string) (stat : Series -> Res Scalar) : P unit :=
  for_each cols (fun col =>
    d <- self_df ;;
    s <- lift (getitem d col) ;;
    if is_numeric_dtype s then
      v <- lift (stat s) ;;
      s' <- lift (series_fillna s v) ;;
      d' <- lift (setitem d col s') ;;
      update_df d'
    else ret tt).

Definition rows_removed (before after : Shape) : Z :=
  (Z.of_nat (fst before) - Z.of_nat (fst after))%Z.

Definition columns_removed (before after : Shape) : Z :=
  (Z.of_nat (snd before) - Z.of_nat (snd after))%Z.

(** The strategy applied, and its description for the log. *)
Definition apply_strategy (strategy : string) (subset : option (list string))
    (fill_value : option Scalar) (method : string) : P StrategyDesc :=
  if (strategy =? "ffill")%string then
    fill_with subset (fun d => fillna_method d "ffill") ;;
    ret DescFfill
  else if (strategy =? "bfill")%string then
    fill_with subset (fun d => fillna_method d "bfill") ;;
    ret DescBfill
  else if (strategy =? "dropna_rows")%string then
    d <- self_df ;;
    let orig_shape := shape d in
    replace_df (fun d => dropna d subset) ;;
    d' <- self_df ;;
    ret (DescDropRows (rows_removed orig_shape (shape d')))
  else if (strategy =? "dropna_cols")%string then
    d <- self_df ;;
    let orig_shape := shape d in
    match subset with
    | Some cols =>
        cols_to_keep <- filter_m (fun col =>
            if negb (Py.str_in col cols) then ret true
            else s <- lift (getitem d col) ;; ret (negb (isna_any s)))
          (columns d) ;;
        replace_df (fun d => getitem_list d cols_to_keep)
    | None => replace_df dropna_columns
    end ;;
    d' <- self_df ;;
    ret (DescDropCols (columns_removed orig_shape (shape d')))
  else if (strategy =? "interpolate")%string then
    fill_with subset (fun d => interpolate d method) ;;
    ret (DescInterpolate method)
  else if (strategy =? "fill_constant")%string then
    match fill_value with
    | None => raise (ValueError TFillValueRequired)
    | Some v =>
        fill_with subset (fun d => fillna_value d v) ;;
        ret (DescConstant v)
    end
  else if (strategy =? "fill_mean")%string then
    d <- self_df ;;
    fill_statistic (match subset with Some cols => cols | None => columns d end) mean ;;
    ret DescMean
  else if (strategy =? "fill_median")%string then
    d <- self_df ;;
    fill_statistic (match subset with Some cols => cols | None => columns d end) median ;;
    ret DescMedian
  else if (strategy =? "fill_zero")%string then
    fill_with subset (fun d => fillna_value d (scalar_of_int 0)) ;;
    ret DescZero
  else
    (* no branch taken: [strategy_desc] is unbound when the log reads it *)
    raise (OtherError "UnboundLocalError" (TText "strategy_desc")).

(** [missing_after] *)
Definition count_missing_after (strategy : string) (subset : option (list string))
  : P nat :=
  d <- self_df ;;
  if Py.str_in strategy ["dropna_rows"; "dropna_cols"] then
    let cols_to_check :=
      match subset with
      | Some cols =>
          if forallb (fun col => Py.str_in col (columns d)) cols
          then cols else columns d
      | None => columns d
      end in
    sub <- lift (getitem_list d cols_to_check) ;;
    ret (isna_count sub)
  else
    match subset with
    | Some cols => sub <- lift (getitem_list d cols) ;; ret (isna_count sub)
    | None => ret (isna_count d)
    end.

Definition handle_missing_values (strategy : string) (subset_cols : option (list string))
    (fill_value : option Scalar) (method : string) : P unit :=
  logged (CallHandleMissing strategy subset_cols fill_value method) LogMissingError (
    if negb (Py.str_in strategy valid_strategies)
    then raise (ValueError (TUnsupportedStrategy strategy valid_strategies))
    else
      temp_df <-
        match given subset_cols with
        | Some cols =>
            check_columns cols ;;
            d <- self_df ;;
            lift (getitem_list d cols)
        | None => self_df
        end ;;
      let missing_before := isna_count temp_df in
      strategy_desc <- apply_strategy strategy (given subset_cols) fill_value method ;;
      missing_after <- count_missing_after strategy (given subset_cols) ;;
      _log (LogMissingHandled (given subset_cols) strategy_desc) ;;
      _log (LogMissingCounts missing_before missing_after)).

(** [self.df[col] = f(self.df[col])] *)
Definition update_column (col : string) (f : Series -> Res Series) : P unit :=
  d <- self_df ;;
  s <- lift (getitem d col) ;;
  s' <- lift (f s) ;;
  d' <- lift (setitem d col s') ;;
  update_df d'.

(** [str(self.df[col].dtype)] *)
Definition column_dtype (col : string) : P string :=
  d <- self_df ;;
  s <- lift (getitem d col) ;;
  ret (dtype_str s).

(** The conversion of one column to [target_type]. *)
Definition convert_column (col target_type errors : string) : P unit :=
  if (target_type =? "float")%string then
    update_column col (fun s => astype s TyFloat errors)
  else if (target_type =? "int")%string then
    d <- self_df ;;
    s <- lift (getitem d col) ;;
    if isna_any s
    then update_column col (fun s => astype s TyInt64 errors)
    else update_column col (fun s => astype s TyInt errors)
  else if (target_type =? "str")%string then
    update_column col (fun s => astype s TyStr errors)
  else if (target_type =? "category")%string then
    update_column col (fun s => astype s TyCategory errors)
  else if (target_type =? "bool")%string then
    update_column col (fun s => astype s TyBool errors)
  else if (target_type =? "datetime")%string then
    update_column col (fun s => to_datetime s errors None)
  else raise (ValueError (TUnsupportedType target_type)).

(** One turn of the loop of [convert_data_types]. *)
Definition convert_one (errors : string) (item : string * string) : P unit :=
  let '(col, target_type) := item in
  d <- self_df ;;
  if negb (Py.str_in col (columns d)) && (errors =? "ignore")%string then
    _log (LogColumnSkipped col)                       (* continue *)
  else
    original_dtype <- column_dtype col ;;
    try_except
      (convert_column col target_type errors ;;
       new_dtype <- column_dtype col ;;
       _log (LogConverted col original_dtype new_dtype))
      (fun e =>
         if (errors =? "raise")%string
         then raise (ValueError (TConvertFailed col target_type e))
         else _log (LogConvertSkipped col target_type e)).

(** [[col for col in cols if col not in self.df.columns]] *)
Definition missing_from (d : DataFrame) (cols : list string) : list string :=
  filter (fun col => negb (Py.str_in col (columns d))) cols.

Definition nonempty {A} (l : list A) : bool :=
  match l with [] => false | _ => true end.

Definition convert_data_types (column_types : list (string * string)) (errors : string)
  : P unit :=
  logged (CallConvertTypes column_types errors) LogConvertError (
    d <- self_df ;;
    let missing_columns := missing_from d (map fst column_types) in
    if nonempty missing_columns && (errors =? "raise")%string
    then raise (KeyError (TColumnsNotFound missing_columns))
    else for_each column_types (convert_one errors)).

(** [len(df)] *)
Definition len (d : DataFrame) : nat := fst (shape d).

Definition remove_duplicate_rows (subset : option (list string)) (keep : Keep) : P unit :=
  logged (CallRemoveDuplicates subset keep) LogDuplicatesError (
    match given subset with
    | Some cols => check_columns cols
    | None => ret tt
    end ;;
    d <- self_df ;;
    let orig_count := len d in
    replace_df (fun d => drop_duplicates d subset keep) ;;
    d' <- self_df ;;
    let removed_count := (Z.of_nat orig_count - Z.of_nat (len d'))%Z in
    _log (LogDuplicatesRemoved removed_count (given subset) keep)).

Definition rename_columns (rename_map : list (string * string)) : P unit :=
  logged (CallRenameColumns rename_map) LogRenameError (
    d <- self_df ;;
    let missing_columns := missing_from d (map fst rename_map) in
    if nonempty missing_columns
    then raise (KeyError (TRenameNotFound missing_columns))
    else
      replace_df (fun d => rename d rename_map) ;;
      _log (LogRenamed rename_map)).

(** [set(a) - set(b)], listed in the order of [a]. *)
Definition set_difference (a b : list string) : list string :=
  filter (fun c => negb (Py.str_in c b)) (nodup string_dec a).

Definition select_columns (columns_to_keep : list string) : P unit :=
  logged (CallSelectColumns columns_to_keep) LogSelectError (
    d <- self_df ;;
    let missing_columns := missing_from d columns_to_keep in
    if nonempty missing_columns
    then raise (ValueError (TSelectNotFound missing_columns))
    else
      let original_columns := columns d in
      replace_df (fun d => getitem_list d columns_to_keep) ;;
      let removed_columns := set_difference original_columns columns_to_keep in
      _log (LogKept columns_to_keep) ;;
      if nonempty removed_columns
      then _log (LogColumnsRemoved removed_columns)
      else ret tt).

(** What a user function returns: the object it was given, a DataFrame of
    its own making, or something that is no DataFrame. *)
Inductive UserValue :=
| RetArgument
| RetFrame (d : DataFrame)
| RetOther (type_name : string).

(** A user function [func(df, *args, **kwargs)] with its arguments: from
    the frame it is given, the frame after the call (it may change it in
    place) and what the call returns or raises.  The function reaches the
    frame it is given and no other object of the store. *)
Definition UserFunc : Type := DataFrame -> DataFrame * Res UserValue.

Definition lookup_dtype (col : string) (l : list (string * string)) : option string :=
  snd <$> find (fun p => (fst p =? col)%string) l.

(** [{col: (orig[col], new[col]) for col in set(orig) & set(new)
      if orig[col] != new[col]}] *)
Definition changed_dtypes (orig new : list (string * string))
  : list (string * (string * string)) :=
  omap (fun col =>
          match lookup_dtype col orig, lookup_dtype col new with
          | Some a, Some b =>
              if (a =? b)%string then None else Some (col, (a, b))
          | _, _ => None
          end)
       (nodup string_dec (map fst orig)).

Definition shape_eqb (a b : Shape) : bool :=
  (fst a =? fst b)%nat && (snd a =? snd b)%nat.

Definition apply_custom_function (func : UserFunc) : P unit :=
  logged CallApplyCustom LogCustomError (
    d <- self_df ;;
    let orig_shape := shape d in
    let orig_dtypes := dtypes d in
    update_df (fst (func d)) ;;
    result <- lift (snd (func d)) ;;
    match result with
    | RetOther t => raise (ValueError (TNotDataFrame t))
    | RetArgument => ret tt
    | RetFrame d' => assign_df d'
    end ;;
    dn <- self_df ;;
    (if negb (shape_eqb orig_shape (shape dn))
     then _log (LogCustomShape orig_shape (shape dn)) else ret tt) ;;
    let new_dtypes := dtypes dn in
    let changed := changed_dtypes orig_dtypes new_dtypes in
    (if nonempty changed then _log (LogCustomDtypes changed) else ret tt) ;;
    let new_columns := set_difference (map fst new_dtypes) (map fst orig_dtypes) in
    (if nonempty new_columns then _log (LogCustomAdded new_columns) else ret tt) ;;
    let removed_columns := set_difference (map fst orig_dtypes) (map fst new_dtypes) in
    (if nonempty removed_columns then _log (LogCustomRemoved removed_columns) else ret tt) ;;
    _log LogCustomDone).

(** Returns the location of a copy of [self.df]. *)
Definition get_processed_df : P loc :=
  enter snd set_world CallGetProcessedDf ;;
  d <- self_df ;;
  _log (LogGot (shape d)) ;;
  alloc snd set_world d.

Definition get_log_messages : P (list LogMsg) :=
  gets (fun s => log_messages (fst s)).

(** ** DriveIOHandler *)

Definition digit (n : nat) : ascii := ascii_of_nat (48 + n mod 10).

Definition pad2 (n : nat) : string :=
  String (digit (n / 10)) (String (digit n) EmptyString).

Definition pad4 (n : nat) : string :=
  String (digit (n / 1000)) (String (digit (n / 100)) (pad2 n)).

(** [now.strftime('%Y%m%d_%H%M%S')] *)
Definition strftime (t : Clock) : string :=
  pad4 (year t) ++ pad2 (month t) ++ pad2 (day t) ++ "_"
  ++ pad2 (hour t) ++ pad2 (minute t) ++ pad2 (second t).

(** [os.path.join(a, b)] on a POSIX system. *)
Definition os_path_join (a b : string) : string :=
  if Py.startswith "/" b then b
  else if negb (Py.truthy a) || Py.ends_with_slash a then a ++ b
  else a ++ "/" ++ b.

Definition os_path_exists (w : World) (p : string) : bool := Py.str_in p (paths w).

Definition D := M World.

Definition say (m : UiMsg) : D unit := print id (fun w _ => w) (LineUi m).

(** [os.makedirs(path, exist_ok=True)] *)
Definition os_makedirs (path : string) : D unit :=
  fun w =>
    match makedirs_error w with
    | Some e => (Raise e, w)
    | None => (Ok tt, with_paths (paths w ++ [path]) w)
    end.

(** [DriveIOHandler(base_save_path)]: the handler keeps the path only. *)
Definition drive_init (base_save_path : string) : D string :=
  try_except
    (exists_ <- gets (fun w => os_path_exists w base_save_path) ;;
     if negb exists_ then
       os_makedirs base_save_path ;;
       say (DriveDirCreated base_save_path)
     else ret tt)
    (fun e => say (DriveDirWarning base_save_path e)) ;;
  ret base_save_path.

Definition default_base_save_path : string := "/content/drive/MyDrive/processed_data/".

(** The mounting step: [false] when the function returns [False] there. *)
Definition mount_drive : D bool :=
  c <- gets colab ;;
  match c with
  | ColabAbsent => say DriveNoColab ;; ret false
  | ColabMountFails e => say DriveMounting ;; say (DriveMountError e) ;; ret false
  | ColabMounts appear =>
      say DriveMounting ;;
      modify (fun w => with_paths (paths w ++ "/content/drive" :: appear) w) ;;
      say DriveMounted ;;
      ret true
  end.

Definition _ensure_drive_mounted (base_save_path : string) : D bool :=
  try_except
    (drive_exists <- gets (fun w => os_path_exists w "/content/drive") ;;
     mounted <-
       (if Py.contains "/content/drive" base_save_path && negb drive_exists
        then mount_drive else ret true) ;;
     if negb mounted then ret false
     else
       base_exists <- gets (fun w => os_path_exists w base_save_path) ;;
       if negb base_exists then
         try_except
           (os_makedirs base_save_path ;;
            say (DriveDirCreated base_save_path) ;;
            ret true)
           (fun e => say (DriveDirFailed base_save_path e) ;; ret false)
       else ret true)
    (fun e => say (DriveCheckError e) ;; ret false).

Definition valid_formats : list string := ["parquet"; "csv"; "feather"; "pickle"].

(** The file name: prefix, timestamp if there is one, extension. *)
Definition file_name (filename_prefix timestamp file_format : string) : string :=
  if Py.truthy timestamp
  then filename_prefix ++ "_" ++ timestamp ++ "." ++ file_format
  else filename_prefix ++ "." ++ file_format.

Definition metadata_name (filename_prefix timestamp : string) : string :=
  if Py.truthy timestamp
  then filename_prefix ++ "_" ++ timestamp ++ "_metadata.json"
  else filename_prefix ++ "_metadata.json".

(** A writer of the library on a path: the file is there when it returns. *)
Definition write_to (fmt : Format) (d : DataFrame) (path : string) : D unit :=
  fun w =>
    match write_frame fmt d path with
    | Some e => (Raise e, w)
    | None => (Ok tt, with_files (files w ++ [(path, (fmt, d))]) w)
    end.

(** [with open(path, 'w') as f: json.dump(metadata, f)] *)
Definition write_metadata (path : string) : D unit :=
  fun w =>
    match open_error w with
    | Some e => (Raise e, w)
    | None => (Ok tt, with_metadata_files (metadata_files w ++ [path]) w)
    end.

(** [save_dataframe(df, filename_prefix, file_format, include_timestamp,
    custom_metadata)] of a handler whose base path is [base_save_path];
    [custom_metadata] is [true] for a non-empty dictionary. *)
Definition save_dataframe (base_save_path : string) (df_loc : loc)
    (filename_prefix file_format : string) (include_timestamp : bool)
    (custom_metadata : bool) : D string :=
  enter id (fun w _ => w) (CallSaveDataframe filename_prefix file_format include_timestamp) ;;
  try_except
    (mounted <- _ensure_drive_mounted base_save_path ;;
     if negb mounted then
       say DriveUnavailable ;; ret ""
     else if negb (Py.str_in file_format valid_formats) then
       raise (ValueError (TUnsupportedFormat file_format valid_formats))
     else
       t <- gets now ;;
       let timestamp := if include_timestamp then strftime t else "" in
       let filename := file_name filename_prefix timestamp file_format in
       let full_path := os_path_join base_save_path filename in
       d <- gets (fun w => read (heap w) df_loc) ;;
       (if (file_format =? "parquet")%string then write_to Parquet d full_path
        else if (file_format =? "csv")%string then write_to Csv d full_path
        else if (file_format =? "feather")%string then
          df_with_idx <- lift (reset_index d) ;;
          write_to Feather df_with_idx full_path
        else if (file_format =? "pickle")%string then write_to Pickle d full_path
        else ret tt) ;;
       say (DriveFileSaved full_path) ;;
       (if custom_metadata then
          let metadata_path :=
            os_path_join base_save_path (metadata_name filename_prefix timestamp) in
          write_metadata metadata_path ;;
          say (DriveMetadataSaved metadata_path)
        else ret tt) ;;
       ret full_path)
    (fun e => say (DriveSaveError e) ;; ret "").

(** ** DataProcessorUI *)

(** The values of the widgets. *)
Record Widgets := {
  cb_set_datetime_index : bool;
  text_time_col : string;
  dropdown_time_errors : string;
  cb_infer_datetime_format : bool;
  cb_handle_missing : bool;
  dropdown_missing_strategy : string;
  text_missing_fill_value : string;
  dropdown_interpolate_method : string;
  text_missing_subset_cols : string;
  cb_convert_types : bool;
  textarea_column_types : string;
  dropdown_convert_errors : string;
  cb_remove_duplicates : bool;
  dropdown_duplicates_keep : Keep;
  text_duplicates_subset : string;
  cb_rename_columns : bool;
  textarea_rename_map : string;
  cb_select_columns : bool;
  text_columns_to_keep : string;
  text_save_filename_prefix : string;
  dropdown_save_format : string;
  cb_include_timestamp : bool
}.

(** [layout.display] of a widget: ['block'] or ['none']. *)
Inductive Display := Block | None_.

(** [layout.display] of the parameter widgets. *)
Record Layout := {
  show_time_col : Display;
  show_time_errors : Display;
  show_infer_datetime_format : Display;
  show_missing_strategy : Display;
  show_missing_fill_value : Display;
  show_interpolate_method : Display;
  show_missing_subset_cols : Display;
  show_column_types : Display;
  show_convert_errors : Display;
  show_duplicates_keep : Display;
  show_duplicates_subset : Display;
  show_rename_map : Display;
  show_columns_to_keep : Display
}.

(** What the preview area shows. *)
Inductive Preview :=
| PreviewTitle
| PreviewInfo (d : DataFrame)
| PreviewHead (d : DataFrame)
| PreviewNothing.

Record UI := {
  raw_df : loc;
  processed_df : option loc;
  processor : Processor;
  drive_saver : string;              (* the handler's base_save_path *)
  widgets : Widgets;
  layout : Layout;
  log_output : list Line;
  processed_df_preview_output : list Preview
}.

Definition set_processed_df (r : option loc) (u : UI) : UI :=
  {| raw_df := raw_df u; processed_df := r; processor := processor u;
     drive_saver := drive_saver u; widgets := widgets u; layout := layout u;
     log_output := log_output u;
     processed_df_preview_output := processed_df_preview_output u |}.

Definition set_processor (p : Processor) (u : UI) : UI :=
  {| raw_df := raw_df u; processed_df := processed_df u; processor := p;
     drive_saver := drive_saver u; widgets := widgets u; layout := layout u;
     log_output := log_output u;
     processed_df_preview_output := processed_df_preview_output u |}.

Definition set_widgets (v : Widgets) (u : UI) : UI :=
  {| raw_df := raw_df u; processed_df := processed_df u; processor := processor u;
     drive_saver := drive_saver u; widgets := v; layout := layout u;
     log_output := log_output u;
     processed_df_preview_output := processed_df_preview_output u |}.

Definition set_layout (l : Layout) (u : UI) : UI :=
  {| raw_df := raw_df u; processed_df := processed_df u; processor := processor u;
     drive_saver := drive_saver u; widgets := widgets u; layout := l;
     log_output := log_output u;
     processed_df_preview_output := processed_df_preview_output u |}.

Definition set_log_output (o : list Line) (u : UI) : UI :=
  {| raw_df := raw_df u; processed_df := processed_df u; processor := processor u;
     drive_saver := drive_saver u; widgets := widgets u; layout := layout u;
     log_output := o;
     processed_df_preview_output := processed_df_preview_output u |}.

Definition set_preview (o : list Preview) (u : UI) : UI :=
  {| raw_df := raw_df u; processed_df := processed_df u; processor := processor u;
     drive_saver := drive_saver u; widgets := widgets u; layout := layout u;
     log_output := log_output u;
     processed_df_preview_output := o |}.

(** The values the widgets are created with. *)
Definition initial_widgets : Widgets :=
  {| cb_set_datetime_index := false;
     text_time_col := "timestamp";
     dropdown_time_errors := "raise";
     cb_infer_datetime_format := true;
     cb_handle_missing := false;
     dropdown_missing_strategy := "ffill";
     text_missing_fill_value := "0";
     dropdown_interpolate_method := "linear";
     text_missing_subset_cols := "";
     cb_convert_types := false;
     textarea_column_types := "{}";
     dropdown_convert_errors := "raise";
     cb_remove_duplicates := false;
     dropdown_duplicates_keep := KeepStr "first";
     text_duplicates_subset := "";
     cb_rename_columns := false;
     textarea_rename_map := "{}";
     cb_select_columns := false;
     text_columns_to_keep := "";
     text_save_filename_prefix := "processed_data";
     dropdown_save_format := "parquet";
     cb_include_timestamp := true |}.

(** The end of [_setup_dynamic_widgets]: every parameter widget hidden. *)
Definition initial_layout : Layout :=
  {| show_time_col := None_; show_time_errors := None_;
     show_infer_datetime_format := None_;
     show_missing_strategy := None_; show_missing_fill_value := None_;
     show_interpolate_method := None_; show_missing_subset_cols := None_;
     show_column_types := None_; show_convert_errors := None_;
     show_duplicates_keep := None_; show_duplicates_subset := None_;
     show_rename_map := None_; show_columns_to_keep := None_ |}.

Definition shown (b : bool) : Display := if b then Block else None_.

(** *** The observers of [_setup_dynamic_widgets]

    Each takes [change['new']], the widget values at the time of the call
    and the layout, and gives the layout it leaves. *)

Definition on_datetime_checkbox_change (new : bool) (l : Layout) : Layout :=
  {| show_time_col := shown new; show_time_errors := shown new;
     show_infer_datetime_format := shown new;
     show_missing_strategy := show_missing_strategy l;
     show_missing_fill_value := show_missing_fill_value l;
     show_interpolate_method := show_interpolate_method l;
     show_missing_subset_cols := show_missing_subset_cols l;
     show_column_types := show_column_types l;
     show_convert_errors := show_convert_errors l;
     show_duplicates_keep := show_duplicates_keep l;
     show_duplicates_subset := show_duplicates_subset l;
     show_rename_map := show_rename_map l;
     show_columns_to_keep := show_columns_to_keep l |}.

Definition on_missing_checkbox_change (new : bool) (v : Widgets) (l : Layout) : Layout :=
  let strategy := dropdown_missing_strategy v in
  {| show_time_col := show_time_col l; show_time_errors := show_time_errors l;
     show_infer_datetime_format := show_infer_datetime_format l;
     show_missing_strategy := shown new;
     show_missing_fill_value :=
       if new then shown (strategy =? "fill_constant")%string else None_;
     show_interpolate_method :=
       if new then shown (strategy =? "interpolate")%string else None_;
     show_missing_subset_cols := shown new;
     show_column_types := show_column_types l;
     show_convert_errors := show_convert_errors l;
     show_duplicates_keep := show_duplicates_keep l;
     show_duplicates_subset := show_duplicates_subset l;
     show_rename_map := show_rename_map l;
     show_columns_to_keep := show_columns_to_keep l |}.

Definition on_missing_strategy_change (new : string) (l : Layout) : Layout :=
  {| show_time_col := show_time_col l; show_time_errors := show_time_errors l;
     show_infer_datetime_format := show_infer_datetime_format l;
     show_missing_strategy := show_missing_strategy l;
     show_missing_fill_value := shown (new =? "fill_constant")%string;
     show_interpolate_method := shown (new =? "interpolate")%string;
     show_missing_subset_cols := show_missing_subset_cols l;
     show_column_types := show_column_types l;
     show_convert_errors := show_convert_errors l;
     show_duplicates_keep := show_duplicates_keep l;
     show_duplicates_subset := show_duplicates_subset l;
     show_rename_map := show_rename_map l;
     show_columns_to_keep := show_columns_to_keep l |}.

Definition on_convert_types_checkbox_change (new : bool) (l : Layout) : Layout :=
  {| show_time_col := show_time_col l; show_time_errors := show_time_errors l;
     show_infer_datetime_format := show_infer_datetime_format l;
     show_missing_strategy := show_missing_strategy l;
     show_missing_fill_value := show_missing_fill_value l;
     show_interpolate_method := show_interpolate_method l;
     show_missing_subset_cols := show_missing_subset_cols l;
     show_column_types := shown new;
     show_convert_errors := shown new;
     show_duplicates_keep := show_duplicates_keep l;
     show_duplicates_subset := show_duplicates_subset l;
     show_rename_map := show_rename_map l;
     show_columns_to_keep := show_columns_to_keep l |}.

Definition on_remove_duplicates_checkbox_change (new : bool) (l : Layout) : Layout :=
  {| show_time_col := show_time_col l; show_time_errors := show_time_errors l;
     show_infer_datetime_format := show_infer_datetime_format l;
     show_missing_strategy := show_missing_strategy l;
     show_missing_fill_value := show_missing_fill_value l;
     show_interpolate_method := show_interpolate_method l;
     show_missing_subset_cols := show_missing_subset_cols l;
     show_column_types := show_column_types l;
     show_convert_errors := show_convert_errors l;
     show_duplicates_keep := shown new;
     show_duplicates_subset := shown new;
     show_rename_map := show_rename_map l;
     show_columns_to_keep := show_columns_to_keep l |}.

Definition on_rename_columns_checkbox_change (new : bool) (l : Layout) : Layout :=
  {| show_time_col := show_time_col l; show_time_errors := show_time_errors l;
     show_infer_datetime_format := show_infer_datetime_format l;
     show_missing_strategy := show_missing_strategy l;
     show_missing_fill_value := show_missing_fill_value l;
     show_interpolate_method := show_interpolate_method l;
     show_missing_subset_cols := show_missing_subset_cols l;
     show_column_types := show_column_types l;
     show_convert_errors := show_convert_errors l;
     show_duplicates_keep := show_duplicates_keep l;
     show_duplicates_subset := show_duplicates_subset l;
     show_rename_map := shown new;
     show_columns_to_keep := show_columns_to_keep l |}.

Definition on_select_columns_checkbox_change (new : bool) (l : Layout) : Layout :=
  {| show_time_col := show_time_col l; show_time_errors := show_time_errors l;
     show_infer_datetime_format := show_infer_datetime_format l;
     show_missing_strategy := show_missing_strategy l;
     show_missing_fill_value := show_missing_fill_value l;
     show_interpolate_method := show_interpolate_method l;
     show_missing_subset_cols := show_missing_subset_cols l;
     show_column_types := show_column_types l;
     show_convert_errors := show_convert_errors l;
     show_duplicates_keep := show_duplicates_keep l;
     show_duplicates_subset := show_duplicates_subset l;
     show_rename_map := show_rename_map l;
     show_columns_to_keep := shown new |}.

(** *** Assignments to the observed widgets *)

Definition set_cb_set_datetime_index (x : bool) (v : Widgets) : Widgets :=
  {| cb_set_datetime_index := x; text_time_col := text_time_col v;
     dropdown_time_errors := dropdown_time_errors v;
     cb_infer_datetime_format := cb_infer_datetime_format v;
     cb_handle_missing := cb_handle_missing v;
     dropdown_missing_strategy := dropdown_missing_strategy v;
     text_missing_fill_value := text_missing_fill_value v;
     dropdown_interpolate_method := dropdown_interpolate_method v;
     text_missing_subset_cols := text_missing_subset_cols v;
     cb_convert_types := cb_convert_types v;
     textarea_column_types := textarea_column_types v;
     dropdown_convert_errors := dropdown_convert_errors v;
     cb_remove_duplicates := cb_remove_duplicates v;
     dropdown_duplicates_keep := dropdown_duplicates_keep v;
     text_duplicates_subset := text_duplicates_subset v;
     cb_rename_columns := cb_rename_columns v;
     textarea_rename_map := textarea_rename_map v;
     cb_select_columns := cb_select_columns v;
     text_columns_to_keep := text_columns_to_keep v;
     text_save_filename_prefix := text_save_filename_prefix v;
     dropdown_save_format := dropdown_save_format v;
     cb_include_timestamp := cb_include_timestamp v |}.

Definition set_cb_handle_missing (x : bool) (v : Widgets) : Widgets :=
  {| cb_set_datetime_index := cb_set_datetime_index v; text_time_col := text_time_col v;
     dropdown_time_errors := dropdown_time_errors v;
     cb_infer_datetime_format := cb_infer_datetime_format v; cb_handle_missing := x;
     dropdown_missing_strategy := dropdown_missing_strategy v;
     text_missing_fill_value := text_missing_fill_value v;
     dropdown_interpolate_method := dropdown_interpolate_method v;
     text_missing_subset_cols := text_missing_subset_cols v;
     cb_convert_types := cb_convert_types v;
     textarea_column_types := textarea_column_types v;
     dropdown_convert_errors := dropdown_convert_errors v;
     cb_remove_duplicates := cb_remove_duplicates v;
     dropdown_duplicates_keep := dropdown_duplicates_keep v;
     text_duplicates_subset := text_duplicates_subset v;
     cb_rename_columns := cb_rename_columns v;
     textarea_rename_map := textarea_rename_map v;
     cb_select_columns := cb_select_columns v;
     text_columns_to_keep := text_columns_to_keep v;
     text_save_filename_prefix := text_save_filename_prefix v;
     dropdown_save_format := dropdown_save_format v;
     cb_include_timestamp := cb_include_timestamp v |}.

Definition set_dropdown_missing_strategy (x : string) (v : Widgets) : Widgets :=
  {| cb_set_datetime_index := cb_set_datetime_index v; text_time_col := text_time_col v;
     dropdown_time_errors := dropdown_time_errors v;
     cb_infer_datetime_format := cb_infer_datetime_format v;
     cb_handle_missing := cb_handle_missing v; dropdown_missing_strategy := x;
     text_missing_fill_value := text_missing_fill_value v;
     dropdown_interpolate_method := dropdown_interpolate_method v;
     text_missing_subset_cols := text_missing_subset_cols v;
     cb_convert_types := cb_convert_types v;
     textarea_column_types := textarea_column_types v;
     dropdown_convert_errors := dropdown_convert_errors v;
     cb_remove_duplicates := cb_remove_duplicates v;
     dropdown_duplicates_keep := dropdown_duplicates_keep v;
     text_duplicates_subset := text_duplicates_subset v;
     cb_rename_columns := cb_rename_columns v;
     textarea_rename_map := textarea_rename_map v;
     cb_select_columns := cb_select_columns v;
     text_columns_to_keep := text_columns_to_keep v;
     text_save_filename_prefix := text_save_filename_prefix v;
     dropdown_save_format := dropdown_save_format v;
     cb_include_timestamp := cb_include_timestamp v |}.

Definition set_cb_convert_types (x : bool) (v : Widgets) : Widgets :=
  {| cb_set_datetime_index := cb_set_datetime_index v; text_time_col := text_time_col v;
     dropdown_time_errors := dropdown_time_errors v;
     cb_infer_datetime_format := cb_infer_datetime_format v;
     cb_handle_missing := cb_handle_missing v;
     dropdown_missing_strategy := dropdown_missing_strategy v;
     text_missing_fill_value := text_missing_fill_value v;
     dropdown_interpolate_method := dropdown_interpolate_method v;
     text_missing_subset_cols := text_missing_subset_cols v; cb_convert_types := x;
     textarea_column_types := textarea_column_types v;
     dropdown_convert_errors := dropdown_convert_errors v;
     cb_remove_duplicates := cb_remove_duplicates v;
     dropdown_duplicates_keep := dropdown_duplicates_keep v;
     text_duplicates_subset := text_duplicates_subset v;
     cb_rename_columns := cb_rename_columns v;
     textarea_rename_map := textarea_rename_map v;
     cb_select_columns := cb_select_columns v;
     text_columns_to_keep := text_columns_to_keep v;
     text_save_filename_prefix := text_save_filename_prefix v;
     dropdown_save_format := dropdown_save_format v;
     cb_include_timestamp := cb_include_timestamp v |}.

Definition set_cb_remove_duplicates (x : bool) (v : Widgets) : Widgets :=
  {| cb_set_datetime_index := cb_set_datetime_index v; text_time_col := text_time_col v;
     dropdown_time_errors := dropdown_time_errors v;
     cb_infer_datetime_format := cb_infer_datetime_format v;
     cb_handle_missing := cb_handle_missing v;
     dropdown_missing_strategy := dropdown_missing_strategy v;
     text_missing_fill_value := text_missing_fill_value v;
     dropdown_interpolate_method := dropdown_interpolate_method v;
     text_missing_subset_cols := text_missing_subset_cols v;
     cb_convert_types := cb_convert_types v;
     textarea_column_types := textarea_column_types v;
     dropdown_convert_errors := dropdown_convert_errors v; cb_remove_duplicates := x;
     dropdown_duplicates_keep := dropdown_duplicates_keep v;
     text_duplicates_subset := text_duplicates_subset v;
     cb_rename_columns := cb_rename_columns v;
     textarea_rename_map := textarea_rename_map v;
     cb_select_columns := cb_select_columns v;
     text_columns_to_keep := text_columns_to_keep v;
     text_save_filename_prefix := text_save_filename_prefix v;
     dropdown_save_format := dropdown_save_format v;
     cb_include_timestamp := cb_include_timestamp v |}.

Definition set_cb_rename_columns (x : bool) (v : Widgets) : Widgets :=
  {| cb_set_datetime_index := cb_set_datetime_index v; text_time_col := text_time_col v;
     dropdown_time_errors := dropdown_time_errors v;
     cb_infer_datetime_format := cb_infer_datetime_format v;
     cb_handle_missing := cb_handle_missing v;
     dropdown_missing_strategy := dropdown_missing_strategy v;
     text_missing_fill_value := text_missing_fill_value v;
     dropdown_interpolate_method := dropdown_interpolate_method v;
     text_missing_subset_cols := text_missing_subset_cols v;
     cb_convert_types := cb_convert_types v;
     textarea_column_types := textarea_column_types v;
     dropdown_convert_errors := dropdown_convert_errors v;
     cb_remove_duplicates := cb_remove_duplicates v;
     dropdown_duplicates_keep := dropdown_duplicates_keep v;
     text_duplicates_subset := text_duplicates_subset v; cb_rename_columns := x;
     textarea_rename_map := textarea_rename_map v;
     cb_select_columns := cb_select_columns v;
     text_columns_to_keep := text_columns_to_keep v;
     text_save_filename_prefix := text_save_filename_prefix v;
     dropdown_save_format := dropdown_save_format v;
     cb_include_timestamp := cb_include_timestamp v |}.

Definition set_cb_select_columns (x : bool) (v : Widgets) : Widgets :=
  {| cb_set_datetime_index := cb_set_datetime_index v; text_time_col := text_time_col v;
     dropdown_time_errors := dropdown_time_errors v;
     cb_infer_datetime_format := cb_infer_datetime_format v;
     cb_handle_missing := cb_handle_missing v;
     dropdown_missing_strategy := dropdown_missing_strategy v;
     text_missing_fill_value := text_missing_fill_value v;
     dropdown_interpolate_method := dropdown_interpolate_method v;
     text_missing_subset_cols := text_missing_subset_cols v;
     cb_convert_types := cb_convert_types v;
     textarea_column_types := textarea_column_types v;
     dropdown_convert_errors := dropdown_convert_errors v;
     cb_remove_duplicates := cb_remove_duplicates v;
     dropdown_duplicates_keep := dropdown_duplicates_keep v;
     text_duplicates_subset := text_duplicates_subset v;
     cb_rename_columns := cb_rename_columns v;
     textarea_rename_map := textarea_rename_map v; cb_select_columns := x;
     text_columns_to_keep := text_columns_to_keep v;
     text_save_filename_prefix := text_save_filename_prefix v;
     dropdown_save_format := dropdown_save_format v;
     cb_include_timestamp := cb_include_timestamp v |}.

(** Assignments to text widgets. *)

Definition set_text_time_col (x : string) (v : Widgets) : Widgets :=
  {| cb_set_datetime_index := cb_set_datetime_index v; text_time_col := x;
     dropdown_time_errors := dropdown_time_errors v;
     cb_infer_datetime_format := cb_infer_datetime_format v;
     cb_handle_missing := cb_handle_missing v;
     dropdown_missing_strategy := dropdown_missing_strategy v;
     text_missing_fill_value := text_missing_fill_value v;
     dropdown_interpolate_method := dropdown_interpolate_method v;
     text_missing_subset_cols := text_missing_subset_cols v;
     cb_convert_types := cb_convert_types v;
     textarea_column_types := textarea_column_types v;
     dropdown_convert_errors := dropdown_convert_errors v;
     cb_remove_duplicates := cb_remove_duplicates v;
     dropdown_duplicates_keep := dropdown_duplicates_keep v;
     text_duplicates_subset := text_duplicates_subset v;
     cb_rename_columns := cb_rename_columns v;
     textarea_rename_map := textarea_rename_map v;
     cb_select_columns := cb_select_columns v;
     text_columns_to_keep := text_columns_to_keep v;
     text_save_filename_prefix := text_save_filename_prefix v;
     dropdown_save_format := dropdown_save_format v;
     cb_include_timestamp := cb_include_timestamp v |}.


Definition set_textarea_rename_map (x : string) (v : Widgets) : Widgets :=
  {| cb_set_datetime_index := cb_set_datetime_index v; text_time_col := text_time_col v;
     dropdown_time_errors := dropdown_time_errors v;
     cb_infer_datetime_format := cb_infer_datetime_format v;
     cb_handle_missing := cb_handle_missing v;
     dropdown_missing_strategy := dropdown_missing_strategy v;
     text_missing_fill_value := text_missing_fill_value v;
     dropdown_interpolate_method := dropdown_interpolate_method v;
     text_missing_subset_cols := text_missing_subset_cols v;
     cb_convert_types := cb_convert_types v;
     textarea_column_types := textarea_column_types v;
     dropdown_convert_errors := dropdown_convert_errors v;
     cb_remove_duplicates := cb_remove_duplicates v;
     dropdown_duplicates_keep := dropdown_duplicates_keep v;
     text_duplicates_subset := text_duplicates_subset v;
     cb_rename_columns := cb_rename_columns v; textarea_rename_map := x;
     cb_select_columns := cb_select_columns v;
     text_columns_to_keep := text_columns_to_keep v;
     text_save_filename_prefix := text_save_filename_prefix v;
     dropdown_save_format := dropdown_save_format v;
     cb_include_timestamp := cb_include_timestamp v |}.

(** A change of the value of an observed widget. *)
Inductive Event :=
| SetDatetimeIndex (new : bool)
| SetHandleMissing (new : bool)
| SetMissingStrategy (new : string)
| SetConvertTypes (new : bool)
| SetRemoveDuplicates (new : bool)
| SetRenameColumns (new : bool)
| SetSelectColumns (new : bool).

(** [widget.value = new]: the value is stored and the observer runs, when
    the value changes; a dropdown refuses a value that is not an option. *)
Definition fire (e : Event) (u : UI) : UI :=
  let v := widgets u in
  match e with
  | SetDatetimeIndex new =>
      if Bool.eqb new (cb_set_datetime_index v) then u
      else set_layout (on_datetime_checkbox_change new (layout u))
             (set_widgets (set_cb_set_datetime_index new v) u)
  | SetHandleMissing new =>
      if Bool.eqb new (cb_handle_missing v) then u
      else set_layout (on_missing_checkbox_change new v (layout u))
             (set_widgets (set_cb_handle_missing new v) u)
  | SetMissingStrategy new =>
      if (new =? dropdown_missing_strategy v)%string
         || negb (Py.str_in new valid_strategies) then u
      else set_layout (on_missing_strategy_change new (layout u))
             (set_widgets (set_dropdown_missing_strategy new v) u)
  | SetConvertTypes new =>
      if Bool.eqb new (cb_convert_types v) then u
      else set_layout (on_convert_types_checkbox_change new (layout u))
             (set_widgets (set_cb_convert_types new v) u)
  | SetRemoveDuplicates new =>
      if Bool.eqb new (cb_remove_duplicates v) then u
      else set_layout (on_remove_duplicates_checkbox_change new (layout u))
             (set_widgets (set_cb_remove_duplicates new v) u)
  | SetRenameColumns new =>
      if Bool.eqb new (cb_rename_columns v) then u
      else set_layout (on_rename_columns_checkbox_change new (layout u))
             (set_widgets (set_cb_rename_columns new v) u)
  | SetSelectColumns new =>
      if Bool.eqb new (cb_select_columns v) then u
      else set_layout (on_select_columns_checkbox_change new (layout u))
             (set_widgets (set_cb_select_columns new v) u)
  end.

(** A sequence of changes, first to last. *)
Definition fire_all (es : list Event) (u : UI) : UI :=
  fold_left (fun u e => fire e u) es u.

(** *** The constructor and the button *)

Definition U := M (UI * World).

Definition set_ui_world (w : World) (s : UI * World) : UI * World := (fst s, w).

Definition tell (m : UiMsg) : U unit := print snd set_ui_world (LineUi m).

(** A method of [self.processor]. *)
Definition on_processor {A} (m : P A) : U A :=
  fun s =>
    match m (processor (fst s), snd s) with
    | (r, (p, w)) => (r, (set_processor p (fst s), w))
    end.

(** A method of [self.drive_saver]. *)
Definition on_drive {A} (m : D A) : U A :=
  fun s => match m (snd s) with (r, w) => (r, (fst s, w)) end.

(** [with self.log_output: body]: what [body] prints goes to the widget. *)
Definition with_log_output (body : U unit) : U unit :=
  fun s =>
    let outer := stdout (snd s) in
    match body (fst s, with_stdout [] (snd s)) with
    | (r, (u, w)) =>
        (r, (set_log_output (log_output u ++ stdout w) u, with_stdout outer w))
    end.

(** [DataProcessorUI(input_df)] *)
Definition ui_init (input_df : loc) : D UI :=
  fun w =>
    let blank := {| df := input_df; log_messages := [] |} in
    match init input_df (blank, w) with
    | (_, (p, w1)) =>
        match drive_init default_base_save_path w1 with
        | (_, w2) =>
            (Ok {| raw_df := input_df; processed_df := None; processor := p;
                   drive_saver := default_base_save_path;
                   widgets := initial_widgets; layout := initial_layout;
                   log_output := []; processed_df_preview_output := [] |}, w2)
        end
    end.

(** [fill_value] for the strategy ['fill_constant']: the text as a number
    if it reads as one, the text otherwise. *)
Definition parse_fill_value (fill_value_text : string) : Scalar :=
  if Py.has_char "."%char fill_value_text then
    match py_float fill_value_text with
    | Some x => x
    | None => scalar_of_str fill_value_text
    end
  else
    match py_int fill_value_text with
    | Some n => scalar_of_int n
    | None => scalar_of_str fill_value_text
    end.

Definition is_json_error (e : Exn) : bool :=
  match e with JSONDecodeError _ => true | _ => false end.

Definition step_datetime (v : Widgets) : U unit :=
  if cb_set_datetime_index v then
    tell UiHeaderDatetime ;;
    let time_col := Py.strip (text_time_col v) in
    let errors := dropdown_time_errors v in
    let infer_datetime_format := cb_infer_datetime_format v in
    try_except
      (on_processor (set_datetime_index time_col errors infer_datetime_format))
      (fun e => tell (UiDatetimeError e))
  else ret tt.

Definition step_missing (v : Widgets) : U unit :=
  if cb_handle_missing v then
    tell UiHeaderMissing ;;
    let strategy := dropdown_missing_strategy v in
    let subset_cols := Py.column_list (Py.strip (text_missing_subset_cols v)) in
    let fill_value :=
      if (strategy =? "fill_constant")%string
      then Some (parse_fill_value (Py.strip (text_missing_fill_value v)))
      else None in
    let method :=
      if (strategy =? "interpolate")%string
      then dropdown_interpolate_method v else "linear" in
    try_except
      (on_processor (handle_missing_values strategy subset_cols fill_value method))
      (fun e => tell (UiMissingError e))
  else ret tt.

Definition step_convert (v : Widgets) : U unit :=
  if cb_convert_types v then
    tell UiHeaderConvert ;;
    try_except
      (column_types <- lift (json_loads (textarea_column_types v)) ;;
       let errors := dropdown_convert_errors v in
       on_processor (convert_data_types column_types errors))
      (fun e =>
         if is_json_error e then tell (UiConvertJsonError e)
         else tell (UiConvertError e))
  else ret tt.

Definition step_duplicates (v : Widgets) : U unit :=
  if cb_remove_duplicates v then
    tell UiHeaderDuplicates ;;
    let subset := Py.column_list (Py.strip (text_duplicates_subset v)) in
    let keep := dropdown_duplicates_keep v in
    try_except
      (on_processor (remove_duplicate_rows subset keep))
      (fun e => tell (UiDuplicatesError e))
  else ret tt.

Definition step_rename (v : Widgets) : U unit :=
  if cb_rename_columns v then
    tell UiHeaderRename ;;
    try_except
      (rename_map <- lift (json_loads (textarea_rename_map v)) ;;
       on_processor (rename_columns rename_map))
      (fun e =>
         if is_json_error e then tell (UiRenameJsonError e)
         else tell (UiRenameError e))
  else ret tt.

Definition step_select (v : Widgets) : U unit :=
  if cb_select_columns v then
    tell UiHeaderSelect ;;
    let columns_text := Py.strip (text_columns_to_keep v) in
    match Py.column_list columns_text with
    | Some columns_to_keep =>
        try_except
          (on_processor (select_columns columns_to_keep))
          (fun e => tell (UiSelectError e))
    | None => tell UiSelectSkipped
    end
  else ret tt.

(** The export of [self.processed_df], at location [r]. *)
Definition step_save (v : Widgets) (r : loc) : U unit :=
  tell UiHeaderSave ;;
  let filename_prefix := Py.strip (text_save_filename_prefix v) in
  let file_format := dropdown_save_format v in
  let include_timestamp := cb_include_timestamp v in
  try_except
    (base <- gets (fun s => drive_saver (fst s)) ;;
     file_path <- on_drive (save_dataframe base r filename_prefix file_format
                              include_timestamp false) ;;
     if Py.truthy file_path then tell (UiSaved file_path) else ret tt)
    (fun e => tell (UiSaveError e)).

(** The preview of [self.processed_df]. *)
Definition show_preview : U unit :=
  modify (fun s =>
    match processed_df (fst s) with
    | Some r =>
        let d := read (heap (snd s)) r in
        (set_preview (processed_df_preview_output (fst s)
                      ++ [PreviewTitle; PreviewInfo d; PreviewHead d]) (fst s), snd s)
    | None =>
        (set_preview (processed_df_preview_output (fst s) ++ [PreviewNothing]) (fst s),
         snd s)
    end).

Definition _on_process_button_clicked : U unit :=
  modify (fun s => (set_preview [] (set_log_output [] (fst s)), snd s)) ;;
  with_log_output (
    tell UiStart ;;
    raw <- gets (fun s => read (heap (snd s)) (raw_df (fst s))) ;;
    copy <- alloc snd set_ui_world raw ;;              (* self.raw_df.copy() *)
    on_processor (init copy) ;;
    v <- gets (fun s => widgets (fst s)) ;;
    step_datetime v ;;
    step_missing v ;;
    step_convert v ;;
    step_duplicates v ;;
    step_rename v ;;
    step_select v ;;
    r <- on_processor get_processed_df ;;
    modify (fun s => (set_processed_df (Some r) (fst s), snd s)) ;;
    step_save v r ;;
    tell UiDone) ;;
  show_preview.

(** [get_final_dataframe] *)
Definition get_final_dataframe (u : UI) : option loc := processed_df u.

End Framework.

(** ** A small library instance

    Tables of integers and strings, kept by rows; a missing cell is [None].
    The closed examples below are evaluated on it. *)

Module Toy.

Inductive value := VInt (n : Z) | VStr (s : string).

Definition cell : Type := option value.

Record frame := {
  names : list string;               (* the column labels *)
  index_name : option string;        (* the label of the index, if set *)
  rows : list (cell * list cell)     (* index label and cells of each row *)
}.

Definition value_eqb (a b : value) : bool :=
  match a, b with
  | VInt x, VInt y => (x =? y)%Z
  | VStr x, VStr y => (x =? y)%string
  | _, _ => false
  end.

Definition cell_eqb (a b : cell) : bool :=
  match a, b with
  | Some x, Some y => value_eqb x y
  | None, None => true
  | _, _ => false
  end.

Fixpoint cells_eqb (a b : list cell) : bool :=
  match a, b with
  | [], [] => true
  | x :: a', y :: b' => cell_eqb x y && cells_eqb a' b'
  | _, _ => false
  end.

Definition is_na (c : cell) : bool :=
  match c with None => true | Some _ => false end.

Fixpoint position (col : string) (l : list string) : option nat :=
  match l with
  | [] => None
  | c :: l' => if (c =? col)%string then Some 0 else S <$> position col l'
  end.

Definition absent (col : string) : Exn := KeyError (TText col).

Definition t_getitem (d : frame) (col : string) : Res (list cell) :=
  match position col (names d) with
  | Some i => Ok (map (fun r => default None (snd r !! i)) (rows d))
  | None => Raise (absent col)
  end.

Fixpoint positions (cols l : list string) : Res (list nat) :=
  match cols with
  | [] => Ok []
  | c :: cols' =>
      match position c l, positions cols' l with
      | Some i, Ok r => Ok (i :: r)
      | None, _ => Raise (absent c)
      | _, Raise e => Raise e
      end
  end.

Definition project_row (idx : list nat) (r : cell * list cell) : cell * list cell :=
  (fst r, map (fun i => default None (snd r !! i)) idx).

Definition t_getitem_list (d : frame) (cols : list string) : Res frame :=
  match positions cols (names d) with
  | Ok idx => Ok {| names := cols; index_name := index_name d;
                    rows := map (project_row idx) (rows d) |}
  | Raise e => Raise e
  end.

(** Row by row, the cell of column [i] replaced or a cell appended. *)
Fixpoint put_cells (i : option nat) (rs : list (cell * list cell)) (s : list cell)
  : list (cell * list cell) :=
  match rs, s with
  | r :: rs', c :: s' =>
      (fst r, match i with
              | Some k => <[k := c]> (snd r)
              | None => snd r ++ [c]
              end) :: put_cells i rs' s'
  | _, _ => []
  end.

Definition t_setitem (d : frame) (col : string) (s : list cell) : Res frame :=
  if negb (length s =? length (rows d))%nat then
    Raise (ValueError (TText "Length of values does not match length of index"))
  else
    match position col (names d) with
    | Some i => Ok {| names := names d; index_name := index_name d;
                      rows := put_cells (Some i) (rows d) s |}
    | None => Ok {| names := names d ++ [col]; index_name := index_name d;
                    rows := put_cells None (rows d) s |}
    end.

Fixpoint t_setitem_each (d : frame) (cols : list string) (src : frame) : Res frame :=
  match cols with
  | [] => Ok d
  | c :: cols' =>
      match t_getitem src c with
      | Ok s =>
          match t_setitem d c s with
          | Ok d' => t_setitem_each d' cols' src
          | Raise e => Raise e
          end
      | Raise e => Raise e
      end
  end.

Definition t_set_index (d : frame) (col : string) : Res frame :=
  match position col (names d) with
  | Some i =>
      Ok {| names := take i (names d) ++ drop (S i) (names d);
            index_name := Some col;
            rows := map (fun r => (default None (snd r !! i),
                                   take i (snd r) ++ drop (S i) (snd r))) (rows d) |}
  | None => Raise (absent col)
  end.

Definition count_na (d : frame) : nat :=
  list_sum (map (fun r => length (filter (fun c => is_na c = true) (snd r))) (rows d)).

(** Forward fill: a missing cell takes the last value seen in its column. *)
Fixpoint ffill_rows (prev : list cell) (rs : list (cell * list cell))
  : list (cell * list cell) :=
  match rs with
  | [] => []
  | r :: rs' =>
      let filled :=
        imap (fun i c => if is_na c then default None (prev !! i) else c) (snd r) in
      (fst r, filled) :: ffill_rows filled rs'
  end.

Definition t_fillna_method (d : frame) (m : string) : Res frame :=
  if (m =? "ffill")%string then
    Ok {| names := names d; index_name := index_name d;
          rows := ffill_rows [] (rows d) |}
  else if (m =? "bfill")%string then
    Ok {| names := names d; index_name := index_name d;
          rows := rev (ffill_rows [] (rev (rows d))) |}
  else Raise (ValueError (TText "Invalid fill method")).

Definition fill_cell (v : value) (c : cell) : cell :=
  match c with None => Some v | Some x => Some x end.

Definition t_fillna_value (d : frame) (v : value) : Res frame :=
  Ok {| names := names d; index_name := index_name d;
        rows := map (fun r => (fst r, map (fill_cell v) (snd r))) (rows d) |}.

Definition complete_at (idx : list nat) (r : cell * list cell) : bool :=
  forallb (fun i => negb (is_na (default None (snd r !! i)))) idx.

Definition t_dropna (d : frame) (subset : option (list string)) : Res frame :=
  match positions (default (names d) subset) (names d) with
  | Ok idx => Ok {| names := names d; index_name := index_name d;
                    rows := filter (fun r => complete_at idx r = true) (rows d) |}
  | Raise e => Raise e
  end.

Definition column_complete (d : frame) (col : string) : bool :=
  match t_getitem d col with
  | Ok s => forallb (fun c => negb (is_na c)) s
  | Raise _ => false
  end.

Definition t_dropna_columns (d : frame) : Res frame :=
  t_getitem_list d (filter (fun c => column_complete d c = true) (names d)).

Definition is_int (c : cell) : bool :=
  match c with Some (VStr _) => false | _ => true end.

Definition int_values (s : list cell) : list Z :=
  omap (fun c => match c with Some (VInt n) => Some n | _ => None end) s.

Definition t_mean (s : list cell) : Res value :=
  match int_values s with
  | [] => Raise (ValueError (TText "mean of no values"))
  | l => Ok (VInt (fold_right Z.add 0%Z l / Z.of_nat (length l)))
  end.

Fixpoint insert_sorted (x : Z) (l : list Z) : list Z :=
  match l with
  | [] => [x]
  | y :: l' => if (x <=? y)%Z then x :: l else y :: insert_sorted x l'
  end.

Definition t_median (s : list cell) : Res value :=
  let l := fold_right insert_sorted [] (int_values s) in
  match l !! (length l / 2)%nat with
  | Some n => Ok (VInt n)
  | None => Raise (ValueError (TText "median of no values"))
  end.

Fixpoint digits (fuel : nat) (n : nat) (acc : string) : string :=
  match fuel with
  | O => acc
  | S fuel' =>
      let acc' := String (ascii_of_nat (48 + n mod 10)) acc in
      if (n <? 10)%nat then acc' else digits fuel' (n / 10) acc'
  end.

Definition show_int (n : Z) : string :=
  let s := digits (S (Z.to_nat (Z.abs n))) (Z.to_nat (Z.abs n)) "" in
  if (n <? 0)%Z then "-" ++ s else s.

Definition t_astype (s : list cell) (t : AsType) (errors : string) : Res (list cell) :=
  match t with
  | TyStr =>
      Ok (map (fun c => match c with
                        | Some (VInt n) => Some (VStr (show_int n))
                        | _ => c
                        end) s)
  | TyFloat | TyInt64 | TyInt =>
      if forallb is_int s then
        if forallb (fun c => negb (is_na c)) s || negb (match t with TyInt => true | _ => false end)
        then Ok s
        else if (errors =? "ignore")%string then Ok s
        else Raise (ValueError (TText "cannot convert NA to integer"))
      else if (errors =? "ignore")%string then Ok s
      else Raise (ValueError (TText "invalid literal"))
  | TyCategory | TyBool => Ok s
  end.

Definition t_dtype (s : list cell) : string :=
  if forallb is_int s then "int64" else "object".

(** The rows whose key was not seen before. *)
Fixpoint first_of_each (key : cell * list cell -> list cell)
    (seen : list (list cell)) (rs : list (cell * list cell)) : list (cell * list cell) :=
  match rs with
  | [] => []
  | r :: rs' =>
      if existsb (cells_eqb (key r)) seen then first_of_each key seen rs'
      else r :: first_of_each key (key r :: seen) rs'
  end.

Definition occurrences (key : cell * list cell -> list cell)
    (rs : list (cell * list cell)) (k : list cell) : nat :=
  length (filter (fun r => cells_eqb (key r) k = true) rs).

Definition t_drop_duplicates (d : frame) (subset : option (list string)) (keep : Keep)
  : Res frame :=
  match positions (default (names d) subset) (names d) with
  | Raise e => Raise e
  | Ok idx =>
      let key r := snd (project_row idx r) in
      let with_rows rs :=
        Ok {| names := names d; index_name := index_name d; rows := rs |} in
      match keep with
      | KeepFalse =>
          with_rows (filter (fun r => (occurrences key (rows d) (key r) =? 1)%nat = true)
                       (rows d))
      | KeepStr k =>
          if (k =? "first")%string then with_rows (first_of_each key [] (rows d))
          else if (k =? "last")%string
          then with_rows (rev (first_of_each key [] (rev (rows d))))
          else Raise (ValueError (TText "keep must be first, last or False"))
      end
  end.

Definition new_name (m : list (string * string)) (c : string) : string :=
  match find (fun p => (fst p =? c)%string) m with
  | Some p => snd p
  | None => c
  end.

(** Labels that are not columns are left alone, as [rename] does. *)
Definition t_rename (d : frame) (m : list (string * string)) : Res frame :=
  Ok {| names := map (new_name m) (names d); index_name := index_name d;
        rows := rows d |}.

Definition t_reset_index (d : frame) : Res frame :=
  Ok {| names := default "index" (index_name d) :: names d;
        index_name := None;
        rows := imap (fun i r => (Some (VInt (Z.of_nat i)), fst r :: snd r)) (rows d) |}.

(** [int(text)] for an optional sign and decimal digits. *)
Fixpoint read_digits (s : string) (acc : Z) : option Z :=
  match s with
  | EmptyString => Some acc
  | String c s' =>
      let n := nat_of_ascii c in
      if (48 <=? n)%nat && (n <=? 57)%nat
      then read_digits s' (10 * acc + Z.of_nat (n - 48))%Z
      else None
  end.

Definition t_int (s : string) : option Z :=
  match s with
  | EmptyString => None
  | String c s' =>
      if Ascii.eqb c "-"%char then
        match s' with
        | EmptyString => None
        | _ => Z.opp <$> read_digits s' 0%Z
        end
      else read_digits s 0%Z
  end.

(** A reader of JSON objects whose keys and values are strings without
    escapes, such as [{"a": "float", "b": "int"}]; any other text is
    refused as malformed. *)
Inductive json_state :=
| JStart                         (* before the opening brace *)
| JKeyOrEnd                      (* after the brace: a key or the closing brace *)
| JKey                           (* after a comma: a key *)
| JInKey (k : string)
| JColon (k : string)
| JValue (k : string)
| JInValue (k v : string)
| JCommaOrEnd
| JDone.

Definition json_error : Exn := JSONDecodeError (TText "Expecting value").

Fixpoint read_json (st : json_state) (acc : list (string * string)) (s : string)
  : Res (list (string * string)) :=
  match s with
  | EmptyString =>
      match st with JDone => Ok (rev acc) | _ => Raise json_error end
  | String c s' =>
      let quote := Ascii.eqb c "034"%char in
      let blank := Py.is_space c in
      match st with
      | JStart =>
          if blank then read_json JStart acc s'
          else if Ascii.eqb c "{"%char then read_json JKeyOrEnd acc s'
          else Raise json_error
      | JKeyOrEnd =>
          if blank then read_json JKeyOrEnd acc s'
          else if quote then read_json (JInKey "") acc s'
          else if Ascii.eqb c "}"%char then read_json JDone acc s'
          else Raise json_error
      | JKey =>
          if blank then read_json JKey acc s'
          else if quote then read_json (JInKey "") acc s'
          else Raise json_error
      | JInKey k =>
          if quote then read_json (JColon k) acc s'
          else if Ascii.eqb c "\"%char then Raise json_error
          else read_json (JInKey (k ++ String c "")) acc s'
      | JColon k =>
          if blank then read_json (JColon k) acc s'
          else if Ascii.eqb c ":"%char then read_json (JValue k) acc s'
          else Raise json_error
      | JValue k =>
          if blank then read_json (JValue k) acc s'
          else if quote then read_json (JInValue k "") acc s'
          else Raise json_error
      | JInValue k v =>
          if quote then read_json JCommaOrEnd ((k, v) :: acc) s'
          else if Ascii.eqb c "\"%char then Raise json_error
          else read_json (JInValue k (v ++ String c "")) acc s'
      | JCommaOrEnd =>
          if blank then read_json JCommaOrEnd acc s'
          else if Ascii.eqb c ","%char then read_json JKey acc s'
          else if Ascii.eqb c "}"%char then read_json JDone acc s'
          else Raise json_error
      | JDone =>
          if blank then read_json JDone acc s' else Raise json_error
      end
  end.

#[export] Instance library : Library := {|
  DataFrame := frame;
  Series := list cell;
  Scalar := value;
  empty_frame := {| names := []; index_name := None; rows := [] |};
  shape d := (length (rows d), length (names d));
  columns := names;
  dtypes d := map (fun c => (c, match t_getitem d c with
                                | Ok s => t_dtype s
                                | Raise _ => "object"
                                end)) (names d);
  getitem := t_getitem;
  getitem_list := t_getitem_list;
  setitem := t_setitem;
  setitem_list d cols src := t_setitem_each d cols src;
  to_datetime s _ _ := Ok s;
  set_index := t_set_index;
  isna_count := count_na;
  isna_any s := existsb is_na s;
  fillna_method := t_fillna_method;
  fillna_value := t_fillna_value;
  series_fillna s v := Ok (map (fill_cell v) s);
  dropna := t_dropna;
  dropna_columns := t_dropna_columns;
  interpolate d _ := t_fillna_method d "ffill";
  is_numeric_dtype s := forallb is_int s;
  mean := t_mean;
  median := t_median;
  astype := t_astype;
  dtype_str := t_dtype;
  drop_duplicates := t_drop_duplicates;
  rename := t_rename;
  reset_index := t_reset_index;
  write_frame _ _ _ := None;
  scalar_of_int := VInt;
  scalar_of_str := VStr;
  py_int := t_int;
  py_float _ := None;
  json_loads := read_json JStart []
|}.

(** A table with a time column, a missing cell and a repeated row. *)
Definition sample : frame :=
  {| names := ["timestamp"; "price"; "label"];
     index_name := None;
     rows := [ (Some (VInt 0), [Some (VInt 100); Some (VInt 7); Some (VStr "a")]);
               (Some (VInt 1), [Some (VInt 101); None; Some (VStr "b")]);
               (Some (VInt 2), [Some (VInt 101); None; Some (VStr "b")]) ] |}.

Definition clock : Clock :=
  {| year := 2024; month := 3; day := 9; hour := 14; minute := 5; second := 30 |}.

(** A notebook with the table at location 0 and the drive mounted. *)
Definition world : World :=
  {| heap := [sample]; stdout := []; calls := [];
     paths := ["/content/drive"; default_base_save_path];
     files := []; metadata_files := [];
     colab := ColabMounts []; makedirs_error := None; open_error := None;
     now := clock |}.

(** A processor on the table, as the constructor leaves it. *)
Definition fresh : PState := snd (init 0 ({| df := 0; log_messages := [] |}, world)).

(** The form as created for the table. *)
Definition form : UI * World :=
  match ui_init 0 world with
  | (Ok u, w) => (u, w)
  | (Raise _, w) =>
      ({| raw_df := 0; processed_df := None;
          processor := {| df := 0; log_messages := [] |};
          drive_saver := default_base_save_path;
          widgets := initial_widgets; layout := initial_layout;
          log_output := []; processed_df_preview_output := [] |}, w)
  end.



(** The form with three operations checked; the time column is mistyped,
    so that the first operation raises. *)
Definition busy_form : UI * World :=
  (set_widgets (set_text_time_col "time" (widgets
     (fire_all [SetDatetimeIndex true; SetHandleMissing true;
                SetMissingStrategy "fill_zero"; SetRemoveDuplicates true]
        (fst form))))
     (fire_all [SetDatetimeIndex true; SetHandleMissing true;
                SetMissingStrategy "fill_zero"; SetRemoveDuplicates true]
        (fst form)),
   snd form).

End Toy.

(** * Properties *)

(** ** Relations kept by a computation

    [keeps R m]: the state [m] ends in is related by [R] to the state it
    starts from, whether [m] returns or raises. *)

Section Keeps.
Context {S : Type} (R : relation S) `{!PreOrder R}.

Definition keeps {A} (m : M S A) : Prop := forall s, R s (snd (m s)).

Lemma keeps_ret {A} (a : A) : keeps (ret a).
Proof. intros s. reflexivity. Qed.

Lemma keeps_raise {A} (e : Exn) : keeps (@raise S A e).
Proof. intros s. reflexivity. Qed.

Lemma keeps_lift {A} (r : Res A) : keeps (lift r).
Proof. intros s. reflexivity. Qed.

Lemma keeps_gets {A} (f : S -> A) : keeps (gets f).
Proof. intros s. reflexivity. Qed.

Lemma keeps_modify (f : S -> S) : (forall s, R s (f s)) -> keeps (modify f).
Proof. intros H s. apply H. Qed.

Lemma keeps_bind {A B} (m : M S A) (k : A -> M S B) :
  keeps m -> (forall a, keeps (k a)) -> keeps (bind m k).
Proof.
  intros Hm Hk s. unfold bind. specialize (Hm s).
  destruct (m s) as [[a|e] s1]; simpl in *; [|assumption].
  etransitivity; [eassumption | apply Hk].
Qed.

Lemma keeps_try_except {A} (m : M S A) (h : Exn -> M S A) :
  keeps m -> (forall e, keeps (h e)) -> keeps (try_except m h).
Proof.
  intros Hm Hh s. unfold try_except. specialize (Hm s).
  destruct (m s) as [[a|e] s1]; simpl in *; [assumption|].
  etransitivity; [eassumption | apply Hh].
Qed.

Lemma keeps_for_each {A} (l : list A) (body : A -> M S unit) :
  (forall x, keeps (body x)) -> keeps (for_each l body).
Proof.
  intros Hb. induction l as [|x l IH]; simpl.
  - apply keeps_ret.
  - apply keeps_bind; [apply Hb | intros _; exact IH].
Qed.

Lemma keeps_filter_m {A} (p : A -> M S bool) (l : list A) :
  (forall x, keeps (p x)) -> keeps (filter_m p l).
Proof.
  intros Hp. induction l as [|x l IH]; simpl.
  - apply keeps_ret.
  - apply keeps_bind; [apply Hp | intros b].
    apply keeps_bind; [exact IH | intros r; apply keeps_ret].
Qed.
End Keeps.

(** [same f]: the component [f] of the state is unchanged. *)
Definition same {S X} (f : S -> X) : relation S := fun s s' => f s' = f s.

#[export] Instance same_preorder {S X} (f : S -> X) : PreOrder (same f).
Proof.
  split; [intros s; reflexivity | intros a b c H1 H2; unfold same in *; congruence].
Qed.

Create HintDb py.

#[local] Hint Unfold _log print enter self_df logged
  check_columns update_subset replace_df fill_with fill_statistic
  update_column column_dtype convert_column convert_one
  say tell os_makedirs : py.

(** One step of a proof of [keeps R m] along the structure of [m]. *)
Ltac keeps_step :=
  lazymatch goal with
  | |- keeps _ (bind _ _) => apply keeps_bind; try typeclasses eauto; [| intros ?]
  | |- keeps _ (try_except _ _) =>
      apply keeps_try_except; try typeclasses eauto; [| intros ?]
  | |- keeps _ (ret _) => apply keeps_ret; typeclasses eauto
  | |- keeps _ (raise _) => apply keeps_raise; typeclasses eauto
  | |- keeps _ (lift _) => apply keeps_lift; typeclasses eauto
  | |- keeps _ (gets _) => apply keeps_gets; typeclasses eauto
  | |- keeps _ (for_each _ _) => apply keeps_for_each; try typeclasses eauto; intros ?
  | |- keeps _ (filter_m _ _) => apply keeps_filter_m; try typeclasses eauto; intros ?
  | |- keeps _ (if ?b then _ else _) => destruct b
  | |- keeps _ (match ?x with _ => _ end) => destruct x
  | |- keeps _ _ => progress autounfold with py
  end.

(** ** Computations that depend on a part of the state only

    [respects Q m]: from two states related by [Q], [m] returns or raises
    the same and ends in states related by [Q]. *)

Section Respects.
Context {S : Type} (Q : S -> S -> Prop).

Definition respects {A} (m : M S A) : Prop :=
  forall s1 s2, Q s1 s2 -> fst (m s1) = fst (m s2) /\ Q (snd (m s1)) (snd (m s2)).

Lemma respects_ret {A} (a : A) : respects (ret a).
Proof. intros s1 s2 H. split; [reflexivity | exact H]. Qed.

Lemma respects_raise {A} (e : Exn) : respects (@raise S A e).
Proof. intros s1 s2 H. split; [reflexivity | exact H]. Qed.

Lemma respects_lift {A} (r : Res A) : respects (lift r).
Proof. intros s1 s2 H. split; [reflexivity | exact H]. Qed.

Lemma respects_bind {A B} (m : M S A) (k : A -> M S B) :
  respects m -> (forall a, respects (k a)) -> respects (bind m k).
Proof.
  intros Hm Hk s1 s2 H. unfold bind. destruct (Hm s1 s2 H) as [E Q'].
  destruct (m s1) as [[a1|e1] t1], (m s2) as [[a2|e2] t2]; cbn in *;
    try discriminate.
  - inversion E; subst. apply Hk. exact Q'.
  - inversion E; subst. split; [reflexivity | assumption].
Qed.

Lemma respects_try_except {A} (m : M S A) (h : Exn -> M S A) :
  respects m -> (forall e, respects (h e)) -> respects (try_except m h).
Proof.
  intros Hm Hh s1 s2 H. unfold try_except. destruct (Hm s1 s2 H) as [E Q'].
  destruct (m s1) as [[a1|e1] t1], (m s2) as [[a2|e2] t2]; cbn in *;
    try discriminate.
  - split; assumption.
  - inversion E; subst. apply Hh. exact Q'.
Qed.

Lemma respects_for_each {A} (l : list A) (body : A -> M S unit) :
  (forall x, respects (body x)) -> respects (for_each l body).
Proof.
  intros Hb. induction l as [|x l IH]; cbn [for_each].
  - apply respects_ret.
  - apply respects_bind; [apply Hb | intros _; exact IH].
Qed.

Lemma respects_filter_m {A} (p : A -> M S bool) (l : list A) :
  (forall x, respects (p x)) -> respects (filter_m p l).
Proof.
  intros Hp. induction l as [|x l IH]; cbn [filter_m].
  - apply respects_ret.
  - apply respects_bind; [apply Hp | intros b].
    apply respects_bind; [exact IH | intros r; apply respects_ret].
Qed.
End Respects.

(** One step of a proof of [respects Q m] along the structure of [m]. *)
Ltac respects_step :=
  lazymatch goal with
  | |- respects _ (bind _ _) => apply respects_bind; [| intros ?]
  | |- respects _ (try_except _ _) => apply respects_try_except; [| intros ?]
  | |- respects _ (ret _) => apply respects_ret
  | |- respects _ (raise _) => apply respects_raise
  | |- respects _ (lift _) => apply respects_lift
  | |- respects _ (for_each _ _) => apply respects_for_each; intros ?
  | |- respects _ (filter_m _ _) => apply respects_filter_m; intros ?
  | |- respects _ (if ?b then _ else _) => destruct b
  | |- respects _ (match ?x with _ => _ end) => destruct x
  | |- respects _ _ => progress autounfold with py
  end.

Section Properties.
Context {L : Library}.

(** *** The calls a computation makes *)

Definition calls_P : PState -> list Call := fun s => calls (snd s).
Definition calls_U : UI * World -> list Call := fun s => calls (snd s).
Definition calls_D : World -> list Call := calls.

(** A leaf of a computation that leaves a component alone. *)
Ltac same_leaf :=
  solve [ intros ?; reflexivity
        | intros ?; unfold write_to, write_metadata, os_makedirs;
          repeat (match goal with
                  | |- context [match ?x with _ => _ end] => destruct x
                  end);
          reflexivity ].

Ltac keeps_same := repeat (first [keeps_step | same_leaf]).

Lemma logged_calls (c : Call) (error : Exn -> LogMsg) (body : P unit) :
  keeps (same calls_P) body ->
  forall s, calls_P (snd (logged c error body s)) = calls_P s ++ [c].
Proof.
  intros Hb s.
  assert (Hk : keeps (same calls_P)
                 (try_except body (fun e => _log (error e) ;; raise e))).
  { apply keeps_try_except; try typeclasses eauto; [exact Hb | intros e]. keeps_same. }
  unfold logged, bind, enter, modify.
  exact (Hk _).
Qed.

Lemma set_datetime_index_calls time_col errors infer s :
  calls_P (snd (set_datetime_index time_col errors infer s))
  = calls_P s ++ [CallSetDatetimeIndex time_col errors infer].
Proof. unfold set_datetime_index. apply logged_calls. keeps_same. Qed.

Lemma apply_strategy_calls strategy subset fill_value method :
  keeps (same calls_P) (apply_strategy strategy subset fill_value method).
Proof. unfold apply_strategy. keeps_same. Qed.

Lemma handle_missing_values_calls strategy subset fill_value method s :
  calls_P (snd (handle_missing_values strategy subset fill_value method s))
  = calls_P s ++ [CallHandleMissing strategy subset fill_value method].
Proof.
  unfold handle_missing_values. apply logged_calls.
  pose proof apply_strategy_calls.
  unfold count_missing_after. keeps_same; auto.
Qed.

Lemma convert_data_types_calls column_types errors s :
  calls_P (snd (convert_data_types column_types errors s))
  = calls_P s ++ [CallConvertTypes column_types errors].
Proof. unfold convert_data_types. apply logged_calls. keeps_same. Qed.

Lemma remove_duplicate_rows_calls subset keep s :
  calls_P (snd (remove_duplicate_rows subset keep s))
  = calls_P s ++ [CallRemoveDuplicates subset keep].
Proof. unfold remove_duplicate_rows. apply logged_calls. keeps_same. Qed.

Lemma rename_columns_calls rename_map s :
  calls_P (snd (rename_columns rename_map s))
  = calls_P s ++ [CallRenameColumns rename_map].
Proof. unfold rename_columns. apply logged_calls. keeps_same. Qed.

Lemma select_columns_calls columns_to_keep s :
  calls_P (snd (select_columns columns_to_keep s))
  = calls_P s ++ [CallSelectColumns columns_to_keep].
Proof. unfold select_columns. apply logged_calls. keeps_same. Qed.

Lemma apply_custom_function_calls func s :
  calls_P (snd (apply_custom_function func s)) = calls_P s ++ [CallApplyCustom].
Proof. unfold apply_custom_function. apply logged_calls. keeps_same. Qed.

Lemma init_runs input s :
  fst (init input s) = Ok tt
  /\ calls_P (snd (init input s)) = calls_P s ++ [CallInit].
Proof. split; reflexivity. Qed.

Lemma get_processed_df_runs s :
  fst (get_processed_df s) = Ok (length (heap (snd s)))
  /\ calls_P (snd (get_processed_df s)) = calls_P s ++ [CallGetProcessedDf].
Proof. split; reflexivity. Qed.

(** [save_dataframe] returns a path, empty or not, and never raises. *)
Lemma save_dataframe_runs base r filename_prefix file_format include_timestamp meta w :
  (exists path, fst (save_dataframe base r filename_prefix file_format
                       include_timestamp meta w) = Ok path)
  /\ calls (snd (save_dataframe base r filename_prefix file_format
                   include_timestamp meta w))
     = calls w ++ [CallSaveDataframe filename_prefix file_format include_timestamp].
Proof.
  unfold save_dataframe.
  set (body := bind (_ensure_drive_mounted base) _).
  set (handler := fun e : Exn => bind (say (DriveSaveError e)) (fun _ => ret "")).
  set (c := CallSaveDataframe filename_prefix file_format include_timestamp).
  assert (Hb : keeps (same calls_D) body).
  { unfold body, _ensure_drive_mounted, mount_drive. keeps_same. }
  assert (E : (enter id (fun w _ => w) c ;; try_except body handler) w
              = try_except body handler (with_calls (calls w ++ [c]) w))
    by reflexivity.
  rewrite E. clear E. unfold try_except.
  specialize (Hb (with_calls (calls w ++ [c]) w)). unfold same, calls_D in Hb.
  destruct (body _) as [[path|e] w2]; cbn [fst snd] in *.
  - split; [eauto | exact Hb].
  - split; [eexists; reflexivity | exact Hb].
Qed.

(** *** The steps of the button handler *)

(** [m] returns normally and makes the calls [l]. *)
Definition step_ok (l : list Call) (m : U unit) : Prop :=
  forall s, fst (m s) = Ok tt /\ calls_U (snd (m s)) = calls_U s ++ l.

Lemma step_ok_ret : step_ok [] (ret tt).
Proof. intros s. split; [reflexivity | symmetry; apply app_nil_r]. Qed.

Lemma step_ok_tell msg : step_ok [] (tell msg).
Proof. intros s. split; [reflexivity | symmetry; apply app_nil_r]. Qed.

Lemma step_ok_bind l1 l2 (m k : U unit) :
  step_ok l1 m -> step_ok l2 k -> step_ok (l1 ++ l2) (m ;; k).
Proof.
  intros Hm Hk s. unfold bind. destruct (Hm s) as [H1 H2].
  destruct (m s) as [[[]|e] s1]; cbn [fst snd] in *; [|discriminate].
  destruct (Hk s1) as [H3 H4]. split; [exact H3|].
  rewrite H4, H2. symmetry. apply app_assoc.
Qed.

(** A guarded call of the processor: the call is made and an exception,
    if any, ends in a printed line. *)
Lemma step_ok_guarded (c : Call) (m : P unit) (report : Exn -> UiMsg) :
  (forall s, calls_P (snd (m s)) = calls_P s ++ [c]) ->
  step_ok [c] (try_except (on_processor m) (fun e => tell (report e))).
Proof.
  intros Hm s. unfold try_except, on_processor.
  specialize (Hm (processor (fst s), snd s)).
  destruct (m (processor (fst s), snd s)) as [[[]|e] [p w]]; cbn [fst snd] in *.
  - split; [reflexivity | exact Hm].
  - split; [reflexivity | exact Hm].
Qed.

(** The calls each step makes, read off the widgets: the step is skipped
    when its checkbox is clear, when its JSON text does not parse, and,
    for the selection, when the list of columns is empty. *)
Definition plan_datetime (v : Widgets) : list Call :=
  if cb_set_datetime_index v
  then [CallSetDatetimeIndex (Py.strip (text_time_col v)) (dropdown_time_errors v)
          (cb_infer_datetime_format v)]
  else [].

Definition plan_missing (v : Widgets) : list Call :=
  if cb_handle_missing v
  then
    let strategy := dropdown_missing_strategy v in
    [CallHandleMissing strategy
       (Py.column_list (Py.strip (text_missing_subset_cols v)))
       (if (strategy =? "fill_constant")%string
        then Some (parse_fill_value (Py.strip (text_missing_fill_value v)))
        else None)
       (if (strategy =? "interpolate")%string
        then dropdown_interpolate_method v else "linear")]
  else [].

Definition plan_convert (v : Widgets) : list Call :=
  if cb_convert_types v
  then match json_loads (textarea_column_types v) with
       | Ok column_types => [CallConvertTypes column_types (dropdown_convert_errors v)]
       | Raise _ => []
       end
  else [].

Definition plan_duplicates (v : Widgets) : list Call :=
  if cb_remove_duplicates v
  then [CallRemoveDuplicates (Py.column_list (Py.strip (text_duplicates_subset v)))
          (dropdown_duplicates_keep v)]
  else [].

Definition plan_rename (v : Widgets) : list Call :=
  if cb_rename_columns v
  then match json_loads (textarea_rename_map v) with
       | Ok rename_map => [CallRenameColumns rename_map]
       | Raise _ => []
       end
  else [].

Definition plan_select (v : Widgets) : list Call :=
  if cb_select_columns v
  then match Py.column_list (Py.strip (text_columns_to_keep v)) with
       | Some columns_to_keep => [CallSelectColumns columns_to_keep]
       | None => []
       end
  else [].

Definition plan_save (v : Widgets) : Call :=
  CallSaveDataframe (Py.strip (text_save_filename_prefix v)) (dropdown_save_format v)
    (cb_include_timestamp v).

(** The calls of one click, in order. *)
Definition planned (v : Widgets) : list Call :=
  CallInit ::
  (plan_datetime v ++ plan_missing v ++ plan_convert v ++ plan_duplicates v
   ++ plan_rename v ++ plan_select v)
  ++ [CallGetProcessedDf; plan_save v].

Lemma step_datetime_ok v : step_ok (plan_datetime v) (step_datetime v).
Proof.
  unfold step_datetime, plan_datetime. destruct (cb_set_datetime_index v).
  - apply (step_ok_bind [] [_]); [apply step_ok_tell|].
    apply step_ok_guarded. intros s. apply set_datetime_index_calls.
  - apply step_ok_ret.
Qed.

Lemma step_missing_ok v : step_ok (plan_missing v) (step_missing v).
Proof.
  unfold step_missing, plan_missing. destruct (cb_handle_missing v).
  - apply (step_ok_bind [] [_]); [apply step_ok_tell|].
    apply step_ok_guarded. intros s. apply handle_missing_values_calls.
  - apply step_ok_ret.
Qed.

Lemma step_duplicates_ok v : step_ok (plan_duplicates v) (step_duplicates v).
Proof.
  unfold step_duplicates, plan_duplicates. destruct (cb_remove_duplicates v).
  - apply (step_ok_bind [] [_]); [apply step_ok_tell|].
    apply step_ok_guarded. intros s. apply remove_duplicate_rows_calls.
  - apply step_ok_ret.
Qed.

Lemma step_select_ok v : step_ok (plan_select v) (step_select v).
Proof.
  unfold step_select, plan_select. destruct (cb_select_columns v).
  - destruct (Py.column_list _) as [cols|].
    + apply (step_ok_bind [] [_]); [apply step_ok_tell|].
      apply step_ok_guarded. intros s. apply select_columns_calls.
    + apply (step_ok_bind [] []); apply step_ok_tell.
  - apply step_ok_ret.
Qed.

(** A guarded call whose argument is read from JSON first. *)
Lemma step_ok_json (text : string) (m : list (string * string) -> P unit)
    (c : list (string * string) -> Call) (report_json report : Exn -> UiMsg) :
  (forall x s, calls_P (snd (m x s)) = calls_P s ++ [c x]) ->
  step_ok (match json_loads text with Ok x => [c x] | Raise _ => [] end)
    (try_except (x <- lift (json_loads text) ;; on_processor (m x))
       (fun e => if is_json_error e then tell (report_json e) else tell (report e))).
Proof.
  intros Hm s. unfold try_except, bind, lift, on_processor.
  destruct (json_loads text) as [x|e].
  - specialize (Hm x (processor (fst s), snd s)).
    destruct (m x (processor (fst s), snd s)) as [[[]|e] [p w]]; cbn [fst snd] in *.
    + split; [reflexivity | exact Hm].
    + destruct (is_json_error e); (split; [reflexivity | exact Hm]).
  - destruct (is_json_error e);
      (split; [reflexivity | symmetry; apply app_nil_r]).
Qed.

Lemma step_convert_ok v : step_ok (plan_convert v) (step_convert v).
Proof.
  unfold step_convert, plan_convert. destruct (cb_convert_types v).
  - apply (step_ok_bind [] _); [apply step_ok_tell|].
    apply (step_ok_json _ (fun x => convert_data_types x _)
             (fun x => CallConvertTypes x _)).
    intros x s. apply convert_data_types_calls.
  - apply step_ok_ret.
Qed.

Lemma step_rename_ok v : step_ok (plan_rename v) (step_rename v).
Proof.
  unfold step_rename, plan_rename. destruct (cb_rename_columns v).
  - apply (step_ok_bind [] _); [apply step_ok_tell|].
    apply (step_ok_json _ rename_columns CallRenameColumns).
    intros x s. apply rename_columns_calls.
  - apply step_ok_ret.
Qed.

Lemma step_save_ok v r : step_ok [plan_save v] (step_save v r).
Proof.
  unfold step_save. apply (step_ok_bind [] [_]); [apply step_ok_tell|].
  intros s. unfold try_except, bind, gets, on_drive. cbn [fst snd].
  destruct (save_dataframe_runs (drive_saver (fst s)) r
              (Py.strip (text_save_filename_prefix v)) (dropdown_save_format v)
              (cb_include_timestamp v) false (snd s)) as [[path Hp] Hc].
  destruct (save_dataframe _ _ _ _ _ _ _) as [res w]. cbn [fst snd] in *.
  subst res. destruct (Py.truthy path); (split; [reflexivity | exact Hc]).
Qed.

(** The handler from the first step to its last line. *)
Definition run_steps (v : Widgets) : U unit :=
  step_datetime v ;;
  step_missing v ;;
  step_convert v ;;
  step_duplicates v ;;
  step_rename v ;;
  step_select v ;;
  r <- on_processor get_processed_df ;;
  modify (fun s => (set_processed_df (Some r) (fst s), snd s)) ;;
  step_save v r ;;
  tell UiDone.

Lemma finish_ok v :
  step_ok [CallGetProcessedDf; plan_save v]
    (r <- on_processor get_processed_df ;;
     modify (fun s => (set_processed_df (Some r) (fst s), snd s)) ;;
     step_save v r ;;
     tell UiDone).
Proof.
  intros s.
  pose (r := length (heap (snd s))).
  pose (s1 := snd (on_processor get_processed_df s)).
  assert (E : (r <- on_processor get_processed_df ;;
               modify (fun s => (set_processed_df (Some r) (fst s), snd s)) ;;
               step_save v r ;;
               tell UiDone) s
              = (step_save v r ;; tell UiDone)
                  (set_processed_df (Some r) (fst s1), snd s1))
    by reflexivity.
  rewrite E. clear E.
  destruct (step_ok_bind [plan_save v] [] _ _ (step_save_ok v r)
              (step_ok_tell UiDone)
              (set_processed_df (Some r) (fst s1), snd s1))
    as [H1 H2].
  split; [exact H1|].
  rewrite H2. unfold calls_U. cbn [fst snd].
  change (calls (snd s1)) with (calls (snd s) ++ [CallGetProcessedDf]).
  rewrite <- app_assoc. reflexivity.
Qed.

Lemma run_steps_ok v :
  step_ok (plan_datetime v ++ plan_missing v ++ plan_convert v ++ plan_duplicates v
           ++ plan_rename v ++ plan_select v ++ [CallGetProcessedDf; plan_save v])
    (run_steps v).
Proof.
  unfold run_steps.
  apply step_ok_bind; [apply step_datetime_ok|].
  apply step_ok_bind; [apply step_missing_ok|].
  apply step_ok_bind; [apply step_convert_ok|].
  apply step_ok_bind; [apply step_duplicates_ok|].
  apply step_ok_bind; [apply step_rename_ok|].
  apply step_ok_bind; [apply step_select_ok|].
  apply finish_ok.
Qed.

(** The handler, with the steps named. *)
Lemma clicked_unfold u w :
  _on_process_button_clicked (u, w)
  = (with_log_output
       (tell UiStart ;;
        raw <- gets (fun s => read (heap (snd s)) (raw_df (fst s))) ;;
        copy <- alloc snd set_ui_world raw ;;
        on_processor (init copy) ;;
        run_steps (widgets u)) ;;
     show_preview)
      (set_preview [] (set_log_output [] u), w).
Proof. reflexivity. Qed.

(** The state in which the steps of a click start. *)
Definition started (u : UI) (w : World) : UI * World :=
  snd ((tell UiStart ;;
        raw <- gets (fun s => read (heap (snd s)) (raw_df (fst s))) ;;
        copy <- alloc snd set_ui_world raw ;;
        on_processor (init copy))
         (set_preview [] (set_log_output [] u), with_stdout [] w)).

Lemma clicked_steps u w :
  _on_process_button_clicked (u, w)
  = (let s1 := snd (run_steps (widgets u) (started u w)) in
     (fst (run_steps (widgets u) (started u w)),
      snd (show_preview
             (set_log_output (log_output (fst s1) ++ stdout (snd s1)) (fst s1),
              with_stdout (stdout w) (snd s1))))).
Proof.
  rewrite clicked_unfold.
  destruct (run_steps_ok (widgets u) (started u w)) as [Hok _].
  unfold bind at 1. unfold with_log_output. cbn [fst snd].
  change ((tell UiStart ;;
           raw <- gets (fun s => read (heap (snd s)) (raw_df (fst s))) ;;
           copy <- alloc snd set_ui_world raw ;;
           on_processor (init copy) ;;
           run_steps (widgets u))
            (set_preview [] (set_log_output [] u), with_stdout [] w))
    with (run_steps (widgets u) (started u w)).
  destruct (run_steps (widgets u) (started u w)) as [res [u1 w1]].
  cbn [fst snd] in *. subst res. reflexivity.
Qed.

(** Every click returns normally and makes the planned calls. *)
Lemma clicked_calls u w :
  fst (_on_process_button_clicked (u, w)) = Ok tt
  /\ calls (snd (snd (_on_process_button_clicked (u, w))))
     = calls w ++ planned (widgets u).
Proof.
  rewrite clicked_steps. cbn zeta. cbn [fst snd].
  destruct (run_steps_ok (widgets u) (started u w)) as [Hok Hc].
  split; [exact Hok|].
  destruct (run_steps (widgets u) (started u w)) as [res [u1 w1]].
  cbn [fst snd] in *. unfold calls_U in Hc. cbn [fst snd] in Hc.
  unfold show_preview, modify. cbn [fst snd].
  change (calls (snd (started u w))) with (calls w ++ [CallInit]) in Hc.
  destruct (processed_df _); cbn [fst snd calls with_stdout];
    rewrite Hc; unfold planned;
    rewrite <- !app_assoc; reflexivity.
Qed.

(** *** C1, C4: which operations a click applies, and in which order *)





(** No planned call is a call of [apply_custom_function]. *)
Lemma planned_no_custom v : ~ In CallApplyCustom (planned v).
Proof.
  unfold planned, plan_datetime, plan_missing, plan_convert, plan_duplicates,
    plan_rename, plan_select, plan_save.
  intros H. cbn [In] in H. destruct H as [H|H]; [discriminate|].
  repeat (apply in_app_or in H; destruct H as [H|H]);
    repeat match goal with
           | H : In _ (if ?b then _ else _) |- _ => destruct b
           | H : In _ (match ?x with _ => _ end) |- _ => destruct x
           end;
    cbn [In] in H; intuition discriminate.
Qed.

Lemma read_alloc (h : list DataFrame) (d : DataFrame) : read (h ++ [d]) (length h) = d.
Proof. unfold read. rewrite lookup_app_r, Nat.sub_diag by lia. reflexivity. Qed.

(** The table of a processor: the frame at [self.df]. *)
Definition table (s : PState) : DataFrame := read (heap (snd s)) (df (fst s)).

Lemma keeps_heap_log (m : LogMsg) :
  keeps (same (fun s : PState => (heap (snd s), df (fst s)))) (_log m).
Proof. intros s. reflexivity. Qed.

(** The part of [apply_custom_function] that compares and logs. *)
Definition custom_report (orig_shape : Shape) (orig_dtypes : list (string * string))
  : P unit :=
  dn <- self_df ;;
  (if negb (shape_eqb orig_shape (shape dn))
   then _log (LogCustomShape orig_shape (shape dn)) else ret tt) ;;
  let new_dtypes := dtypes dn in
  let changed := changed_dtypes orig_dtypes new_dtypes in
  (if nonempty changed then _log (LogCustomDtypes changed) else ret tt) ;;
  let new_columns := set_difference (map fst new_dtypes) (map fst orig_dtypes) in
  (if nonempty new_columns then _log (LogCustomAdded new_columns) else ret tt) ;;
  let removed_columns := set_difference (map fst orig_dtypes) (map fst new_dtypes) in
  (if nonempty removed_columns then _log (LogCustomRemoved removed_columns) else ret tt) ;;
  _log LogCustomDone.

Lemma custom_report_runs orig_shape orig_dtypes s :
  fst (custom_report orig_shape orig_dtypes s) = Ok tt
  /\ heap (snd (snd (custom_report orig_shape orig_dtypes s))) = heap (snd s)
  /\ df (fst (snd (custom_report orig_shape orig_dtypes s))) = df (fst s).
Proof.
  unfold custom_report, bind, self_df, gets. cbn [fst snd].
  destruct (negb (shape_eqb _ _)); cbn [fst snd];
    destruct (nonempty (changed_dtypes _ _)); cbn [fst snd];
    destruct (nonempty (set_difference (map fst (dtypes _)) _)); cbn [fst snd];
    destruct (nonempty (set_difference (map fst orig_dtypes) _)); cbn [fst snd];
    repeat split.
Qed.

(** [apply_custom_function] calls the function on the table; a DataFrame
    it returns becomes the table, the argument it changed in place stays
    changed, and anything else it returns or raises is an error. *)
Lemma apply_custom_function_result (func : UserFunc) (s : PState) :
  let s' := snd (apply_custom_function func s) in
  let r := fst (apply_custom_function func s) in
  match snd (func (table s)) with
  | Ok (RetFrame d') => r = Ok tt /\ table s' = d'
  | Ok RetArgument =>
      r = Ok tt /\ df (fst s') = df (fst s)
      /\ heap (snd s') = <[df (fst s) := fst (func (table s))]> (heap (snd s))
  | Ok (RetOther t) =>
      r = Raise (ValueError (TNotDataFrame t))
      /\ heap (snd s') = <[df (fst s) := fst (func (table s))]> (heap (snd s))
  | Raise e =>
      r = Raise e
      /\ heap (snd s') = <[df (fst s) := fst (func (table s))]> (heap (snd s))
  end.
Proof.
  cbn zeta.
  change (apply_custom_function func s)
    with (try_except
            (update_df (fst (func (table s))) ;;
             result <- lift (snd (func (table s))) ;;
             match result with
             | RetOther t => raise (ValueError (TNotDataFrame t))
             | RetArgument => ret tt
             | RetFrame d' => assign_df d'
             end ;;
             custom_report (shape (table s)) (dtypes (table s)))
            (fun e => _log (LogCustomError e) ;; raise e)
            (fst s, with_calls (calls (snd s) ++ [CallApplyCustom]) (snd s))).
  destruct (try_except _ _ _) as [r s'] eqn:E. cbn [fst snd].
  unfold try_except, bind, update_df, modify, lift in E. cbn [fst snd] in E.
  destruct (snd (func (table s))) as [[|d'|t]|e]; cbn [fst snd] in E.
  - unfold ret in E.
    match type of E with context [custom_report ?a ?b ?x] =>
      destruct (custom_report_runs a b x) as (H1 & H2 & H3);
      destruct (custom_report a b x) as [res s2] end.
    cbn [fst snd] in *. subst res. inversion E; subst. auto.
  - unfold assign_df, alloc, bind, modify in E. cbn [fst snd] in E.
    match type of E with context [custom_report ?a ?b ?x] =>
      destruct (custom_report_runs a b x) as (H1 & H2 & H3);
      destruct (custom_report a b x) as [res s2] end.
    cbn [fst snd] in *. subst res. inversion E; subst.
    split; [reflexivity|].
    unfold table. rewrite H2, H3. cbn. apply read_alloc.
  - inversion E; subst. split; reflexivity.
  - inversion E; subst. split; reflexivity.
Qed.

(** C4 (amended).  [apply_custom_function] of the processor calls the
    user-supplied function on the table and, when the function returns a
    DataFrame, makes it the table (a value that is no DataFrame, or an
    exception, is an error and is raised); but no selection of the form
    makes a click call it: the calls of a click are the planned ones, and
    [apply_custom_function] is not among them. *)
Theorem C4_custom_function_applied_by_processor_not_by_click
    (func : UserFunc) (s : PState) (u : UI) (w : World) :
  match snd (func (table s)) with
  | Ok (RetFrame d') =>
      fst (apply_custom_function func s) = Ok tt
      /\ table (snd (apply_custom_function func s)) = d'
  | Ok RetArgument =>
      fst (apply_custom_function func s) = Ok tt
      /\ df (fst (snd (apply_custom_function func s))) = df (fst s)
      /\ heap (snd (snd (apply_custom_function func s)))
         = <[df (fst s) := fst (func (table s))]> (heap (snd s))
  | Ok (RetOther t) =>
      fst (apply_custom_function func s) = Raise (ValueError (TNotDataFrame t))
  | Raise e => fst (apply_custom_function func s) = Raise e
  end
  /\ calls (snd (snd (_on_process_button_clicked (u, w))))
     = calls w ++ planned (widgets u)
  /\ ~ In CallApplyCustom (planned (widgets u)).
Proof.
  split; [|split; [apply clicked_calls | apply planned_no_custom]].
  pose proof (apply_custom_function_result func s) as H. cbn zeta in H.
  destruct (snd (func (table s))) as [[|d'|t]|e]; intuition.
Qed.

(** *** C2: error isolation *)

(** An operation that raises has logged its error last. *)
Lemma logged_raise (c : Call) (error : Exn -> LogMsg) (body : P unit) s e s' :
  logged c error body s = (Raise e, s') ->
  exists l, log_messages (fst s') = l ++ [error e].
Proof.
  unfold logged, bind, try_except, enter, modify. cbn [fst snd].
  destruct (body _) as [[[]|e0] [p w]]; [discriminate|].
  unfold _log, print, modify, bind, raise. cbn [fst snd].
  intros H. inversion H; subst. cbn. eauto.
Qed.

(** The state after a line is printed. *)
Definition told (m : UiMsg) (s : UI * World) : UI * World := snd (tell m s).

(** [step] prints [header], calls [op] once and returns normally: when
    [op] raises, the exception has been logged by the processor, the step
    prints it and ends in the state [op] left. *)
Definition isolates (header : UiMsg) (op : P unit) (ui_error : Exn -> UiMsg)
    (log_error : Exn -> LogMsg) (step : U unit) : Prop :=
  forall s,
    match on_processor op (told header s) with
    | (Ok _, s1) => step s = (Ok tt, s1)
    | (Raise e, s1) =>
        step s = (Ok tt, told (ui_error e) s1)
        /\ exists l, log_messages (processor (fst s1)) = l ++ [log_error e]
    end.

Lemma isolates_guarded header c log_error body ui_error :
  isolates header (logged c log_error body) ui_error log_error
    (tell header ;;
     try_except (on_processor (logged c log_error body)) (fun e => tell (ui_error e))).
Proof.
  intros s.
  change ((tell header ;;
           try_except (on_processor (logged c log_error body))
             (fun e => tell (ui_error e))) s)
    with (try_except (on_processor (logged c log_error body))
            (fun e => tell (ui_error e)) (told header s)).
  unfold try_except, on_processor.
  destruct (logged c log_error body (processor (fst (told header s)), snd (told header s)))
    as [[[]|e] [p w1]] eqn:E; cbn [fst snd].
  - reflexivity.
  - split; [reflexivity|]. apply logged_raise in E. exact E.
Qed.

Lemma step_ok_eq l (m : U unit) s : step_ok l m -> m s = (Ok tt, snd (m s)).
Proof. intros H. destruct (H s) as [E _]. destruct (m s). cbn in *. congruence. Qed.

Lemma bind_step_ok {B} l (m : U unit) (k : unit -> U B) s :
  step_ok l m -> bind m k s = k tt (snd (m s)).
Proof. intros H. unfold bind. rewrite (step_ok_eq l m s H). reflexivity. Qed.

(** What is left of the handler after the column selection. *)
Definition finish (v : Widgets) : U unit :=
  r <- on_processor get_processed_df ;;
  modify (fun s => (set_processed_df (Some r) (fst s), snd s)) ;;
  step_save v r ;;
  tell UiDone.

(** Each step starts in the state the step before it ended in. *)
Lemma run_steps_threaded v s :
  run_steps v s
  = finish v
      (snd (step_select v
        (snd (step_rename v
          (snd (step_duplicates v
            (snd (step_convert v
              (snd (step_missing v
                (snd (step_datetime v s)))))))))))).
Proof.
  unfold run_steps.
  rewrite (bind_step_ok _ _ _ _ (step_datetime_ok v)).
  rewrite (bind_step_ok _ _ _ _ (step_missing_ok v)).
  rewrite (bind_step_ok _ _ _ _ (step_convert_ok v)).
  rewrite (bind_step_ok _ _ _ _ (step_duplicates_ok v)).
  rewrite (bind_step_ok _ _ _ _ (step_rename_ok v)).
  rewrite (bind_step_ok _ _ _ _ (step_select_ok v)).
  reflexivity.
Qed.

Definition json_report (report_json report : Exn -> UiMsg) (e : Exn) : UiMsg :=
  if is_json_error e then report_json e else report e.

Lemma isolates_json header text (m : list (string * string) -> P unit)
    c log_error body report_json report x :
  json_loads text = Ok x ->
  m x = logged c log_error body ->
  isolates header (m x) (json_report report_json report) log_error
    (tell header ;;
     try_except (y <- lift (json_loads text) ;; on_processor (m y))
       (fun e => if is_json_error e then tell (report_json e) else tell (report e))).
Proof.
  intros Hj Hm s.
  change ((tell header ;;
           try_except (y <- lift (json_loads text) ;; on_processor (m y))
             (fun e => if is_json_error e then tell (report_json e) else tell (report e)))
            s)
    with (try_except (y <- lift (json_loads text) ;; on_processor (m y))
            (fun e => if is_json_error e then tell (report_json e) else tell (report e))
            (told header s)).
  unfold try_except, bind, lift. rewrite Hj. unfold on_processor. rewrite Hm.
  destruct (logged c log_error body (processor (fst (told header s)), snd (told header s)))
    as [[[]|e] [p w1]] eqn:E; cbn [fst snd].
  - reflexivity.
  - split; [unfold json_report; destruct (is_json_error e); reflexivity|].
    apply logged_raise in E. exact E.
Qed.

(** The end of [with self.log_output]: what was printed is in the widget. *)
Definition close_output (w : World) (s : UI * World) : UI * World :=
  (set_log_output (log_output (fst s) ++ stdout (snd s)) (fst s),
   with_stdout (stdout w) (snd s)).

(** C2.  A click never raises: each step catches the exception of its
    operation.  Whatever fails, the planned calls are all made, each once
    and in order, the export included; every step starts in the state the
    step before it ended in.  A step whose operation raises ends in the
    state the operation left, with the exception logged last in the
    processor's log and printed by the step; a JSON text that does not
    parse is printed and the operation is not called. *)
Theorem C2_click_isolates_errors (u : UI) (w : World) :
  let v := widgets u in
  _on_process_button_clicked (u, w)
  = (Ok tt, snd (show_preview (close_output w (snd (run_steps v (started u w))))))
  /\ calls (snd (snd (_on_process_button_clicked (u, w)))) = calls w ++ planned v
  /\ (forall s,
        run_steps v s
        = finish v
            (snd (step_select v
              (snd (step_rename v
                (snd (step_duplicates v
                  (snd (step_convert v
                    (snd (step_missing v
                      (snd (step_datetime v s)))))))))))))
  /\ (if cb_set_datetime_index v
      then isolates UiHeaderDatetime
             (set_datetime_index (Py.strip (text_time_col v)) (dropdown_time_errors v)
                (cb_infer_datetime_format v))
             UiDatetimeError LogDatetimeError (step_datetime v)
      else forall s, step_datetime v s = (Ok tt, s))
  /\ (if cb_handle_missing v
      then isolates UiHeaderMissing
             (handle_missing_values (dropdown_missing_strategy v)
                (Py.column_list (Py.strip (text_missing_subset_cols v)))
                (if (dropdown_missing_strategy v =? "fill_constant")%string
                 then Some (parse_fill_value (Py.strip (text_missing_fill_value v)))
                 else None)
                (if (dropdown_missing_strategy v =? "interpolate")%string
                 then dropdown_interpolate_method v else "linear"))
             UiMissingError LogMissingError (step_missing v)
      else forall s, step_missing v s = (Ok tt, s))
  /\ (if cb_convert_types v
      then match json_loads (textarea_column_types v) with
           | Ok column_types =>
               isolates UiHeaderConvert
                 (convert_data_types column_types (dropdown_convert_errors v))
                 (json_report UiConvertJsonError UiConvertError) LogConvertError
                 (step_convert v)
           | Raise e =>
               forall s, step_convert v s
                         = (Ok tt, told (json_report UiConvertJsonError UiConvertError e)
                                     (told UiHeaderConvert s))
           end
      else forall s, step_convert v s = (Ok tt, s))
  /\ (if cb_remove_duplicates v
      then isolates UiHeaderDuplicates
             (remove_duplicate_rows
                (Py.column_list (Py.strip (text_duplicates_subset v)))
                (dropdown_duplicates_keep v))
             UiDuplicatesError LogDuplicatesError (step_duplicates v)
      else forall s, step_duplicates v s = (Ok tt, s))
  /\ (if cb_rename_columns v
      then match json_loads (textarea_rename_map v) with
           | Ok rename_map =>
               isolates UiHeaderRename (rename_columns rename_map)
                 (json_report UiRenameJsonError UiRenameError) LogRenameError
                 (step_rename v)
           | Raise e =>
               forall s, step_rename v s
                         = (Ok tt, told (json_report UiRenameJsonError UiRenameError e)
                                     (told UiHeaderRename s))
           end
      else forall s, step_rename v s = (Ok tt, s))
  /\ (if cb_select_columns v
      then match Py.column_list (Py.strip (text_columns_to_keep v)) with
           | Some columns_to_keep =>
               isolates UiHeaderSelect (select_columns columns_to_keep)
                 UiSelectError LogSelectError (step_select v)
           | None =>
               forall s, step_select v s
                         = (Ok tt, told UiSelectSkipped (told UiHeaderSelect s))
           end
      else forall s, step_select v s = (Ok tt, s))
  /\ (forall r s, fst (step_save v r s) = Ok tt).
Proof.
  intros v.
  split.
  { rewrite clicked_steps. cbn zeta.
    destruct (run_steps_ok v (started u w)) as [Hok _]. fold v. rewrite Hok.
    reflexivity. }
  split; [apply clicked_calls|].
  split; [apply run_steps_threaded|].
  split.
  { unfold step_datetime. destruct (cb_set_datetime_index v); [|reflexivity].
    apply isolates_guarded. }
  split.
  { unfold step_missing. destruct (cb_handle_missing v); [|reflexivity].
    apply isolates_guarded. }
  split.
  { unfold step_convert. destruct (cb_convert_types v); [|reflexivity].
    destruct (json_loads (textarea_column_types v)) as [x|e] eqn:Hj.
    - rewrite <- Hj.
      eapply (isolates_json _ _ (fun y => convert_data_types y _));
        [exact Hj | reflexivity].
    - intros s. unfold try_except, bind, lift, told, json_report, tell, print, modify.
      cbn [fst snd]. destruct (is_json_error e); reflexivity. }
  split.
  { unfold step_duplicates. destruct (cb_remove_duplicates v); [|reflexivity].
    apply isolates_guarded. }
  split.
  { unfold step_rename. destruct (cb_rename_columns v); [|reflexivity].
    destruct (json_loads (textarea_rename_map v)) as [x|e] eqn:Hj.
    - rewrite <- Hj.
      eapply (isolates_json _ _ rename_columns); [exact Hj | reflexivity].
    - intros s. unfold try_except, bind, lift, told, json_report, tell, print, modify.
      cbn [fst snd]. destruct (is_json_error e); reflexivity. }
  split.
  { unfold step_select. destruct (cb_select_columns v); [|reflexivity].
    destruct (Py.column_list _) as [cols|]; [apply isolates_guarded | reflexivity]. }
  intros r s. apply (step_save_ok v r s).
Qed.

(** *** C6: the log *)

(** The log only grows at its end. *)
Definition log_extends : relation PState :=
  fun s s' => log_messages (fst s) `prefix_of` log_messages (fst s').

#[local] Instance log_extends_preorder : PreOrder log_extends.
Proof.
  split.
  - intros s. unfold log_extends. reflexivity.
  - intros a b c H1 H2. unfold log_extends in *. etransitivity; eassumption.
Qed.

Lemma keeps_log_log (m : LogMsg) : keeps log_extends (_log m).
Proof. intros s. unfold log_extends. cbn. apply prefix_app_r. reflexivity. Qed.

Ltac log_leaf :=
  solve [ apply keeps_log_log
        | intros ?; unfold log_extends; cbn; reflexivity ].

Ltac keeps_log := repeat (first [log_leaf | keeps_step]).

(** When [m] returns, it has logged at least one message. *)
Definition logs {A} (m : P A) : Prop :=
  forall s a s', m s = (Ok a, s') ->
    exists l, l <> [] /\ log_messages (fst s') = log_messages (fst s) ++ l.

Lemma logs_log (m : LogMsg) : logs (_log m).
Proof.
  intros s a s' H. inversion H; subst. cbn. exists [m]. split; [discriminate | reflexivity].
Qed.

Lemma logs_raise {A} (e : Exn) : logs (@raise PState A e).
Proof. intros s a s' H. discriminate. Qed.

Lemma logs_bind_l {A B} (m : P A) (k : A -> P B) :
  logs m -> (forall a, keeps log_extends (k a)) -> logs (bind m k).
Proof.
  intros Hm Hk s b s' H. unfold bind in H.
  destruct (m s) as [[a|e] s1] eqn:E; [|discriminate].
  destruct (Hm _ _ _ E) as (l & Hl & El).
  specialize (Hk a s1). rewrite H in Hk. destruct Hk as [l2 E2]. cbn in E2.
  exists (l ++ l2). split.
  - destruct l; [congruence | discriminate].
  - rewrite E2, El. symmetry. apply app_assoc.
Qed.

Lemma logs_bind_r {A B} (m : P A) (k : A -> P B) :
  keeps log_extends m -> (forall a, logs (k a)) -> logs (bind m k).
Proof.
  intros Hm Hk s b s' H. unfold bind in H. specialize (Hm s).
  destruct (m s) as [[a|e] s1] eqn:E; [|discriminate].
  destruct Hm as [l1 E1]. cbn in E1.
  destruct (Hk _ _ _ _ H) as (l & Hl & El).
  exists (l1 ++ l). split.
  - destruct l1; [exact Hl | discriminate].
  - rewrite El, E1. symmetry. apply app_assoc.
Qed.

Lemma logs_try_except {A} (m : P A) (h : Exn -> P A) :
  keeps log_extends m -> logs m -> (forall e, logs (h e)) -> logs (try_except m h).
Proof.
  intros Hk Hm Hh s a s' H. unfold try_except in H. specialize (Hk s).
  destruct (m s) as [[a0|e] s1] eqn:E.
  - inversion H; subst. eapply Hm; eassumption.
  - destruct Hk as [l1 E1]. cbn in E1.
    destruct (Hh e _ _ _ H) as (l & Hl & El).
    exists (l1 ++ l). split.
    + destruct l1; [exact Hl | discriminate].
    + rewrite El, E1. symmetry. apply app_assoc.
Qed.

(** One step of a proof of [logs m]: up to the first message. *)
Ltac logs_step :=
  lazymatch goal with
  | |- logs (_log _) => apply logs_log
  | |- logs (raise _) => apply logs_raise
  | |- logs (bind (_log _) _) => apply logs_bind_l; [apply logs_log | intros ?; keeps_log]
  | |- logs (bind _ _) => apply logs_bind_r; [keeps_log | intros ?]
  | |- logs (try_except _ _) => apply logs_try_except; [keeps_log | | intros ?]
  | |- logs (if ?b then _ else _) => destruct b
  | |- logs (match ?x with _ => _ end) => destruct x
  end.

Ltac logs_tac := repeat logs_step.

(** An operation of the processor logs on both paths. *)
Lemma logged_logs (c : Call) (error : Exn -> LogMsg) (body : P unit) :
  keeps log_extends body -> logs body ->
  forall s, exists l,
    l <> [] /\ log_messages (fst (snd (logged c error body s))) = log_messages (fst s) ++ l.
Proof.
  intros Hk Hl s.
  change (logged c error body s)
    with (try_except body (fun e => _log (error e) ;; raise e)
            (fst s, with_calls (calls (snd s) ++ [c]) (snd s))).
  unfold try_except.
  specialize (Hk (fst s, with_calls (calls (snd s) ++ [c]) (snd s))).
  destruct (body _) as [[[]|e] s1] eqn:E.
  - apply Hl in E. exact E.
  - destruct Hk as [l1 E1]. cbn in E1. cbn. exists (l1 ++ [error e]). split.
    + destruct l1; discriminate.
    + rewrite E1. symmetry. apply app_assoc.
Qed.

Lemma apply_strategy_log strategy subset fill_value method :
  keeps log_extends (apply_strategy strategy subset fill_value method).
Proof. unfold apply_strategy. keeps_log. Qed.

Lemma set_datetime_index_logs time_col errors infer s :
  exists l, l <> []
    /\ log_messages (fst (snd (set_datetime_index time_col errors infer s)))
       = log_messages (fst s) ++ l.
Proof.
  unfold set_datetime_index. apply logged_logs; [keeps_log | logs_tac].
Qed.

Lemma handle_missing_values_logs strategy subset fill_value method s :
  exists l, l <> []
    /\ log_messages (fst (snd (handle_missing_values strategy subset fill_value method s)))
       = log_messages (fst s) ++ l.
Proof.
  pose proof apply_strategy_log.
  unfold handle_missing_values, count_missing_after.
  apply logged_logs; [keeps_log; auto | logs_tac; auto].
Qed.

Lemma convert_one_log errors item : keeps log_extends (convert_one errors item).
Proof. unfold convert_one. destruct item. keeps_log. Qed.

Lemma convert_one_logs errors item : logs (convert_one errors item).
Proof. unfold convert_one. destruct item. logs_tac. Qed.

Lemma convert_data_types_logs item column_types errors s :
  exists l, l <> []
    /\ log_messages (fst (snd (convert_data_types (item :: column_types) errors s)))
       = log_messages (fst s) ++ l.
Proof.
  pose proof convert_one_log. pose proof convert_one_logs.
  unfold convert_data_types. apply logged_logs.
  - keeps_log.
  - logs_tac. cbn [for_each].
    apply logs_bind_l; [auto | intros ?; keeps_log].
Qed.

Lemma convert_data_types_empty errors s :
  fst (convert_data_types [] errors s) = Ok tt
  /\ log_messages (fst (snd (convert_data_types [] errors s))) = log_messages (fst s).
Proof. split; reflexivity. Qed.

Lemma remove_duplicate_rows_logs subset keep s :
  exists l, l <> []
    /\ log_messages (fst (snd (remove_duplicate_rows subset keep s)))
       = log_messages (fst s) ++ l.
Proof. unfold remove_duplicate_rows. apply logged_logs; [keeps_log | logs_tac]. Qed.

Lemma rename_columns_logs rename_map s :
  exists l, l <> []
    /\ log_messages (fst (snd (rename_columns rename_map s)))
       = log_messages (fst s) ++ l.
Proof. unfold rename_columns. apply logged_logs; [keeps_log | logs_tac]. Qed.

Lemma select_columns_logs columns_to_keep s :
  exists l, l <> []
    /\ log_messages (fst (snd (select_columns columns_to_keep s)))
       = log_messages (fst s) ++ l.
Proof. unfold select_columns. apply logged_logs; [keeps_log | logs_tac]. Qed.

Lemma apply_custom_function_logs func s :
  exists l, l <> []
    /\ log_messages (fst (snd (apply_custom_function func s)))
       = log_messages (fst s) ++ l.
Proof. unfold apply_custom_function. apply logged_logs; [keeps_log | logs_tac]. Qed.

Lemma get_processed_df_logs s :
  log_messages (fst (snd (get_processed_df s)))
  = log_messages (fst s) ++ [LogGot (shape (table s))].
Proof. reflexivity. Qed.

(** An operation on a processor that exists, with its arguments. *)
Inductive Operation :=
| OpSetDatetimeIndex (time_col errors : string) (infer_datetime_format : bool)
| OpHandleMissing (strategy : string) (subset_cols : option (list string))
    (fill_value : option Scalar) (method : string)
| OpConvertTypes (column_types : list (string * string)) (errors : string)
| OpRemoveDuplicates (subset : option (list string)) (keep : Keep)
| OpRenameColumns (rename_map : list (string * string))
| OpSelectColumns (columns_to_keep : list string)
| OpApplyCustom (func : UserFunc)
| OpGetProcessedDf
| OpGetLogMessages.

Definition perform (o : Operation) : P unit :=
  match o with
  | OpSetDatetimeIndex time_col errors infer => set_datetime_index time_col errors infer
  | OpHandleMissing strategy subset_cols fill_value method =>
      handle_missing_values strategy subset_cols fill_value method
  | OpConvertTypes column_types errors => convert_data_types column_types errors
  | OpRemoveDuplicates subset keep => remove_duplicate_rows subset keep
  | OpRenameColumns rename_map => rename_columns rename_map
  | OpSelectColumns columns_to_keep => select_columns columns_to_keep
  | OpApplyCustom func => apply_custom_function func
  | OpGetProcessedDf => get_processed_df ;; ret tt
  | OpGetLogMessages => get_log_messages ;; ret tt
  end.

(** C6 (amended).  The constructor starts the log with one message.
    Every later operation keeps what is logged and appends to it: datetime
    indexing, missing-value handling, de-duplication, renaming, column
    selection, the custom transform and the retrieval of the result append
    at least one message whether they return or raise; type conversion
    appends at least one message when it is given a column, and none for
    an empty mapping.  [_log] appends at the end, and [get_log_messages]
    returns the whole log, oldest message first, and appends nothing. *)
Theorem C6_operations_append_to_the_log (o : Operation) (s : PState) (input : loc)
    (m : LogMsg) :
  log_messages (fst (snd (init input s))) = [LogCreated (shape (read (heap (snd s)) input))]
  /\ (exists l,
        log_messages (fst (snd (perform o s))) = log_messages (fst s) ++ l
        /\ match o with
           | OpConvertTypes [] _ => l = []
           | OpGetLogMessages => l = []
           | _ => l <> []
           end)
  /\ log_messages (fst (snd (_log m s))) = log_messages (fst s) ++ [m]
  /\ get_log_messages s = (Ok (log_messages (fst s)), s).
Proof.
  split; [reflexivity|]. split; [|split; reflexivity].
  destruct o as [tc er inf|st su fv me|ct er|su ke|rm|co|fu| |]; cbn [perform].
  - destruct (set_datetime_index_logs tc er inf s) as (l & Hl & El). eauto.
  - destruct (handle_missing_values_logs st su fv me s) as (l & Hl & El). eauto.
  - destruct ct as [|item ct].
    + exists []. split; [|reflexivity]. rewrite app_nil_r.
      apply convert_data_types_empty.
    + destruct (convert_data_types_logs item ct er s) as (l & Hl & El). eauto.
  - destruct (remove_duplicate_rows_logs su ke s) as (l & Hl & El). eauto.
  - destruct (rename_columns_logs rm s) as (l & Hl & El). eauto.
  - destruct (select_columns_logs co s) as (l & Hl & El). eauto.
  - destruct (apply_custom_function_logs fu s) as (l & Hl & El). eauto.
  - exists [LogGot (shape (table s))]. split; [reflexivity | discriminate].
  - exists []. split; [|reflexivity]. rewrite app_nil_r. reflexivity.
Qed.

(** *** C10: validation comes before any change *)

(** The table object and the binding of [self.df] are as they were. *)
Definition unchanged (s s' : PState) : Prop :=
  heap (snd s') = heap (snd s) /\ df (fst s') = df (fst s).

Lemma check_columns_present cols s :
  forallb (fun c => Py.str_in c (columns (table s))) cols = true ->
  check_columns cols s = (Ok tt, s).
Proof.
  unfold check_columns. induction cols as [|c cols IH]; cbn [forallb for_each].
  - reflexivity.
  - intros H. apply andb_prop in H. destruct H as [Hc Hr].
    unfold bind at 1. unfold self_df, gets. cbn [fst snd].
    unfold bind at 1. cbn [fst snd]. fold (table s). rewrite Hc. cbn [negb].
    unfold ret at 1. apply IH. exact Hr.
Qed.

(** The first column of the list that the table lacks. *)
Definition first_absent (cols : list string) (d : DataFrame) : option string :=
  find (fun c => negb (Py.str_in c (columns d))) cols.

Lemma check_columns_absent cols s c :
  first_absent cols (table s) = Some c ->
  check_columns cols s = (Raise (ValueError (TColumnNotFound c)), s).
Proof.
  unfold check_columns, first_absent.
  induction cols as [|c0 cols IH]; cbn [find for_each]; [discriminate|].
  intros H. unfold bind at 1. unfold self_df, gets. cbn [fst snd].
  unfold bind at 1. cbn [fst snd]. fold (table s).
  destruct (negb (Py.str_in c0 (columns (table s)))).
  - inversion H; subst. reflexivity.
  - unfold ret at 1. apply IH. exact H.
Qed.

Lemma first_absent_given cols d c :
  first_absent cols d = Some c -> given (Some cols) = Some cols.
Proof. destruct cols; [discriminate | reflexivity]. Qed.

(** The state a failed validation leaves: the call recorded, the error
    printed and logged, nothing else. *)
Definition rejected (c : Call) (m : LogMsg) (s : PState) : PState :=
  ({| df := df (fst s); log_messages := log_messages (fst s) ++ [m] |},
   with_stdout (stdout (snd s) ++ [LineLog m])
     (with_calls (calls (snd s) ++ [c]) (snd s))).

(** C10.  [handle_missing_values] with a strategy that is not supported,
    or with a subset that names a column the table lacks, and
    [rename_columns] and [select_columns] with a name the table lacks,
    raise before they touch the table: the heap and [self.df] are as before
    the call, and only the error is logged. *)
Theorem C10_invalid_arguments_raise_before_any_change (s : PState) :
  (forall strategy subset_cols fill_value method,
      Py.str_in strategy valid_strategies = false ->
      let e := ValueError (TUnsupportedStrategy strategy valid_strategies) in
      handle_missing_values strategy subset_cols fill_value method s
      = (Raise e, rejected (CallHandleMissing strategy subset_cols fill_value method)
                   (LogMissingError e) s))
  /\ (forall strategy cols fill_value method c,
        Py.str_in strategy valid_strategies = true ->
        first_absent cols (table s) = Some c ->
        let e := ValueError (TColumnNotFound c) in
        handle_missing_values strategy (Some cols) fill_value method s
        = (Raise e, rejected (CallHandleMissing strategy (Some cols) fill_value method)
                     (LogMissingError e) s))
  /\ (forall rename_map,
        missing_from (table s) (map fst rename_map) <> [] ->
        let e := KeyError (TRenameNotFound (missing_from (table s) (map fst rename_map))) in
        rename_columns rename_map s
        = (Raise e, rejected (CallRenameColumns rename_map) (LogRenameError e) s))
  /\ (forall columns_to_keep,
        missing_from (table s) columns_to_keep <> [] ->
        let e := ValueError (TSelectNotFound (missing_from (table s) columns_to_keep)) in
        select_columns columns_to_keep s
        = (Raise e, rejected (CallSelectColumns columns_to_keep) (LogSelectError e) s))
  /\ (forall c m, unchanged s (rejected c m s)).
Proof.
  repeat split.
  - intros strategy subset_cols fill_value method Hv e.
    unfold handle_missing_values, logged, bind, try_except, enter, modify.
    cbn [fst snd]. rewrite Hv. reflexivity.
  - intros strategy cols fill_value method c Hv Ha e.
    unfold handle_missing_values, logged. unfold bind at 1. unfold enter, modify.
    cbn [fst snd]. unfold try_except. rewrite Hv. cbn [negb].
    rewrite (first_absent_given _ _ _ Ha).
    unfold bind at 1. unfold bind at 1.
    rewrite (check_columns_absent cols _ c) by exact Ha.
    reflexivity.
  - intros rename_map Hm e.
    unfold rename_columns, logged, bind, try_except, enter, modify, self_df, gets.
    subst e. unfold table in *. cbn [fst snd set_world with_calls heap].
    destruct (missing_from _ (map fst rename_map)); [congruence|].
    reflexivity.
  - intros columns_to_keep Hm e.
    unfold select_columns, logged, bind, try_except, enter, modify, self_df, gets.
    subst e. unfold table in *. cbn [fst snd set_world with_calls heap].
    destruct (missing_from _ columns_to_keep); [congruence|].
    reflexivity.
Qed.

(** *** C3: delegation to the library *)

(** From the state [s], the operation [m] does what the one library call
    [call] does on the table: when the call returns a frame, [m] returns
    and the frame is the table; when the call raises, [m] raises the same
    exception and the table is as before. *)
Definition delegates_at (s : PState) (m : P unit) (call : DataFrame -> Res DataFrame)
  : Prop :=
  match call (table s) with
  | Ok d' => fst (m s) = Ok tt /\ table (snd (m s)) = d'
  | Raise e => fst (m s) = Raise e /\ unchanged s (snd (m s))
  end.

(** The library call the spec names for a filling strategy without a
    subset of columns. *)
Definition fill_call (strategy : string) (fill_value : option Scalar) (method : string)
  : option (DataFrame -> Res DataFrame) :=
  if (strategy =? "ffill")%string then Some (fun d => fillna_method d "ffill")
  else if (strategy =? "bfill")%string then Some (fun d => fillna_method d "bfill")
  else if (strategy =? "interpolate")%string then Some (fun d => interpolate d method)
  else if (strategy =? "fill_constant")%string
  then (fun v d => fillna_value d v) <$> fill_value
  else if (strategy =? "fill_zero")%string
  then Some (fun d => fillna_value d (scalar_of_int 0))
  else None.

(** Runs the primitives of a computation applied to a state. *)
Ltac run_primitives :=
  unfold logged, replace_df, assign_df, alloc, enter, modify, self_df, gets,
    try_except, bind, lift, _log, print, raise, ret, table, unchanged in *;
  cbn [fst snd set_world set_self with_calls with_heap with_stdout
       heap df log_messages stdout calls] in *.

Lemma rename_columns_delegates rename_map s :
  missing_from (table s) (map fst rename_map) = [] ->
  delegates_at s (rename_columns rename_map) (fun d => rename d rename_map).
Proof.
  intros Hm. unfold delegates_at, rename_columns. run_primitives.
  rewrite Hm. cbn [nonempty].
  destruct (rename _ rename_map) as [d'|e]; cbn.
  - split; [reflexivity | apply read_alloc].
  - split; [reflexivity | split; reflexivity].
Qed.

Lemma select_columns_delegates columns_to_keep s :
  missing_from (table s) columns_to_keep = [] ->
  delegates_at s (select_columns columns_to_keep)
    (fun d => getitem_list d columns_to_keep).
Proof.
  intros Hm. unfold delegates_at, select_columns. run_primitives.
  rewrite Hm. cbn [nonempty].
  destruct (getitem_list _ columns_to_keep) as [d'|e]; cbn [fst snd].
  - destruct (nonempty (set_difference _ _)); cbn;
      (split; [reflexivity | apply read_alloc]).
  - split; [reflexivity | split; reflexivity].
Qed.

(** The columns of [subset], if any are given, are columns of the table. *)
Definition subset_present (subset : option (list string)) (d : DataFrame) : bool :=
  match given subset with
  | Some cols => forallb (fun c => Py.str_in c (columns d)) cols
  | None => true
  end.

Lemma remove_duplicate_rows_delegates subset keep s :
  subset_present subset (table s) = true ->
  delegates_at s (remove_duplicate_rows subset keep)
    (fun d => drop_duplicates d subset keep).
Proof.
  intros Hp. unfold delegates_at, remove_duplicate_rows, subset_present in *.
  assert (Hc : forall s0 : PState,
             table s0 = table s ->
             match given subset with
             | Some cols => check_columns cols
             | None => ret tt
             end s0 = (Ok tt, s0)).
  { intros s0 E. destruct (given subset) as [cols|]; [|reflexivity].
    apply check_columns_present. rewrite E. exact Hp. }
  run_primitives. rewrite Hc by reflexivity.
  destruct (drop_duplicates _ subset keep) as [d'|e]; cbn.
  - split; [reflexivity | apply read_alloc].
  - split; [reflexivity | split; reflexivity].
Qed.

Lemma handle_missing_values_delegates strategy subset_cols fill_value method call s :
  given subset_cols = None ->
  fill_call strategy fill_value method = Some call ->
  delegates_at s (handle_missing_values strategy subset_cols fill_value method) call.
Proof.
  intros Hg Hc. unfold fill_call in Hc.
  unfold delegates_at, handle_missing_values. rewrite Hg.
  repeat match type of Hc with
         | (if (?a =? ?b)%string then _ else _) = _ =>
             destruct (String.eqb_spec a b) as [->|?]
         end;
    try discriminate.
  all: unfold apply_strategy, fill_with, count_missing_after;
    cbn [String.eqb Ascii.eqb Bool.eqb];
    try (destruct fill_value as [v|]; [|discriminate]);
    cbn [fmap option_fmap option_map] in Hc; inversion Hc; subst call;
    run_primitives; cbn;
    match goal with
    | |- context [match ?x with Ok _ => _ | Raise _ => _ end] => destruct x as [d'|e]
    end; cbn;
    [split; [reflexivity | apply read_alloc] | repeat split].
Qed.

(** Dropping rows or columns without a subset: the table becomes what
    [dropna] returns, and the missing values left are then counted on the
    projection of the new table on its columns. *)
Definition drops_at (s : PState) (m : P unit) (call : DataFrame -> Res DataFrame)
  : Prop :=
  match call (table s) with
  | Ok d' =>
      table (snd (m s)) = d'
      /\ fst (m s) = match getitem_list d' (columns d') with
                     | Ok _ => Ok tt
                     | Raise e => Raise e
                     end
  | Raise e => fst (m s) = Raise e /\ unchanged s (snd (m s))
  end.

Lemma handle_missing_values_drops subset_cols fill_value method s :
  given subset_cols = None ->
  drops_at s (handle_missing_values "dropna_rows" subset_cols fill_value method)
    (fun d => dropna d None)
  /\ drops_at s (handle_missing_values "dropna_cols" subset_cols fill_value method)
       dropna_columns.
Proof.
  intros Hg. unfold drops_at, handle_missing_values. rewrite Hg.
  unfold apply_strategy, fill_with, count_missing_after.
  cbn [String.eqb Ascii.eqb Bool.eqb]. run_primitives. cbn.
  split.
  - destruct (dropna _ None) as [d'|e]; cbn; [|repeat split].
    rewrite !read_alloc.
    destruct (getitem_list d' (columns d')); cbn; rewrite ?read_alloc; split; reflexivity.
  - destruct (dropna_columns _) as [d'|e]; cbn; [|repeat split].
    rewrite !read_alloc.
    destruct (getitem_list d' (columns d')); cbn; rewrite ?read_alloc; split; reflexivity.
Qed.

(** C3 (amended).  On arguments that pass its validation, an operation
    that replaces the table is one call of the library on the table:
    [rename_columns] is [rename] when every key is a column,
    [select_columns] is the projection when every name is a column,
    [remove_duplicate_rows] is [drop_duplicates] when the subset, if
    given, names columns only, and [handle_missing_values] without a
    subset is [fillna] or [interpolate] for the strategies ffill, bfill,
    interpolate, fill_constant with a value, and fill_zero; for
    dropna_rows and dropna_cols the table becomes the result of [dropna]
    and the remaining missing values are then counted on a projection.
    The operation returns when the call returns, and raises the call's
    exception, leaving the table alone, when the call raises. *)
Theorem C3_validated_operations_delegate_to_one_call (s : PState) :
  (forall rename_map,
      missing_from (table s) (map fst rename_map) = [] ->
      delegates_at s (rename_columns rename_map) (fun d => rename d rename_map))
  /\ (forall columns_to_keep,
        missing_from (table s) columns_to_keep = [] ->
        delegates_at s (select_columns columns_to_keep)
          (fun d => getitem_list d columns_to_keep))
  /\ (forall subset keep,
        subset_present subset (table s) = true ->
        delegates_at s (remove_duplicate_rows subset keep)
          (fun d => drop_duplicates d subset keep))
  /\ (forall strategy subset_cols fill_value method call,
        given subset_cols = None ->
        fill_call strategy fill_value method = Some call ->
        delegates_at s (handle_missing_values strategy subset_cols fill_value method)
          call)
  /\ (forall subset_cols fill_value method,
        given subset_cols = None ->
        drops_at s (handle_missing_values "dropna_rows" subset_cols fill_value method)
          (fun d => dropna d None)
        /\ drops_at s (handle_missing_values "dropna_cols" subset_cols fill_value method)
             dropna_columns).
Proof.
  split; [intros; apply rename_columns_delegates; assumption|].
  split; [intros; apply select_columns_delegates; assumption|].
  split; [intros; apply remove_duplicate_rows_delegates; assumption|].
  split; [intros; apply handle_missing_values_delegates; assumption|].
  intros. apply handle_missing_values_drops. assumption.
Qed.

(** *** C5: the export *)









(** The writer and the frame it is given for a format: [to_feather]
    writes the frame with its index made a column. *)
Definition frame_to_write (file_format : string) (d : DataFrame)
  : Res (Format * DataFrame) :=
  if (file_format =? "parquet")%string then Ok (Parquet, d)
  else if (file_format =? "csv")%string then Ok (Csv, d)
  else if (file_format =? "feather")%string then
    match reset_index d with
    | Ok d' => Ok (Feather, d')
    | Raise e => Raise e
    end
  else if (file_format =? "pickle")%string then Ok (Pickle, d)
  else Raise (ValueError (TUnsupportedFormat file_format valid_formats)).

(** The path [save_dataframe] writes to. *)
Definition export_path (base_save_path filename_prefix file_format : string)
    (include_timestamp : bool) (w : World) : string :=
  os_path_join base_save_path
    (file_name filename_prefix (if include_timestamp then strftime (now w) else "")
       file_format).

Lemma strftime_truthy t : Py.truthy (strftime t) = true.
Proof. reflexivity. Qed.

(** Mounting touches neither the clock, nor the heap, nor the files. *)
Lemma _ensure_drive_mounted_frame base :
  keeps (same (fun w : World => (now w, heap w, files w, metadata_files w, calls w)))
    (_ensure_drive_mounted base).
Proof. unfold _ensure_drive_mounted, mount_drive. keeps_same. Qed.

(** What [save_dataframe] returns and writes, case by case. *)
Lemma save_dataframe_cases base r filename_prefix file_format include_timestamp meta w :
  let R := save_dataframe base r filename_prefix file_format include_timestamp meta w in
  let path := export_path base filename_prefix file_format include_timestamp w in
  let w0 :=
    with_calls (calls w ++ [CallSaveDataframe filename_prefix file_format
                              include_timestamp]) w in
  match fst (_ensure_drive_mounted base w0) with
  | Ok true =>
      match frame_to_write file_format (read (heap w) r) with
      | Ok (f, d') =>
          match write_frame f d' path with
          | None =>
              files (snd R) = files w ++ [(path, (f, d'))]
              /\ fst R = (if meta
                          then match open_error (snd (_ensure_drive_mounted base w0)) with
                               | None => Ok path
                               | Some _ => Ok ""
                               end
                          else Ok path)
          | Some _ => fst R = Ok "" /\ files (snd R) = files w
          end
      | Raise _ => fst R = Ok "" /\ files (snd R) = files w
      end
  | _ => fst R = Ok "" /\ files (snd R) = files w
  end.
Proof.
  intros R path w0.
  assert (ER : R = try_except
                 (mounted <- _ensure_drive_mounted base ;;
                  if negb mounted then say DriveUnavailable ;; ret ""
                  else if negb (Py.str_in file_format valid_formats) then
                    raise (ValueError (TUnsupportedFormat file_format valid_formats))
                  else
                    t <- gets now ;;
                    let timestamp := if include_timestamp then strftime t else "" in
                    let filename := file_name filename_prefix timestamp file_format in
                    let full_path := os_path_join base filename in
                    d <- gets (fun w => read (heap w) r) ;;
                    (if (file_format =? "parquet")%string then write_to Parquet d full_path
                     else if (file_format =? "csv")%string then write_to Csv d full_path
                     else if (file_format =? "feather")%string then
                       df_with_idx <- lift (reset_index d) ;;
                       write_to Feather df_with_idx full_path
                     else if (file_format =? "pickle")%string
                     then write_to Pickle d full_path
                     else ret tt) ;;
                    say (DriveFileSaved full_path) ;;
                    (if meta then
                       let metadata_path :=
                         os_path_join base (metadata_name filename_prefix timestamp) in
                       write_metadata metadata_path ;;
                       say (DriveMetadataSaved metadata_path)
                     else ret tt) ;;
                    ret full_path)
                 (fun e => say (DriveSaveError e) ;; ret "") w0) by reflexivity.
  rewrite ER. clear ER R.
  pose proof (_ensure_drive_mounted_frame base w0) as Hf. unfold same in Hf.
  destruct (try_except _ _ w0) as [res wR] eqn:E. cbn [fst snd].
  unfold try_except in E. unfold bind at 1 in E.
  unfold path, export_path. clear path.
  destruct (_ensure_drive_mounted base w0) as [[[|]|e] w1]; cbn [fst snd] in *;
    injection Hf as Hnow Hheap Hfiles Hmeta Hcalls;
    cbn [now heap files with_calls] in Hnow, Hheap, Hfiles;
    rewrite <- ?Hnow, <- ?Hheap, <- ?Hfiles;
    [ | inversion E; subst; split; reflexivity
      | inversion E; subst; split; reflexivity ].
  unfold frame_to_write. unfold Py.str_in, valid_formats in E. cbn [existsb] in E.
  unfold bind, gets, lift, say, print, modify, write_to, write_metadata, ret, raise in E.
  destruct (file_format =? "parquet")%string;
    [|destruct (file_format =? "csv")%string;
      [|destruct (file_format =? "feather")%string;
        [|destruct (file_format =? "pickle")%string]]];
    cbn [orb negb fst snd id] in E; cbv beta iota;
    try (destruct (reset_index _) as [d'|e]; cbv beta iota);
    try match type of E with
        | context [write_frame ?f ?d ?p] => destruct (write_frame f d p)
        end;
    cbn [fst snd files with_stdout with_files] in E;
    try (destruct meta; [cbn [open_error with_stdout with_files] in E;
                         destruct (open_error w1)|]);
    inversion E; subst; cbn; split; reflexivity.
Qed.


(** The export step of the button saves through the handler. *)
Lemma step_save_files v r s :
  files (snd (snd (step_save v r s)))
  = files (snd (save_dataframe (drive_saver (fst s)) r
                  (Py.strip (text_save_filename_prefix v)) (dropdown_save_format v)
                  (cb_include_timestamp v) false (snd (told UiHeaderSave s)))).
Proof.
  unfold step_save.
  change ((tell UiHeaderSave ;; ?m) s) with (m (told UiHeaderSave s)).
  unfold try_except, bind, gets, on_drive. cbn [fst snd].
  change (drive_saver (fst (told UiHeaderSave s))) with (drive_saver (fst s)).
  destruct (save_dataframe_runs (drive_saver (fst s)) r
              (Py.strip (text_save_filename_prefix v)) (dropdown_save_format v)
              (cb_include_timestamp v) false (snd (told UiHeaderSave s))) as [[p Hp] _].
  destruct (save_dataframe _ _ _ _ _ _ _) as [res w1]. cbn [fst snd] in *. subst res.
  destruct (Py.truthy p); reflexivity.
Qed.


(** *** C7: the parameter widgets follow the checkboxes *)

(** Each parameter widget, the fill value and the interpolation method
    apart, is displayed exactly when the checkbox of its operation is
    checked. *)
Definition follows_checkboxes (u : UI) : Prop :=
  let v := widgets u in
  let l := layout u in
  show_time_col l = shown (cb_set_datetime_index v)
  /\ show_time_errors l = shown (cb_set_datetime_index v)
  /\ show_infer_datetime_format l = shown (cb_set_datetime_index v)
  /\ show_missing_strategy l = shown (cb_handle_missing v)
  /\ show_missing_subset_cols l = shown (cb_handle_missing v)
  /\ show_column_types l = shown (cb_convert_types v)
  /\ show_convert_errors l = shown (cb_convert_types v)
  /\ show_duplicates_keep l = shown (cb_remove_duplicates v)
  /\ show_duplicates_subset l = shown (cb_remove_duplicates v)
  /\ show_rename_map l = shown (cb_rename_columns v)
  /\ show_columns_to_keep l = shown (cb_select_columns v).

(** The fill value is displayed exactly when missing values are handled
    with the strategy fill_constant, the interpolation method exactly when
    they are handled with the strategy interpolate. *)
Definition follows_strategy (u : UI) : Prop :=
  let v := widgets u in
  let l := layout u in
  show_missing_fill_value l
  = shown (cb_handle_missing v && (dropdown_missing_strategy v =? "fill_constant")%string)
  /\ show_interpolate_method l
     = shown (cb_handle_missing v && (dropdown_missing_strategy v =? "interpolate")%string).

(** The strategy is chosen while its dropdown is displayed, that is while
    the checkbox of the missing values is checked. *)
Definition offered (e : Event) (u : UI) : bool :=
  match e with
  | SetMissingStrategy _ => cb_handle_missing (widgets u)
  | _ => true
  end.

Fixpoint all_offered (es : list Event) (u : UI) : bool :=
  match es with
  | [] => true
  | e :: es' => offered e u && all_offered es' (fire e u)
  end.

(** The form as [_create_widgets] leaves it. *)
Definition created (u : UI) : UI := set_layout initial_layout (set_widgets initial_widgets u).

Lemma fire_follows_checkboxes e u : follows_checkboxes u -> follows_checkboxes (fire e u).
Proof.
  unfold follows_checkboxes. intros H.
  destruct e as [b|b|x|b|b|b|b]; unfold fire;
    match goal with
    | |- context [if ?c then u else _] => destruct c; [exact H|]
    end;
    cbn; intuition.
Qed.

Lemma fire_follows_strategy e u :
  offered e u = true -> follows_strategy u -> follows_strategy (fire e u).
Proof.
  unfold follows_strategy, offered. intros Ho H.
  destruct e as [b|b|x|b|b|b|b]; unfold fire;
    match goal with
    | |- context [if ?c then u else _] => destruct c eqn:Ec; [exact H|]
    end;
    cbn; try exact H.
  - destruct b; cbn; split; reflexivity.
  - rewrite Ho. cbn. split; reflexivity.
Qed.

Lemma fire_all_follows_checkboxes es u :
  follows_checkboxes u -> follows_checkboxes (fire_all es u).
Proof.
  revert u. induction es as [|e es IH]; intros u H; [exact H|].
  cbn. apply IH, fire_follows_checkboxes, H.
Qed.

Lemma fire_all_follows_strategy es u :
  all_offered es u = true -> follows_strategy u -> follows_strategy (fire_all es u).
Proof.
  revert u. induction es as [|e es IH]; intros u Ho H; [exact H|].
  cbn in *. apply andb_prop in Ho. destruct Ho as [H1 H2].
  apply IH; [exact H2 | apply fire_follows_strategy; assumption].
Qed.

(** C7 (amended).  After every sequence of changes of the checkboxes and
    of the strategy dropdown, from the form as created, the parameter
    widgets of each operation are displayed exactly when its checkbox is
    checked.  When the strategy is changed only while its dropdown is
    displayed, the fill value is displayed exactly when the checkbox of
    the missing values is checked and the strategy is fill_constant, and
    the interpolation method exactly when it is checked and the strategy
    is interpolate. *)
Theorem C7_widgets_follow_checkboxes (u : UI) (es : list Event) :
  follows_checkboxes (fire_all es (created u))
  /\ (all_offered es (created u) = true -> follows_strategy (fire_all es (created u))).
Proof.
  split.
  - apply fire_all_follows_checkboxes. unfold follows_checkboxes. cbn. intuition.
  - intros H. apply fire_all_follows_strategy; [exact H|].
    unfold follows_strategy. cbn. split; reflexivity.
Qed.

(** *** C8: the caller's DataFrame *)

(** The objects below [n] are not the processor's: while [self.df] is an
    object at or above [n], they stay as they are. *)
Definition guards (n : nat) : relation PState :=
  fun s s' =>
    n <= df (fst s) < length (heap (snd s)) ->
    n <= df (fst s') < length (heap (snd s'))
    /\ forall r, r < n -> heap (snd s') !! r = heap (snd s) !! r.

#[local] Instance guards_preorder n : PreOrder (guards n).
Proof.
  split.
  - intros s H. split; [exact H | reflexivity].
  - intros a b c H1 H2 Ha. destruct (H1 Ha) as [Hb E1]. destruct (H2 Hb) as [Hc E2].
    split; [exact Hc|]. intros r Hr. rewrite E2, E1 by exact Hr. reflexivity.
Qed.

Lemma keeps_guards_update_df n d : keeps (guards n) (update_df d).
Proof.
  intros s H. cbn. rewrite length_insert. split; [exact H|].
  intros r Hr. apply list_lookup_insert_ne. lia.
Qed.

Lemma keeps_guards_assign_df n d : keeps (guards n) (assign_df d).
Proof.
  intros s H. cbn. rewrite length_app. cbn. split; [lia|].
  intros r Hr. apply lookup_app_l. lia.
Qed.

Lemma keeps_guards_alloc n d : keeps (guards n) (alloc snd set_world d).
Proof.
  intros s H. cbn. rewrite length_app. cbn. split; [lia|].
  intros r Hr. apply lookup_app_l. lia.
Qed.

Ltac guards_leaf :=
  solve [ apply keeps_guards_update_df
        | apply keeps_guards_assign_df
        | apply keeps_guards_alloc
        | intros ? ?; cbn; split; [assumption | reflexivity] ].

Ltac keeps_guards := repeat (first [guards_leaf | keeps_step]).

Lemma apply_strategy_guards n strategy subset fill_value method :
  keeps (guards n) (apply_strategy strategy subset fill_value method).
Proof. unfold apply_strategy. keeps_guards. Qed.

Lemma perform_guards n (o : Operation) : keeps (guards n) (perform o).
Proof.
  pose proof (apply_strategy_guards n).
  destruct o; cbn [perform];
    unfold set_datetime_index, handle_missing_values, count_missing_after,
      convert_data_types, remove_duplicate_rows, rename_columns, select_columns,
      apply_custom_function, get_processed_df, get_log_messages;
    keeps_guards; auto.
Qed.





(** *** C9: a click starts from the raw table *)

(** Two states of a processor whose tables hold the same frame. *)
Definition alike (s1 s2 : PState) : Prop :=
  table s1 = table s2
  /\ df (fst s1) < length (heap (snd s1))
  /\ df (fst s2) < length (heap (snd s2)).

Lemma respects_self_df : respects alike self_df.
Proof. intros s1 s2 H. split; [cbn; f_equal; apply H | exact H]. Qed.

Lemma table_update_df d s :
  df (fst s) < length (heap (snd s)) -> table (snd (update_df d s)) = d.
Proof. intros H. unfold table, read. cbn. rewrite list_lookup_insert_eq by exact H. reflexivity. Qed.

Lemma respects_update_df d : respects alike (update_df d).
Proof.
  intros s1 s2 (Ht & H1 & H2). split; [reflexivity|].
  split; [rewrite !table_update_df by assumption; reflexivity|].
  cbn. rewrite !length_insert. split; assumption.
Qed.

Lemma respects_assign_df d : respects alike (assign_df d).
Proof.
  intros s1 s2 (Ht & H1 & H2). split; [reflexivity|].
  unfold alike, table. cbn. rewrite !read_alloc, !length_app. cbn.
  split; [reflexivity | lia].
Qed.

Lemma respects_log m : respects alike (_log m).
Proof. intros s1 s2 H. split; [reflexivity | exact H]. Qed.

Lemma respects_enter c : respects alike (enter snd set_world c).
Proof. intros s1 s2 H. split; [reflexivity | exact H]. Qed.

Ltac respects_leaf :=
  solve [ apply respects_self_df | apply respects_update_df | apply respects_assign_df
        | apply respects_log | apply respects_enter ].

Ltac respects_tac := repeat (first [respects_leaf | respects_step]).

Lemma apply_strategy_respects strategy subset fill_value method :
  respects alike (apply_strategy strategy subset fill_value method).
Proof. unfold apply_strategy. respects_tac. Qed.

Lemma perform_respects (o : Operation) :
  match o with
  | OpGetProcessedDf | OpGetLogMessages => True
  | _ => respects alike (perform o)
  end.
Proof.
  pose proof apply_strategy_respects.
  destruct o; cbn [perform]; try exact I;
    unfold set_datetime_index, handle_missing_values, count_missing_after,
      convert_data_types, remove_duplicate_rows, rename_columns, select_columns,
      apply_custom_function;
    respects_tac; auto.
Qed.

(** The processor of the form, in its world. *)
Definition procU (s : UI * World) : PState := (processor (fst s), snd s).

Definition alikeU (s1 s2 : UI * World) : Prop := alike (procU s1) (procU s2).

Lemma respects_on_processor (m : P unit) :
  respects alike m -> respects alikeU (on_processor m).
Proof.
  intros Hm s1 s2 H. unfold on_processor, alikeU, procU in *.
  destruct (Hm _ _ H) as [E Q].
  destruct (m (processor (fst s1), snd s1)) as [r1 [p1 w1]].
  destruct (m (processor (fst s2), snd s2)) as [r2 [p2 w2]].
  cbn in *. split; assumption.
Qed.

Lemma respects_tell msg : respects alikeU (tell msg).
Proof. intros s1 s2 H. split; [reflexivity | exact H]. Qed.

Ltac respects_ui :=
  repeat (first [ apply respects_tell
                | apply respects_on_processor
                | respects_step ]).

Lemma step_datetime_respects v : respects alikeU (step_datetime v).
Proof.
  unfold step_datetime. respects_ui.
  apply (perform_respects (OpSetDatetimeIndex _ _ _)).
Qed.

Lemma step_missing_respects v : respects alikeU (step_missing v).
Proof.
  unfold step_missing. respects_ui.
  apply (perform_respects (OpHandleMissing _ _ _ _)).
Qed.

Lemma step_convert_respects v : respects alikeU (step_convert v).
Proof.
  unfold step_convert. respects_ui.
  apply (perform_respects (OpConvertTypes _ _)).
Qed.

Lemma step_duplicates_respects v : respects alikeU (step_duplicates v).
Proof.
  unfold step_duplicates. respects_ui.
  apply (perform_respects (OpRemoveDuplicates _ _)).
Qed.

Lemma step_rename_respects v : respects alikeU (step_rename v).
Proof.
  unfold step_rename. respects_ui.
  apply (perform_respects (OpRenameColumns _)).
Qed.

Lemma step_select_respects v : respects alikeU (step_select v).
Proof.
  unfold step_select. respects_ui.
  apply (perform_respects (OpSelectColumns _)).
Qed.

(** The state after the six cleaning steps. *)
Definition cleaned (v : Widgets) (s : UI * World) : UI * World :=
  snd (step_select v
    (snd (step_rename v
      (snd (step_duplicates v
        (snd (step_convert v
          (snd (step_missing v
            (snd (step_datetime v s))))))))))).

Lemma cleaned_respects v s1 s2 : alikeU s1 s2 -> alikeU (cleaned v s1) (cleaned v s2).
Proof.
  intros H. unfold cleaned.
  apply step_select_respects, step_rename_respects, step_duplicates_respects,
    step_convert_respects, step_missing_respects, step_datetime_respects, H.
Qed.

(** A click keeps the raw table and the widgets, and the objects below
    [n] while the table of its processor is at or above [n]. *)
Definition steady (n : nat) : relation (UI * World) :=
  fun s s' =>
    raw_df (fst s') = raw_df (fst s)
    /\ widgets (fst s') = widgets (fst s)
    /\ guards n (procU s) (procU s').

#[local] Instance steady_preorder n : PreOrder (steady n).
Proof.
  split.
  - intros s. split; [reflexivity|]. split; reflexivity.
  - intros a b c (R1 & W1 & G1) (R2 & W2 & G2).
    split; [congruence|]. split; [congruence|]. etransitivity; eassumption.
Qed.

Lemma keeps_steady_on_processor {A} n (m : P A) :
  keeps (guards n) m -> keeps (steady n) (on_processor m).
Proof.
  intros Hm s. unfold on_processor, steady, procU. specialize (Hm (processor (fst s), snd s)).
  destruct (m (processor (fst s), snd s)) as [r [p w]]. cbn in *.
  repeat split; try reflexivity; apply Hm; assumption.
Qed.

Lemma save_dataframe_heap base r filename_prefix file_format include_timestamp meta :
  keeps (same heap)
    (save_dataframe base r filename_prefix file_format include_timestamp meta).
Proof. unfold save_dataframe, _ensure_drive_mounted, mount_drive. keeps_same. Qed.

Lemma keeps_steady_on_drive {A} n (m : D A) :
  keeps (same heap) m -> keeps (steady n) (on_drive m).
Proof.
  intros Hm s. unfold on_drive, steady, procU, guards. specialize (Hm (snd s)).
  unfold same in Hm. destruct (m (snd s)) as [r w]. cbn in *.
  rewrite Hm. repeat split; try reflexivity; apply H.
Qed.

Ltac steady_leaf :=
  solve [ apply keeps_steady_on_drive; apply save_dataframe_heap
        | intros ?; repeat split; try reflexivity; cbn; intros; tauto ].

Ltac keeps_steady := repeat (first [steady_leaf | keeps_step]).

Lemma step_save_steady n v r : keeps (steady n) (step_save v r).
Proof. unfold step_save. keeps_steady. Qed.

Lemma run_steps_steady n v : keeps (steady n) (run_steps v).
Proof.
  pose proof (step_save_steady n v).
  unfold run_steps, step_datetime, step_missing, step_convert, step_duplicates,
    step_rename, step_select.
  repeat (first [ steady_leaf
                | apply keeps_steady_on_processor
                | keeps_step ]);
    auto;
    first [ apply (perform_guards n (OpSetDatetimeIndex _ _ _))
          | apply (perform_guards n (OpHandleMissing _ _ _ _))
          | apply (perform_guards n (OpConvertTypes _ _))
          | apply (perform_guards n (OpRemoveDuplicates _ _))
          | apply (perform_guards n (OpRenameColumns _))
          | apply (perform_guards n (OpSelectColumns _))
          | unfold get_processed_df; keeps_guards ].
Qed.

(** The heap and the result of the form. *)
Definition outcome (s : UI * World) : list DataFrame * option loc :=
  (heap (snd s), processed_df (fst s)).

Lemma keeps_outcome_on_drive {A} (m : D A) :
  keeps (same heap) m -> keeps (same outcome) (on_drive m).
Proof.
  intros Hm s. unfold on_drive, same, outcome. specialize (Hm (snd s)).
  unfold same in Hm. destruct (m (snd s)) as [r w]. cbn in *. rewrite Hm. reflexivity.
Qed.

Lemma step_save_outcome v r : keeps (same outcome) (step_save v r ;; tell UiDone).
Proof.
  unfold step_save.
  repeat (first [ apply keeps_outcome_on_drive; apply save_dataframe_heap
                | solve [intros ?; reflexivity]
                | keeps_step ]).
Qed.

(** The state in which the steps start: the raw table copied, and a
    processor constructed on the copy. *)
Lemma read_alloc2 (h : list DataFrame) (a b : DataFrame) :
  read ((h ++ [a]) ++ [b]) (S (length h)) = b.
Proof.
  replace (S (length h)) with (length (h ++ [a])) by (rewrite length_app; cbn; lia).
  apply read_alloc.
Qed.

Lemma started_state u w :
  let n := length (heap w) in
  let raw := read (heap w) (raw_df u) in
  heap (snd (started u w)) = (heap w ++ [raw]) ++ [raw]
  /\ df (processor (fst (started u w))) = length (heap w ++ [raw])
  /\ table (procU (started u w)) = raw
  /\ raw_df (fst (started u w)) = raw_df u
  /\ widgets (fst (started u w)) = widgets u.
Proof.
  cbn. rewrite !read_alloc. repeat split; try reflexivity.
  unfold table, procU. cbn. apply read_alloc.
Qed.

Lemma clicked_result u w :
  _on_process_button_clicked (u, w)
  = (Ok tt, snd (show_preview
                   (close_output w (snd (run_steps (widgets u) (started u w)))))).
Proof.
  rewrite clicked_steps. cbn zeta.
  destruct (run_steps_ok (widgets u) (started u w)) as [Hok _]. rewrite Hok.
  reflexivity.
Qed.

Lemma show_preview_outcome s :
  heap (snd (snd (show_preview s))) = heap (snd s)
  /\ processed_df (fst (snd (show_preview s))) = processed_df (fst s)
  /\ raw_df (fst (snd (show_preview s))) = raw_df (fst s)
  /\ widgets (fst (snd (show_preview s))) = widgets (fst s).
Proof.
  unfold show_preview, modify. cbn [fst snd].
  destruct (processed_df (fst s)) eqn:E; cbn; rewrite ?E; repeat split.
Qed.

Lemma finish_outcome v s :
  let r := length (heap (snd s)) in
  heap (snd (snd (finish v s))) = heap (snd s) ++ [table (procU s)]
  /\ processed_df (fst (snd (finish v s))) = Some r.
Proof.
  intros r.
  assert (E : finish v s
              = (step_save v r ;; tell UiDone)
                  (set_processed_df (Some r) (fst (snd (on_processor get_processed_df s))),
                   snd (snd (on_processor get_processed_df s)))) by reflexivity.
  rewrite E. clear E.
  pose proof (step_save_outcome v r
                (set_processed_df (Some r) (fst (snd (on_processor get_processed_df s))),
                 snd (snd (on_processor get_processed_df s)))) as Hk.
  unfold same, outcome in Hk.
  assert (Hh := f_equal fst Hk). assert (Hp := f_equal snd Hk). cbn [fst snd] in Hh, Hp.
  rewrite Hh, Hp. split; reflexivity.
Qed.

(** What a click leaves: the result is a new object that holds the table
    of the processor after the six steps. *)
Lemma clicked_processed u w :
  let s6 := cleaned (widgets u) (started u w) in
  let s' := snd (_on_process_button_clicked (u, w)) in
  processed_df (fst s') = Some (length (heap (snd s6)))
  /\ read (heap (snd s')) (length (heap (snd s6))) = table (procU s6).
Proof.
  intros s6 s'. subst s'. rewrite clicked_result. cbn [snd].
  destruct (show_preview_outcome
              (close_output w (snd (run_steps (widgets u) (started u w)))))
    as (Hh & Hp & _ & _).
  rewrite Hh, Hp. clear Hh Hp.
  unfold close_output. cbn [fst snd heap with_stdout processed_df set_log_output].
  rewrite run_steps_threaded. fold (cleaned (widgets u) (started u w)). fold s6.
  destruct (finish_outcome (widgets u) s6) as [Hh Hp]. rewrite Hh, Hp.
  split; [reflexivity | apply read_alloc].
Qed.

(** A click leaves the raw table, the widgets and every object that
    existed before it as they were. *)
Lemma clicked_steady u w :
  let s' := snd (_on_process_button_clicked (u, w)) in
  raw_df (fst s') = raw_df u
  /\ widgets (fst s') = widgets u
  /\ forall x, x < length (heap w) -> heap (snd s') !! x = heap w !! x.
Proof.
  intros s'. subst s'. rewrite clicked_result. cbn [snd].
  destruct (show_preview_outcome
              (close_output w (snd (run_steps (widgets u) (started u w)))))
    as (Hh & _ & Hr & Hw).
  rewrite Hh, Hr, Hw. clear Hh Hr Hw.
  unfold close_output. cbn [fst snd heap with_stdout raw_df widgets set_log_output].
  destruct (started_state u w) as (Sh & Sd & _ & Sr & Sw).
  destruct (run_steps_steady (length (heap w)) (widgets u) (started u w))
    as (Hr & Hw & Hg).
  split; [congruence|]. split; [congruence|].
  unfold guards, procU in Hg. cbn [fst snd] in Hg.
  destruct Hg as [_ Hg].
  { rewrite Sd, Sh, !length_app. cbn. lia. }
  intros x Hx. rewrite Hg by exact Hx. rewrite Sh.
  rewrite !lookup_app_l; [reflexivity | exact Hx | rewrite length_app; lia].
Qed.

Lemma started_alike u1 w1 u2 w2 :
  read (heap w1) (raw_df u1) = read (heap w2) (raw_df u2) ->
  alikeU (started u1 w1) (started u2 w2).
Proof.
  intros H. unfold alikeU, alike.
  destruct (started_state u1 w1) as (Sh1 & Sd1 & St1 & _).
  destruct (started_state u2 w2) as (Sh2 & Sd2 & St2 & _).
  rewrite St1, St2. split; [exact H|].
  unfold procU. cbn [fst snd]. rewrite Sd1, Sd2, Sh1, Sh2, !length_app. cbn. lia.
Qed.

(** C9.  Every click copies the stored raw DataFrame and constructs a new
    processor on the copy, with a log of its own.  For a raw table that
    exists and fixed widget values, the result of a second click holds
    what the result of the first click holds: the second click starts from
    the raw table again, which the first click did not change. *)
Theorem C9_second_click_gives_the_same_result (u : UI) (w : World) :
  raw_df u < length (heap w) ->
  let once := snd (_on_process_button_clicked (u, w)) in
  let twice := snd (_on_process_button_clicked once) in
  table (procU (started u w)) = read (heap w) (raw_df u)
  /\ log_messages (processor (fst (started u w)))
     = [LogCreated (shape (read (heap w) (raw_df u)))]
  /\ table (procU (started (fst once) (snd once))) = read (heap w) (raw_df u)
  /\ log_messages (processor (fst (started (fst once) (snd once))))
     = [LogCreated (shape (read (heap w) (raw_df u)))]
  /\ exists r1 r2,
      processed_df (fst once) = Some r1
      /\ processed_df (fst twice) = Some r2
      /\ read (heap (snd twice)) r2 = read (heap (snd once)) r1.
Proof.
  intros Hraw once twice.
  destruct (clicked_steady u w) as (Sr & Sw & Sh). fold once in Sr, Sw, Sh.
  assert (Eraw : read (heap (snd once)) (raw_df (fst once)) = read (heap w) (raw_df u)).
  { unfold read. rewrite Sr, Sh by exact Hraw. reflexivity. }
  destruct (started_state u w) as (_ & _ & St & _).
  destruct (started_state (fst once) (snd once)) as (_ & _ & St1 & _).
  split; [exact St|].
  split; [cbn; rewrite read_alloc; reflexivity|].
  split; [rewrite St1; exact Eraw|].
  split; [cbn; rewrite read_alloc; rewrite Eraw; reflexivity|].
  destruct (clicked_processed u w) as [P1 C1]. fold once in P1, C1.
  pose proof (clicked_processed (fst once) (snd once)) as H2. cbn zeta in H2.
  replace (fst once, snd once) with once in H2 by (destruct once; reflexivity).
  fold twice in H2. destruct H2 as [P2 C2].
  eexists _, _. split; [exact P1|]. split; [exact P2|].
  rewrite C1, C2, Sw.
  apply (cleaned_respects (widgets u)).
  apply started_alike. exact Eraw.
Qed.

End Properties.

(** * Further properties of the three classes *)

Section Further.
Context {L : Library}.



(** Runs the primitives of a computation applied to a state. *)
Ltac run_state :=
  unfold logged, replace_df, assign_df, alloc, enter, modify, self_df, gets,
    try_except, bind, lift, _log, print, raise, ret, table, unchanged in *;
  cbn [fst snd set_world set_self with_calls with_heap with_stdout
       heap df log_messages stdout calls] in *.

(** A leaf of a computation that leaves a component of the state alone. *)
Ltac untouched_leaf :=
  solve [ intros ?; reflexivity
        | intros ?; unfold write_to, write_metadata, os_makedirs;
          repeat (match goal with
                  | |- context [match ?x with _ => _ end] => destruct x
                  end);
          reflexivity ].

Ltac keeps_untouched := repeat (first [untouched_leaf | keeps_step]).

(** ** Validation in the other operations *)

(** X1.  [set_datetime_index] on a column the table lacks raises
    [KeyError] before it converts or re-indexes anything: the heap and
    [self.df] are as before, and the error is logged and printed. *)
Theorem X1_set_datetime_index_rejects_absent_column
    (time_col errors : string) (infer : bool) (s : PState) :
  Py.str_in time_col (columns (table s)) = false ->
  set_datetime_index time_col errors infer s
  = (Raise (KeyError (TColumnNotFound time_col)),
     rejected (CallSetDatetimeIndex time_col errors infer)
       (LogDatetimeError (KeyError (TColumnNotFound time_col))) s)
  /\ heap (snd (snd (set_datetime_index time_col errors infer s))) = heap (snd s)
  /\ df (fst (snd (set_datetime_index time_col errors infer s))) = df (fst s).
Proof.
  intros H.
  assert (E : set_datetime_index time_col errors infer s
              = (Raise (KeyError (TColumnNotFound time_col)),
                 rejected (CallSetDatetimeIndex time_col errors infer)
                   (LogDatetimeError (KeyError (TColumnNotFound time_col))) s)).
  { unfold set_datetime_index. run_state. rewrite H. reflexivity. }
  rewrite E. repeat split.
Qed.

(** X2.  [remove_duplicate_rows] with a subset that names a column the
    table lacks raises [ValueError] for the first such column, before
    [drop_duplicates] is called: the table is as before. *)
Theorem X2_remove_duplicate_rows_rejects_absent_column
    (cols : list string) (keep : Keep) (c : string) (s : PState) :
  first_absent cols (table s) = Some c ->
  remove_duplicate_rows (Some cols) keep s
  = (Raise (ValueError (TColumnNotFound c)),
     rejected (CallRemoveDuplicates (Some cols) keep)
       (LogDuplicatesError (ValueError (TColumnNotFound c))) s)
  /\ heap (snd (snd (remove_duplicate_rows (Some cols) keep s))) = heap (snd s)
  /\ df (fst (snd (remove_duplicate_rows (Some cols) keep s))) = df (fst s).
Proof.
  intros H.
  assert (E : remove_duplicate_rows (Some cols) keep s
              = (Raise (ValueError (TColumnNotFound c)),
                 rejected (CallRemoveDuplicates (Some cols) keep)
                   (LogDuplicatesError (ValueError (TColumnNotFound c))) s)).
  { unfold remove_duplicate_rows, logged. unfold bind at 1. unfold enter, modify.
    cbn [fst snd]. unfold try_except.
    rewrite (first_absent_given _ _ _ H). unfold bind at 1.
    rewrite (check_columns_absent cols _ c) by exact H. reflexivity. }
  rewrite E. repeat split.
Qed.

(** X3.  [convert_data_types] with [errors='raise'] and a mapping that
    names columns the table lacks raises [KeyError] with all of them,
    before any column is converted: the table is as before. *)
Theorem X3_convert_data_types_rejects_absent_columns
    (column_types : list (string * string)) (s : PState) :
  missing_from (table s) (map fst column_types) <> [] ->
  convert_data_types column_types "raise" s
  = (Raise (KeyError (TColumnsNotFound (missing_from (table s) (map fst column_types)))),
     rejected (CallConvertTypes column_types "raise")
       (LogConvertError
          (KeyError (TColumnsNotFound (missing_from (table s) (map fst column_types)))))
       s)
  /\ heap (snd (snd (convert_data_types column_types "raise" s))) = heap (snd s)
  /\ df (fst (snd (convert_data_types column_types "raise" s))) = df (fst s).
Proof.
  intros H.
  assert (E : convert_data_types column_types "raise" s
              = (Raise (KeyError (TColumnsNotFound
                                    (missing_from (table s) (map fst column_types)))),
                 rejected (CallConvertTypes column_types "raise")
                   (LogConvertError
                      (KeyError (TColumnsNotFound
                                   (missing_from (table s) (map fst column_types)))))
                   s)).
  { unfold convert_data_types. run_state.
    destruct (missing_from _ (map fst column_types)); [congruence|]. reflexivity. }
  rewrite E. repeat split.
Qed.

(** X4.  [handle_missing_values] with the strategy fill_constant and no
    fill value raises [ValueError], whatever the table: nothing is filled
    and the table is as before. *)
Theorem X4_fill_constant_needs_a_value
    (subset_cols : option (list string)) (method : string) (s : PState) :
  given subset_cols = None ->
  handle_missing_values "fill_constant" subset_cols None method s
  = (Raise (ValueError TFillValueRequired),
     rejected (CallHandleMissing "fill_constant" subset_cols None method)
       (LogMissingError (ValueError TFillValueRequired)) s)
  /\ heap (snd (snd (handle_missing_values "fill_constant" subset_cols None method s)))
     = heap (snd s)
  /\ df (fst (snd (handle_missing_values "fill_constant" subset_cols None method s)))
     = df (fst s).
Proof.
  intros H.
  assert (E : handle_missing_values "fill_constant" subset_cols None method s
              = (Raise (ValueError TFillValueRequired),
                 rejected (CallHandleMissing "fill_constant" subset_cols None method)
                   (LogMissingError (ValueError TFillValueRequired)) s)).
  { unfold handle_missing_values. rewrite H. unfold apply_strategy.
    cbn [String.eqb Ascii.eqb Bool.eqb]. run_state. reflexivity. }
  rewrite E. repeat split.
Qed.


(** ** What the processor prints, and what it leaves alone *)

(** [echoes s s']: between [s] and [s'] the log grew by some messages and
    the output by the same messages, in the same order. *)
Definition echoes : relation PState :=
  fun s s' =>
    exists l, log_messages (fst s') = log_messages (fst s) ++ l
              /\ stdout (snd s') = stdout (snd s) ++ map LineLog l.

#[local] Instance echoes_preorder : PreOrder echoes.
Proof.
  split.
  - intros s. exists []. cbn. rewrite !app_nil_r. split; reflexivity.
  - intros a b c (l1 & L1 & O1) (l2 & L2 & O2). exists (l1 ++ l2).
    rewrite L2, L1, O2, O1, map_app, <- !app_assoc. split; reflexivity.
Qed.

Lemma keeps_echoes_log (m : LogMsg) : keeps echoes (_log m).
Proof. intros s. exists [m]. split; reflexivity. Qed.

Ltac echoes_leaf :=
  solve [ apply keeps_echoes_log
        | intros ?; exists []; cbn; rewrite !app_nil_r; split; reflexivity ].

Ltac keeps_echoes := repeat (first [echoes_leaf | keeps_step]).

Lemma apply_strategy_echoes strategy subset fill_value method :
  keeps echoes (apply_strategy strategy subset fill_value method).
Proof. unfold apply_strategy. keeps_echoes. Qed.

Lemma perform_echoes (o : Operation) : keeps echoes (perform o).
Proof.
  pose proof apply_strategy_echoes.
  destruct o; cbn [perform];
    unfold set_datetime_index, handle_missing_values, count_missing_after,
      convert_data_types, remove_duplicate_rows, rename_columns, select_columns,
      apply_custom_function, get_processed_df, get_log_messages;
    keeps_echoes; auto.
Qed.



(** What lies outside the processor: the file system, the drive and the
    clock. *)
Definition surroundings (w : World)
  : list string * list (string * (Format * DataFrame)) * list string * Clock :=
  (paths w, files w, metadata_files w, now w).

Lemma apply_strategy_surroundings strategy subset fill_value method :
  keeps (same (fun s : PState => surroundings (snd s)))
    (apply_strategy strategy subset fill_value method).
Proof. unfold apply_strategy. keeps_untouched. Qed.

Lemma perform_surroundings (o : Operation) :
  keeps (same (fun s : PState => surroundings (snd s))) (perform o).
Proof.
  pose proof apply_strategy_surroundings.
  destruct o; cbn [perform];
    unfold set_datetime_index, handle_missing_values, count_missing_after,
      convert_data_types, remove_duplicate_rows, rename_columns, select_columns,
      apply_custom_function, get_processed_df, get_log_messages;
    keeps_untouched; auto.
Qed.


(** ** The copy [get_processed_df] returns *)

(** [spares r]: the object at [r] is not the table of the processor, and
    stays as it is. *)
Definition spares (r : loc) : relation PState :=
  fun s s' =>
    df (fst s) <> r /\ r < length (heap (snd s)) ->
    (df (fst s') <> r /\ r < length (heap (snd s')))
    /\ heap (snd s') !! r = heap (snd s) !! r.

#[local] Instance spares_preorder r : PreOrder (spares r).
Proof.
  split.
  - intros s H. split; [exact H | reflexivity].
  - intros a b c H1 H2 Ha. destruct (H1 Ha) as [Hb E1]. destruct (H2 Hb) as [Hc E2].
    split; [exact Hc|]. rewrite E2, E1. reflexivity.
Qed.









(** ** Updates in place *)

(** X8.  [set_datetime_index] on a column the table has, when the library
    calls return, works in place: [self.df] is the same object as before,
    now holding the frame re-indexed on the converted column, so the
    change is seen through every reference to that object.  The log
    receives the message of the operation, and a warning exactly when the
    number of rows changed. *)
Theorem X8_set_datetime_index_updates_in_place
    (time_col errors : string) (infer : bool) (s : PState)
    (c c' : Series) (d1 d2 : DataFrame) :
  df (fst s) < length (heap (snd s)) ->
  Py.str_in time_col (columns (table s)) = true ->
  getitem (table s) time_col = Ok c ->
  to_datetime c errors (Some infer) = Ok c' ->
  setitem (table s) time_col c' = Ok d1 ->
  set_index d1 time_col = Ok d2 ->
  let s' := snd (set_datetime_index time_col errors infer s) in
  fst (set_datetime_index time_col errors infer s) = Ok tt
  /\ df (fst s') = df (fst s)
  /\ heap (snd s') = <[df (fst s) := d2]> (heap (snd s))
  /\ table s' = d2
  /\ log_messages (fst s')
     = log_messages (fst s) ++ LogDatetimeSet time_col ::
         (if (fst (shape (table s)) =? fst (shape d2))%nat then []
          else [LogShapeChanged (shape (table s)) (shape d2)]).
Proof.
  intros Hdf Hin Hc Hc' Hd1 Hd2 s'.
  assert (E : set_datetime_index time_col errors infer s
              = (Ok tt,
                 ({| df := df (fst s);
                     log_messages :=
                       log_messages (fst s) ++ LogDatetimeSet time_col ::
                         (if (fst (shape (table s)) =? fst (shape d2))%nat then []
                          else [LogShapeChanged (shape (table s)) (shape d2)]) |},
                  with_stdout
                    (stdout (snd s) ++ LineLog (LogDatetimeSet time_col) ::
                       (if (fst (shape (table s)) =? fst (shape d2))%nat then []
                        else [LineLog (LogShapeChanged (shape (table s)) (shape d2))]))
                    (with_heap (<[df (fst s) := d2]> (heap (snd s)))
                       (with_calls
                          (calls (snd s)
                           ++ [CallSetDatetimeIndex time_col errors infer]) (snd s)))))).
  { unfold set_datetime_index. unfold update_df. run_state. run_state.
    rewrite Hin. cbn [negb]. rewrite Hc, Hc', Hd1. cbn [fst snd]. rewrite Hd2.
    cbn [fst snd set_world set_self with_calls with_heap with_stdout
         heap df log_messages stdout calls].
    rewrite list_insert_insert_eq.
    destruct (fst (shape (read (heap (snd s)) (df (fst s)))) =? fst (shape d2))%nat;
      cbn [negb fst snd set_world set_self with_calls with_heap with_stdout
           heap df log_messages stdout calls];
      rewrite <- ?app_assoc; reflexivity. }
  subst s'. rewrite E. cbn [fst snd df heap log_messages with_stdout with_heap].
  repeat split.
  unfold table, read. cbn [fst snd df heap with_stdout with_heap].
  rewrite list_lookup_insert_eq by exact Hdf. reflexivity.
Qed.

(** What makes [apply_custom_function] fail: the function raises, or
    returns something that is no DataFrame. *)
Definition custom_failure (r : Res UserValue) : option Exn :=
  match r with
  | Raise e => Some e
  | Ok (RetOther t) => Some (ValueError (TNotDataFrame t))
  | Ok _ => None
  end.

(** X9.  [apply_custom_function] does not undo what a failing function
    did: when the function raises, or returns something that is no
    DataFrame, the operation raises and logs the error, [self.df] is the
    object it was, and that object holds what the function left in it. *)
Theorem X9_failed_custom_function_is_not_rolled_back
    (func : UserFunc) (s : PState) (e : Exn) :
  df (fst s) < length (heap (snd s)) ->
  custom_failure (snd (func (table s))) = Some e ->
  let s' := snd (apply_custom_function func s) in
  fst (apply_custom_function func s) = Raise e
  /\ df (fst s') = df (fst s)
  /\ table s' = fst (func (table s))
  /\ log_messages (fst s') = log_messages (fst s) ++ [LogCustomError e].
Proof.
  intros Hdf Hf s'.
  assert (E : apply_custom_function func s
              = (Raise e,
                 ({| df := df (fst s);
                     log_messages := log_messages (fst s) ++ [LogCustomError e] |},
                  with_stdout (stdout (snd s) ++ [LineLog (LogCustomError e)])
                    (with_heap (<[df (fst s) := fst (func (table s))]> (heap (snd s)))
                       (with_calls (calls (snd s) ++ [CallApplyCustom]) (snd s)))))).
  { unfold apply_custom_function. unfold update_df. run_state. run_state.
    destruct (snd (func (read (heap (snd s)) (df (fst s))))) as [[| |t]|e'];
      cbn in Hf; inversion Hf; subst; reflexivity. }
  subst s'. rewrite E. cbn [fst snd df heap log_messages with_stdout with_heap].
  repeat split.
  unfold table at 1, read. cbn [fst snd df heap with_stdout with_heap].
  rewrite list_lookup_insert_eq by exact Hdf. reflexivity.
Qed.

(** ** Type conversion that goes on after an error *)

(** X10.  With [errors='ignore'], [convert_data_types] on a mapping whose
    columns are all absent from the table returns normally: the table is
    as before and the log receives one skip message for each column, in
    the order of the mapping. *)
Theorem X10_convert_data_types_skips_absent_columns
    (column_types : list (string * string)) (s : PState) :
  forallb (fun c => negb (Py.str_in c (columns (table s)))) (map fst column_types) = true ->
  let s' := snd (convert_data_types column_types "ignore" s) in
  fst (convert_data_types column_types "ignore" s) = Ok tt
  /\ heap (snd s') = heap (snd s)
  /\ df (fst s') = df (fst s)
  /\ log_messages (fst s')
     = log_messages (fst s) ++ map (fun item => LogColumnSkipped (fst item)) column_types.
Proof.
  intros H s'.
  assert (Loop : forall l s0,
             forallb (fun c => negb (Py.str_in c (columns (table s0)))) (map fst l) = true ->
             for_each l (convert_one "ignore") s0
             = (Ok tt,
                ({| df := df (fst s0);
                    log_messages :=
                      log_messages (fst s0)
                      ++ map (fun item => LogColumnSkipped (fst item)) l |},
                 with_stdout
                   (stdout (snd s0)
                    ++ map (fun item => LineLog (LogColumnSkipped (fst item))) l)
                   (snd s0)))).
  { induction l as [|[col target] l IH]; intros s0 H0.
    - cbn. rewrite !app_nil_r. destruct s0 as [[? ?] []]. reflexivity.
    - cbn [map fst forallb] in H0. apply andb_prop in H0. destruct H0 as [Hc Hl].
      cbn [for_each]. unfold bind at 1. unfold convert_one at 1.
      unfold bind at 1. unfold self_df at 1, gets. cbn [fst snd]. fold (table s0).
      rewrite Hc. cbn [andb String.eqb Ascii.eqb Bool.eqb].
      unfold _log, print, modify, bind. cbn [fst snd].
      rewrite IH by exact Hl.
      cbn [fst snd set_world set_self with_stdout heap df log_messages stdout map].
      rewrite <- !app_assoc. reflexivity. }
  assert (E : convert_data_types column_types "ignore" s
              = (Ok tt,
                 ({| df := df (fst s);
                     log_messages :=
                       log_messages (fst s)
                       ++ map (fun item => LogColumnSkipped (fst item)) column_types |},
                  with_stdout
                    (stdout (snd s)
                     ++ map (fun item => LineLog (LogColumnSkipped (fst item))) column_types)
                    (with_calls (calls (snd s) ++ [CallConvertTypes column_types "ignore"])
                       (snd s))))).
  { unfold convert_data_types, logged. unfold bind at 1. unfold enter, modify.
    cbn [fst snd]. unfold try_except. unfold bind at 1. unfold self_df at 1, gets.
    cbn [fst snd]. rewrite andb_false_r.
    rewrite Loop by exact H. reflexivity. }
  subst s'. rewrite E. repeat split.
Qed.




(** ** The drive handler *)

Lemma str_in_app x l1 l2 : Py.str_in x (l1 ++ l2) = Py.str_in x l1 || Py.str_in x l2.
Proof. unfold Py.str_in. apply existsb_app. Qed.

Lemma str_in_last x l : Py.str_in x (l ++ [x]) = true.
Proof.
  rewrite str_in_app. unfold Py.str_in at 2. cbn [existsb].
  rewrite String.eqb_refl. rewrite orb_true_r. reflexivity.
Qed.

Lemma str_in_grows x l1 l2 : Py.str_in x l1 = true -> Py.str_in x (l1 ++ l2) = true.
Proof. intros H. rewrite str_in_app, H. reflexivity. Qed.

(** The check of the base directory, the second half of
    [_ensure_drive_mounted]. *)
Definition ensure_base (base_save_path : string) : D bool :=
  base_exists <- gets (fun w => os_path_exists w base_save_path) ;;
  if negb base_exists then
    try_except
      (os_makedirs base_save_path ;;
       say (DriveDirCreated base_save_path) ;;
       ret true)
      (fun e => say (DriveDirFailed base_save_path e) ;; ret false)
  else ret true.

Lemma _ensure_drive_mounted_unfold base w :
  _ensure_drive_mounted base w
  = if Py.contains "/content/drive" base && negb (os_path_exists w "/content/drive")
    then match mount_drive w with
         | (Ok true, w1) => ensure_base base w1
         | (Ok false, w1) => (Ok false, w1)
         | (Raise e, w1) => (say (DriveCheckError e) ;; ret false) w1
         end
    else ensure_base base w.
Proof.
  unfold _ensure_drive_mounted, ensure_base, try_except.
  unfold bind at 1. unfold gets at 1. cbn [fst snd].
  destruct (Py.contains "/content/drive" base && negb (os_path_exists w "/content/drive")).
  - unfold bind at 1.
    destruct (mount_drive w) as [[[|]|e] w1]; cbn [negb]; [| reflexivity | reflexivity].
    unfold bind, gets, os_makedirs, say, print, modify, ret. cbn [fst snd id].
    destruct (negb (os_path_exists w1 base)); [|reflexivity].
    destruct (makedirs_error w1); reflexivity.
  - unfold bind at 1. unfold ret at 1. cbn [negb].
    unfold bind, gets, os_makedirs, say, print, modify, ret. cbn [fst snd id].
    destruct (negb (os_path_exists w base)); [|reflexivity].
    destruct (makedirs_error w); reflexivity.
Qed.

(** [ensure_base] returns a boolean; [true] only when the directory
    exists afterwards; it changes the world only when the directory is
    missing. *)
Lemma ensure_base_spec base w :
  (os_path_exists w base = true /\ ensure_base base w = (Ok true, w))
  \/ (os_path_exists w base = false /\ makedirs_error w = None
      /\ ensure_base base w
         = (Ok true,
            with_stdout (stdout w ++ [LineUi (DriveDirCreated base)])
              (with_paths (paths w ++ [base]) w)))
  \/ (exists e,
        os_path_exists w base = false /\ makedirs_error w = Some e
        /\ ensure_base base w
           = (Ok false, with_stdout (stdout w ++ [LineUi (DriveDirFailed base e)]) w)).
Proof.
  unfold ensure_base, bind, gets, try_except, os_makedirs, say, print, modify, ret.
  cbn [fst snd id].
  destruct (os_path_exists w base) eqn:E; cbn [negb]; [left; auto|].
  destruct (makedirs_error w) as [e|] eqn:M.
  - right. right. exists e. auto.
  - right. left. auto.
Qed.

Lemma mount_drive_spec w :
  (colab w = ColabAbsent
   /\ mount_drive w = (Ok false, with_stdout (stdout w ++ [LineUi DriveNoColab]) w))
  \/ (exists e,
        colab w = ColabMountFails e
        /\ mount_drive w
           = (Ok false,
              with_stdout (stdout w ++ [LineUi DriveMounting; LineUi (DriveMountError e)])
                w))
  \/ (exists appear,
        colab w = ColabMounts appear
        /\ mount_drive w
           = (Ok true,
              with_stdout (stdout w ++ [LineUi DriveMounting; LineUi DriveMounted])
                (with_paths (paths w ++ "/content/drive" :: appear) w))).
Proof.
  unfold mount_drive, bind, gets, say, print, modify, ret. cbn [fst snd id].
  destruct (colab w) as [|e|appear] eqn:E.
  - left. auto.
  - right. left. exists e. split; [reflexivity|].
    cbn [stdout with_stdout]. rewrite <- app_assoc. reflexivity.
  - right. right. exists appear. split; [reflexivity|].
    cbn [stdout with_stdout with_paths paths]. rewrite <- app_assoc. reflexivity.
Qed.

Lemma ensure_base_answers base w0 :
  (exists b, fst (ensure_base base w0) = Ok b
             /\ (b = true -> os_path_exists (snd (ensure_base base w0)) base = true)
             /\ (b = false ->
                 exists m, stdout (snd (ensure_base base w0)) = stdout w0 ++ [LineUi m]))
  /\ (forall p, os_path_exists w0 p = true ->
                os_path_exists (snd (ensure_base base w0)) p = true).
Proof.
  destruct (ensure_base_spec base w0) as [[E ->]|[(E & M & ->)|(e & E & M & ->)]];
    cbn [fst snd]; unfold os_path_exists in *; cbn [paths with_stdout with_paths stdout].
  - split; [exists true; repeat split; [auto | discriminate] | auto].
  - split; [exists true; repeat split; [intros _; apply str_in_last | discriminate]|].
    intros p Hp. apply str_in_grows, Hp.
  - split; [exists false; repeat split; [discriminate | eauto] | auto].
Qed.

(** X12.  [_ensure_drive_mounted] never raises: it returns a boolean.  It
    returns [True] only when the base directory exists afterwards; when it
    returns [False] it has printed why.  It removes no path. *)
Theorem X12_ensure_drive_mounted_answers_truthfully (base : string) (w : World) :
  let w' := snd (_ensure_drive_mounted base w) in
  (exists b, fst (_ensure_drive_mounted base w) = Ok b
             /\ (b = true -> os_path_exists w' base = true)
             /\ (b = false -> exists l m, stdout w' = stdout w ++ l ++ [LineUi m]))
  /\ (forall p, os_path_exists w p = true -> os_path_exists w' p = true).
Proof.
  intros w'. subst w'. rewrite _ensure_drive_mounted_unfold.
  destruct (Py.contains "/content/drive" base && negb (os_path_exists w "/content/drive")).
  - destruct (mount_drive_spec w) as [[C ->]|[(e & C & ->)|(appear & C & ->)]].
    + cbn [fst snd stdout with_stdout]. split; [|auto].
      exists false. repeat split; [discriminate|]. intros _. exists [], DriveNoColab.
      reflexivity.
    + cbn [fst snd stdout with_stdout]. split; [|auto].
      exists false. repeat split; [discriminate|]. intros _.
      exists [LineUi DriveMounting], (DriveMountError e). reflexivity.
    + match goal with |- context [ensure_base base ?w1] =>
        destruct (ensure_base_answers base w1) as [(b & Hb & Ht & Hf) Hp] end.
      split.
      * exists b. repeat split; [exact Hb | exact Ht|].
        intros Eb. destruct (Hf Eb) as [m Hm]. rewrite Hm.
        cbn [stdout with_stdout]. exists [LineUi DriveMounting; LineUi DriveMounted], m.
        rewrite <- !app_assoc. reflexivity.
      * intros p H. apply Hp. unfold os_path_exists. cbn [paths with_stdout with_paths].
        apply str_in_grows, H.
  - destruct (ensure_base_answers base w) as [(b & Hb & Ht & Hf) Hp]. split; [|exact Hp].
    exists b. repeat split; [exact Hb | exact Ht|].
    intros Eb. destruct (Hf Eb) as [m Hm]. exists [], m. exact Hm.
Qed.

Lemma ensure_base_settled base w w1 :
  ensure_base base w = (Ok true, w1) ->
  ensure_base base w1 = (Ok true, w1)
  /\ forall p, os_path_exists w p = true -> os_path_exists w1 p = true.
Proof.
  intros H.
  destruct (ensure_base_answers base w) as [(b & Hb & Ht & _) Hp].
  rewrite H in Hb, Ht, Hp. cbn [fst snd] in *. inversion Hb; subst b.
  split; [|exact Hp].
  destruct (ensure_base_spec base w1) as [[E ->]|[(E & _)|(e & E & _)]];
    [reflexivity | |]; rewrite Ht in E by reflexivity; discriminate.
Qed.

(** X13.  Once [_ensure_drive_mounted] has returned [True], asking again
    changes nothing: the second call returns [True], mounts nothing,
    creates nothing and prints nothing. *)
Theorem X13_ensure_drive_mounted_is_idempotent (base : string) (w w1 : World) :
  _ensure_drive_mounted base w = (Ok true, w1) ->
  _ensure_drive_mounted base w1 = (Ok true, w1).
Proof.
  rewrite !_ensure_drive_mounted_unfold.
  destruct (Py.contains "/content/drive" base) eqn:C; cbn [andb].
  - destruct (os_path_exists w "/content/drive") eqn:E; cbn [negb].
    + intros H. destruct (ensure_base_settled base w w1 H) as [H1 Hp].
      rewrite (Hp _ E). exact H1.
    + destruct (mount_drive_spec w) as [[_ ->]|[(e & _ & ->)|(appear & _ & ->)]];
        try discriminate.
      intros H. destruct (ensure_base_settled base _ w1 H) as [H1 Hp].
      rewrite Hp; [exact H1|].
      unfold os_path_exists. cbn [paths with_stdout with_paths].
      rewrite str_in_app. unfold Py.str_in at 2. cbn [existsb].
      rewrite String.eqb_refl. rewrite orb_true_r. reflexivity.
  - intros H. apply (ensure_base_settled base w w1 H).
Qed.

(** X14.  The constructor of the handler never raises and keeps the path
    it is given.  When it returns, the directory exists, or the attempt
    to create it failed and a warning was printed; a directory that
    exists already is left alone and nothing is printed. *)
Theorem X14_handler_constructor_never_fails (base : string) (w : World) :
  let w' := snd (drive_init base w) in
  fst (drive_init base w) = Ok base
  /\ (os_path_exists w base = true -> w' = w)
  /\ (os_path_exists w' base = true
      \/ exists e, makedirs_error w = Some e
                   /\ w' = with_stdout (stdout w ++ [LineUi (DriveDirWarning base e)]) w).
Proof.
  unfold drive_init, bind, try_except, gets, os_makedirs, say, print, modify, ret.
  cbn [fst snd id].
  destruct (os_path_exists w base) eqn:E; cbn [negb fst snd].
  - repeat split; auto.
  - destruct (makedirs_error w) as [e|] eqn:M; cbn [fst snd].
    + repeat split; [discriminate|]. right. exists e. auto.
    + repeat split; [discriminate|]. left.
      unfold os_path_exists. cbn [paths with_stdout with_paths]. apply str_in_last.
Qed.

(** The world after the handler prints a line. *)
Definition said (m : UiMsg) (w : World) : World :=
  with_stdout (stdout w ++ [LineUi m]) w.

(** [save_dataframe] from the world [w1] in which the drive is mounted:
    what it returns and the world it leaves. *)
Definition saved_from (base_save_path : string) (df_loc : loc)
    (filename_prefix file_format : string) (include_timestamp custom_metadata : bool)
    (w1 : World) : Res string * World :=
  let timestamp := if include_timestamp then strftime (now w1) else "" in
  let path := os_path_join base_save_path (file_name filename_prefix timestamp file_format) in
  let metadata_path :=
    os_path_join base_save_path (metadata_name filename_prefix timestamp) in
  match frame_to_write file_format (read (heap w1) df_loc) with
  | Raise e => (Ok "", said (DriveSaveError e) w1)
  | Ok (f, d') =>
      match write_frame f d' path with
      | Some e => (Ok "", said (DriveSaveError e) w1)
      | None =>
          let w2 := said (DriveFileSaved path)
                      (with_files (files w1 ++ [(path, (f, d'))]) w1) in
          if custom_metadata then
            match open_error w1 with
            | Some e => (Ok "", said (DriveSaveError e) w2)
            | None =>
                (Ok path,
                 said (DriveMetadataSaved metadata_path)
                   (with_metadata_files (metadata_files w1 ++ [metadata_path]) w2))
            end
          else (Ok path, w2)
      end
  end.

Lemma save_dataframe_run base r filename_prefix file_format include_timestamp meta w :
  let w0 :=
    with_calls (calls w ++ [CallSaveDataframe filename_prefix file_format
                              include_timestamp]) w in
  save_dataframe base r filename_prefix file_format include_timestamp meta w
  = match _ensure_drive_mounted base w0 with
    | (Ok true, w1) =>
        saved_from base r filename_prefix file_format include_timestamp meta w1
    | (Ok false, w1) => (Ok "", said DriveUnavailable w1)
    | (Raise e, w1) => (Ok "", said (DriveSaveError e) w1)
    end.
Proof.
  intros w0.
  unfold save_dataframe. unfold bind at 1. unfold enter at 1, modify at 1.
  cbn [fst snd id]. fold w0.
  unfold try_except. unfold bind at 1.
  destruct (_ensure_drive_mounted base w0) as [[[|]|e] w1]; cbn [negb];
    [ | reflexivity | reflexivity ].
  unfold saved_from, frame_to_write, said.
  unfold Py.str_in, valid_formats. cbn [existsb].
  unfold bind, gets, lift, say, print, modify, write_to, write_metadata, ret, raise.
  destruct (file_format =? "parquet")%string;
    [|destruct (file_format =? "csv")%string;
      [|destruct (file_format =? "feather")%string;
        [|destruct (file_format =? "pickle")%string]]];
    cbn [orb negb fst snd id]; cbv beta iota;
    try (destruct (reset_index _) as [d'|e]; cbv beta iota);
    try match goal with
        | |- context [write_frame ?f ?d ?p] => destruct (write_frame f d p)
        end;
    cbn [fst snd files with_stdout with_files];
    try (destruct meta; [cbn [open_error with_stdout with_files];
                         destruct (open_error w1)|]);
    reflexivity.
Qed.

(** Mounting touches neither the clock, nor the heap, nor the files, nor
    the way the metadata file opens. *)
Lemma _ensure_drive_mounted_leaves base :
  keeps (same (fun w : World =>
                 (now w, heap w, files w, metadata_files w, open_error w)))
    (_ensure_drive_mounted base).
Proof. unfold _ensure_drive_mounted, mount_drive. keeps_untouched. Qed.


(** X16.  The empty string does not tell that nothing was written: when
    metadata are given and the metadata file cannot be opened,
    [save_dataframe] has written the table file and printed its path,
    and then returns the empty string, with the error printed last. *)
Theorem X16_metadata_failure_leaves_the_table_file
    (base : string) (r : loc) (filename_prefix file_format : string)
    (include_timestamp : bool) (w : World) (f : Format) (d' : DataFrame) (e : Exn) :
  let R := save_dataframe base r filename_prefix file_format include_timestamp true w in
  let path := export_path base filename_prefix file_format include_timestamp w in
  let w0 :=
    with_calls (calls w ++ [CallSaveDataframe filename_prefix file_format
                              include_timestamp]) w in
  fst (_ensure_drive_mounted base w0) = Ok true ->
  frame_to_write file_format (read (heap w) r) = Ok (f, d') ->
  write_frame f d' path = None ->
  open_error w = Some e ->
  fst R = Ok ""
  /\ files (snd R) = files w ++ [(path, (f, d'))]
  /\ metadata_files (snd R) = metadata_files w
  /\ stdout (snd R)
     = stdout (snd (_ensure_drive_mounted base w0))
       ++ [LineUi (DriveFileSaved path); LineUi (DriveSaveError e)].
Proof.
  intros R path w0 Hm Hf Hw Ho.
  subst R. rewrite save_dataframe_run. cbv zeta. fold w0.
  pose proof (_ensure_drive_mounted_leaves base w0) as Hl. unfold same in Hl.
  destruct (_ensure_drive_mounted base w0) as [[[|]|e0] w1]; cbn [fst snd] in *;
    try discriminate.
  injection Hl as Hnow Hheap Hfiles Hmeta Hopen.
  subst w0. cbn [now heap files metadata_files open_error with_calls] in *.
  unfold saved_from, said. rewrite Hnow, Hheap, Hf.
  subst path. unfold export_path in Hw. rewrite Hw. cbv zeta.
  rewrite Hopen, Ho.
  cbn [fst snd files metadata_files stdout with_stdout with_files].
  rewrite Hfiles, Hmeta, <- app_assoc. repeat split.
Qed.

(** ** The form after a click *)

#[local] Existing Instance guards_preorder.
#[local] Existing Instance steady_preorder.

Ltac form_leaf :=
  solve [ apply keeps_steady_on_drive; apply save_dataframe_heap
        | intros ?; repeat split; try reflexivity; cbn; intros; tauto ].

Lemma step_datetime_steady n v : keeps (steady n) (step_datetime v).
Proof.
  unfold step_datetime.
  repeat (first [form_leaf | apply keeps_steady_on_processor | keeps_step]);
    auto;
    apply (perform_guards n (OpSetDatetimeIndex _ _ _)).
Qed.

Lemma step_missing_steady n v : keeps (steady n) (step_missing v).
Proof.
  unfold step_missing.
  repeat (first [form_leaf | apply keeps_steady_on_processor | keeps_step]);
    auto;
    apply (perform_guards n (OpHandleMissing _ _ _ _)).
Qed.

Lemma step_convert_steady n v : keeps (steady n) (step_convert v).
Proof.
  unfold step_convert.
  repeat (first [form_leaf | apply keeps_steady_on_processor | keeps_step]);
    auto;
    apply (perform_guards n (OpConvertTypes _ _)).
Qed.

Lemma step_duplicates_steady n v : keeps (steady n) (step_duplicates v).
Proof.
  unfold step_duplicates.
  repeat (first [form_leaf | apply keeps_steady_on_processor | keeps_step]);
    auto;
    apply (perform_guards n (OpRemoveDuplicates _ _)).
Qed.

Lemma step_rename_steady n v : keeps (steady n) (step_rename v).
Proof.
  unfold step_rename.
  repeat (first [form_leaf | apply keeps_steady_on_processor | keeps_step]);
    auto;
    apply (perform_guards n (OpRenameColumns _)).
Qed.

Lemma step_select_steady n v : keeps (steady n) (step_select v).
Proof.
  unfold step_select.
  repeat (first [form_leaf | apply keeps_steady_on_processor | keeps_step]);
    auto;
    apply (perform_guards n (OpSelectColumns _)).
Qed.

Lemma cleaned_steady n v s : steady n s (cleaned v s).
Proof.
  unfold cleaned.
  etransitivity; [apply (step_datetime_steady n v)|].
  etransitivity; [apply (step_missing_steady n v)|].
  etransitivity; [apply (step_convert_steady n v)|].
  etransitivity; [apply (step_duplicates_steady n v)|].
  etransitivity; [apply (step_rename_steady n v)|].
  apply (step_select_steady n v).
Qed.

(** The table of the processor exists when the steps start and after the
    six cleaning steps. *)
Lemma cleaned_table_exists u w :
  let s6 := cleaned (widgets u) (started u w) in
  df (processor (fst s6)) < length (heap (snd s6)).
Proof.
  intros s6.
  destruct (started_state u w) as (Sh & Sd & _).
  destruct (cleaned_steady 0 (widgets u) (started u w)) as (_ & _ & Hg).
  fold s6 in Hg. unfold guards, procU in Hg. cbn [fst snd] in Hg.
  destruct Hg as [[_ Hg] _]; [|exact Hg].
  rewrite Sd, Sh, !length_app. cbn. lia.
Qed.

(** A field of the form that neither the processor nor the result is. *)
Definition own_field {X} (f : UI -> X) : Prop :=
  (forall p u, f (set_processor p u) = f u)
  /\ (forall r u, f (set_processed_df r u) = f u).

Lemma keeps_field_on_processor {A X} (f : UI -> X) (m : P A) :
  own_field f -> keeps (same (fun s : UI * World => f (fst s))) (on_processor m).
Proof.
  intros [Hp _] s. unfold same, on_processor.
  destruct (m (processor (fst s), snd s)) as [r [p w]]. cbn [fst snd]. apply Hp.
Qed.

Lemma keeps_field_on_drive {A X} (f : UI -> X) (m : D A) :
  keeps (same (fun s : UI * World => f (fst s))) (on_drive m).
Proof.
  intros s. unfold same, on_drive. destruct (m (snd s)) as [r w]. reflexivity.
Qed.

Lemma run_steps_field {X} (f : UI -> X) v :
  own_field f -> keeps (same (fun s : UI * World => f (fst s))) (run_steps v).
Proof.
  intros Hf.
  unfold run_steps, step_datetime, step_missing, step_convert, step_duplicates,
    step_rename, step_select, step_save.
  repeat (first [ apply keeps_field_on_processor; exact Hf
                | apply keeps_field_on_drive
                | solve [intros ?; reflexivity]
                | solve [intros ?; apply Hf]
                | keeps_step ]).
Qed.

(** The part of the form a user sets. *)
Definition settings (u : UI) : loc * Widgets * Layout * string :=
  (raw_df u, widgets u, layout u, drive_saver u).

Lemma settings_own : own_field settings.
Proof. split; reflexivity. Qed.

Lemma preview_own : own_field processed_df_preview_output.
Proof. split; reflexivity. Qed.

Lemma processor_df_own :
  keeps (same (fun s : UI * World => df (processor (fst s)))) (on_processor get_processed_df).
Proof. intros s. reflexivity. Qed.

Lemma finish_processor_df v s :
  df (processor (fst (snd (finish v s)))) = df (processor (fst s)).
Proof.
  assert (H : keeps (same (fun s : UI * World => df (processor (fst s)))) (finish v)).
  { unfold finish, step_save.
    repeat (first [ apply processor_df_own
                  | apply (keeps_field_on_drive (fun u => df (processor u)))
                  | solve [intros ?; reflexivity]
                  | keeps_step ]). }
  apply H.
Qed.

Lemma show_preview_some s r :
  processed_df (fst s) = Some r ->
  snd (show_preview s)
  = (set_preview (processed_df_preview_output (fst s)
                  ++ [PreviewTitle; PreviewInfo (read (heap (snd s)) r);
                      PreviewHead (read (heap (snd s)) r)]) (fst s), snd s).
Proof. intros H. unfold show_preview, modify. cbn [fst snd]. rewrite H. reflexivity. Qed.

(** A click, from the state after the six cleaning steps. *)
Lemma clicked_from_cleaned u w :
  snd (_on_process_button_clicked (u, w))
  = snd (show_preview
           (close_output w
              (snd (finish (widgets u) (cleaned (widgets u) (started u w)))))).
Proof. rewrite clicked_result. rewrite run_steps_threaded. reflexivity. Qed.

(** X17.  After a click the form has a result: [get_final_dataframe] gives
    a DataFrame object made by the click, which is not the table of the
    processor but holds what that table holds, and the preview shows that
    object; the message for a missing result is never shown. *)
Theorem X17_click_always_leaves_a_result (u : UI) (w : World) :
  let s' := snd (_on_process_button_clicked (u, w)) in
  exists r,
    get_final_dataframe (fst s') = Some r
    /\ length (heap w) < r < length (heap (snd s'))
    /\ r <> df (processor (fst s'))
    /\ read (heap (snd s')) r = table (procU s')
    /\ processed_df_preview_output (fst s')
       = [PreviewTitle; PreviewInfo (read (heap (snd s')) r);
          PreviewHead (read (heap (snd s')) r)].
Proof.
  intros s'.
  pose (s6 := cleaned (widgets u) (started u w)).
  pose proof (cleaned_table_exists u w) as Hdf. cbv zeta in Hdf. fold s6 in Hdf.
  destruct (finish_outcome (widgets u) s6) as [Fh Fp].
  pose proof (finish_processor_df (widgets u) s6) as Fd.
  destruct (started_state u w) as (Sh & Sd & _).
  assert (Hlen : length (heap w) < length (heap (snd s6))).
  { destruct (cleaned_steady (S (length (heap w))) (widgets u) (started u w))
      as (_ & _ & Hg).
    fold s6 in Hg. unfold guards, procU in Hg. cbn [fst snd] in Hg.
    destruct Hg as [[Hg _] _]; [rewrite Sd, Sh, !length_app; cbn; lia|].
    lia. }
  assert (P0 : processed_df_preview_output (fst (snd (finish (widgets u) s6))) = []).
  { pose proof (run_steps_field processed_df_preview_output (widgets u) preview_own
                  (started u w)) as H.
    unfold same in H.
    transitivity (processed_df_preview_output
                    (fst (snd (run_steps (widgets u) (started u w)))));
      [rewrite run_steps_threaded; reflexivity | rewrite H; reflexivity]. }
  subst s'. rewrite clicked_from_cleaned. fold s6.
  rewrite (show_preview_some _ (length (heap (snd s6))))
    by (unfold close_output; cbn [fst snd processed_df set_log_output]; exact Fp).
  unfold close_output.
  cbn [fst snd heap with_stdout processed_df set_log_output set_preview processor
       processed_df_preview_output get_final_dataframe].
  exists (length (heap (snd s6))).
  rewrite Fp, Fh, Fd, P0, length_app, read_alloc. cbn [length app].
  split; [reflexivity|]. split; [lia|]. split; [lia|].
  split; [|reflexivity].
  unfold table, procU. cbn [fst snd heap with_stdout processor set_preview
                            set_log_output df].
  rewrite Fh, Fd. unfold read. rewrite lookup_app_l by exact Hdf. reflexivity.
Qed.

(** X18.  A click changes nothing of the form but its outputs and its
    result: the raw table is the same object, the widget values, the
    layout and the drive handler are as before; every DataFrame object
    that existed before the click holds what it held; and nothing is
    printed outside the log widget. *)
Theorem X18_click_leaves_the_form_and_the_objects (u : UI) (w : World) :
  let s' := snd (_on_process_button_clicked (u, w)) in
  raw_df (fst s') = raw_df u
  /\ widgets (fst s') = widgets u
  /\ layout (fst s') = layout u
  /\ drive_saver (fst s') = drive_saver u
  /\ (forall x, x < length (heap w) -> heap (snd s') !! x = heap w !! x)
  /\ stdout (snd s') = stdout w.
Proof.
  intros s'.
  destruct (clicked_steady u w) as (_ & _ & Hh). fold s' in Hh.
  pose proof (run_steps_field settings (widgets u) settings_own (started u w)) as H.
  unfold same in H.
  assert (E : settings (fst s') = settings u).
  { subst s'. rewrite clicked_result. cbn [snd].
    destruct (processed_df
                (fst (close_output w (snd (run_steps (widgets u) (started u w))))))
      eqn:Ep;
      unfold show_preview, modify; cbn [fst snd]; rewrite Ep;
      cbn [fst snd]; unfold close_output; cbn [fst snd];
      change (settings (fst (snd (run_steps (widgets u) (started u w)))) = settings u);
      rewrite H; reflexivity. }
  unfold settings in E. injection E as E1 E2 E3 E4.
  repeat split; try assumption.
  subst s'. rewrite clicked_result. cbn [snd].
  unfold show_preview, modify. cbn [fst snd].
  destruct (processed_df _); reflexivity.
Qed.

(** X19.  The result of a click is a function of what the raw table holds
    and of the widget values: two forms with the same widget values whose
    raw tables hold the same frame give results that hold the same frame,
    whatever else differs (the drive, the clock, the files, earlier
    results, the other objects). *)
Theorem X19_click_result_depends_on_table_and_widgets_only
    (u1 u2 : UI) (w1 w2 : World) :
  read (heap w1) (raw_df u1) = read (heap w2) (raw_df u2) ->
  widgets u1 = widgets u2 ->
  let s1 := snd (_on_process_button_clicked (u1, w1)) in
  let s2 := snd (_on_process_button_clicked (u2, w2)) in
  exists r1 r2,
    get_final_dataframe (fst s1) = Some r1
    /\ get_final_dataframe (fst s2) = Some r2
    /\ read (heap (snd s1)) r1 = read (heap (snd s2)) r2.
Proof.
  intros Hraw Hw s1 s2.
  destruct (clicked_processed u1 w1) as [P1 C1]. fold s1 in P1, C1.
  destruct (clicked_processed u2 w2) as [P2 C2]. fold s2 in P2, C2.
  eexists _, _. split; [exact P1|]. split; [exact P2|].
  rewrite C1, C2, Hw.
  apply (cleaned_respects (widgets u2)).
  apply started_alike. exact Hraw.
Qed.

Lemma fire_processed_df e u : processed_df (fire e u) = processed_df u.
Proof.
  destruct e; cbn [fire];
    match goal with |- context [if ?b then _ else _] => destruct b end; reflexivity.
Qed.

(** X20.  Until the button is clicked the form has no result:
    [get_final_dataframe] gives [None] on the form as constructed, and
    still does after any changes of the widgets. *)
Theorem X20_no_result_before_the_first_click
    (input : loc) (w : World) (es : list Event) :
  exists u w',
    ui_init input w = (Ok u, w')
    /\ get_final_dataframe (fire_all es u) = None.
Proof.
  unfold ui_init.
  destruct (init input _) as [r1 [p w1]].
  destruct (drive_init default_base_save_path w1) as [r2 w2].
  eexists _, _. split; [reflexivity|].
  unfold get_final_dataframe, fire_all.
  match goal with |- processed_df (fold_left _ _ ?u0) = None =>
    assert (H : processed_df u0 = None) by reflexivity; revert H; generalize u0 end.
  induction es as [|e es IH]; intros u0 H; [exact H|].
  cbn [fold_left]. apply IH. rewrite fire_processed_df. exact H.
Qed.

(** ** What the log reports *)

(** The description [handle_missing_values] logs for a filling strategy. *)
Definition fill_desc (strategy : string) (fill_value : option Scalar) (method : string)
  : option StrategyDesc :=
  if (strategy =? "ffill")%string then Some DescFfill
  else if (strategy =? "bfill")%string then Some DescBfill
  else if (strategy =? "interpolate")%string then Some (DescInterpolate method)
  else if (strategy =? "fill_constant")%string then DescConstant <$> fill_value
  else if (strategy =? "fill_zero")%string then Some DescZero
  else None.

(** X21.  The counts [handle_missing_values] logs are true: for a filling
    strategy applied to the whole table, when the library call returns the
    frame [d'], the log receives the description of the strategy and then
    the numbers of missing values of the table before the call and of
    [d'], which is the table afterwards. *)
Theorem X21_logged_missing_counts_are_those_of_the_table
    (strategy : string) (subset_cols : option (list string))
    (fill_value : option Scalar) (method : string)
    (call : DataFrame -> Res DataFrame) (desc : StrategyDesc) (d' : DataFrame)
    (s : PState) :
  given subset_cols = None ->
  fill_call strategy fill_value method = Some call ->
  fill_desc strategy fill_value method = Some desc ->
  call (table s) = Ok d' ->
  let s' := snd (handle_missing_values strategy subset_cols fill_value method s) in
  table s' = d'
  /\ log_messages (fst s')
     = log_messages (fst s)
       ++ [LogMissingHandled None desc;
           LogMissingCounts (isna_count (table s)) (isna_count d')].
Proof.
  intros Hg Hc Hd Hr s'. subst s'. unfold fill_call in Hc. unfold fill_desc in Hd.
  unfold handle_missing_values. rewrite Hg.
  repeat match type of Hc with
         | (if (?a =? ?b)%string then _ else _) = _ =>
             destruct (String.eqb_spec a b) as [->|?]
         end;
    try discriminate.
  all: unfold apply_strategy, fill_with, count_missing_after;
    cbn [String.eqb Ascii.eqb Bool.eqb] in *;
    try (destruct fill_value as [v|]; [|discriminate]);
    cbn [fmap option_fmap option_map] in Hc, Hd; inversion Hc; subst call;
    inversion Hd; subst desc;
    run_state; run_state; cbn;
    rewrite Hr; cbn; rewrite ?read_alloc;
    (split; [reflexivity | rewrite <- app_assoc; reflexivity]).
Qed.

(** X22.  The number [remove_duplicate_rows] logs is the number of rows
    removed: when the subset, if given, names columns of the table and
    [drop_duplicates] returns the frame [d'], the table becomes [d'] and
    the one message logged carries the difference of the row counts. *)
Theorem X22_logged_duplicates_are_the_rows_removed
    (subset : option (list string)) (keep : Keep) (d' : DataFrame) (s : PState) :
  subset_present subset (table s) = true ->
  drop_duplicates (table s) subset keep = Ok d' ->
  let s' := snd (remove_duplicate_rows subset keep s) in
  fst (remove_duplicate_rows subset keep s) = Ok tt
  /\ table s' = d'
  /\ log_messages (fst s')
     = log_messages (fst s)
       ++ [LogDuplicatesRemoved (Z.of_nat (len (table s)) - Z.of_nat (len d'))
             (given subset) keep].
Proof.
  intros Hp Hr s'. subst s'. unfold remove_duplicate_rows, subset_present in *.
  assert (Hc : forall s0 : PState,
             table s0 = table s ->
             match given subset with
             | Some cols => check_columns cols
             | None => ret tt
             end s0 = (Ok tt, s0)).
  { intros s0 E. destruct (given subset) as [cols|]; [|reflexivity].
    apply check_columns_present. rewrite E. exact Hp. }
  run_state. rewrite Hc by reflexivity.
  cbn [fst snd set_world set_self with_calls with_heap with_stdout
       heap df log_messages stdout calls].
  rewrite Hr. cbn. rewrite !read_alloc. repeat split.
Qed.

(** ** Columns and subsets that give nothing to do *)

(** Every column of the frame can be read and none is numeric. *)
Definition no_numeric_column (d : DataFrame) : bool :=
  forallb (fun col =>
             match getitem d col with
             | Ok c => negb (is_numeric_dtype c)
             | Raise _ => false
             end) (columns d).

Lemma fill_statistic_skips (stat : Series -> Res Scalar) (s : PState) (cols : list string) :
  forallb (fun col =>
             match getitem (table s) col with
             | Ok c => negb (is_numeric_dtype c)
             | Raise _ => false
             end) cols = true ->
  fill_statistic cols stat s = (Ok tt, s).
Proof.
  unfold fill_statistic. induction cols as [|col cols IH]; cbn [forallb for_each].
  - reflexivity.
  - intros H. apply andb_prop in H. destruct H as [Hc Hr].
    unfold bind at 1. unfold bind at 1. unfold self_df at 1, gets. cbn [fst snd].
    fold (table s). unfold bind at 1. unfold lift at 1.
    destruct (getitem (table s) col) as [c|e]; [|discriminate].
    apply negb_true_iff in Hc. rewrite Hc. unfold ret at 1. apply IH. exact Hr.
Qed.

(** X23.  The strategies fill_mean and fill_median skip the columns that
    are not numeric: on a table without a numeric column they return
    normally and change nothing, and the log reports the same number of
    missing values before and after. *)
Theorem X23_fill_mean_skips_non_numeric_columns
    (strategy : string) (subset_cols : option (list string))
    (fill_value : option Scalar) (method : string) (s : PState) :
  (strategy = "fill_mean" \/ strategy = "fill_median") ->
  given subset_cols = None ->
  no_numeric_column (table s) = true ->
  let s' := snd (handle_missing_values strategy subset_cols fill_value method s) in
  fst (handle_missing_values strategy subset_cols fill_value method s) = Ok tt
  /\ heap (snd s') = heap (snd s)
  /\ df (fst s') = df (fst s)
  /\ log_messages (fst s')
     = log_messages (fst s)
       ++ [LogMissingHandled None
             (if (strategy =? "fill_mean")%string then DescMean else DescMedian);
           LogMissingCounts (isna_count (table s)) (isna_count (table s))].
Proof.
  intros Hs Hg Hn s'. subst s'. unfold no_numeric_column in Hn.
  unfold handle_missing_values. rewrite Hg.
  destruct Hs as [-> | ->];
    unfold apply_strategy, count_missing_after;
    cbn [String.eqb Ascii.eqb Bool.eqb Py.str_in existsb orb negb valid_strategies];
    run_state; run_state;
    match goal with
    | |- context [fill_statistic ?c ?st ?x] =>
        rewrite (fill_statistic_skips st x c) by exact Hn
    end;
    cbn; rewrite <- ?app_assoc; repeat split.
Qed.

(** Two states of a processor that differ in the recorded calls at most. *)
Definition same_but_calls (s1 s2 : PState) : Prop :=
  fst s1 = fst s2
  /\ heap (snd s1) = heap (snd s2)
  /\ stdout (snd s1) = stdout (snd s2).

Lemma respects_calls_self_df : respects same_but_calls self_df.
Proof.
  intros s1 s2 (E1 & E2 & E3). split; [|repeat split; assumption].
  cbn. rewrite E1, E2. reflexivity.
Qed.

Lemma respects_calls_update_df d : respects same_but_calls (update_df d).
Proof.
  intros s1 s2 (E1 & E2 & E3). split; [reflexivity|].
  unfold same_but_calls. cbn. rewrite E1, E2. auto.
Qed.

Lemma respects_calls_assign_df d : respects same_but_calls (assign_df d).
Proof.
  intros s1 s2 (E1 & E2 & E3). split; [reflexivity|].
  unfold same_but_calls. cbn. rewrite E1, E2. auto.
Qed.

Lemma respects_calls_log m : respects same_but_calls (_log m).
Proof.
  intros s1 s2 (E1 & E2 & E3). split; [reflexivity|].
  unfold same_but_calls. cbn. rewrite E1, E3. auto.
Qed.

Ltac calls_leaf :=
  solve [ apply respects_calls_self_df | apply respects_calls_update_df
        | apply respects_calls_assign_df | apply respects_calls_log ].

Ltac respects_calls := repeat (first [calls_leaf | respects_step]).

Lemma apply_strategy_respects_calls strategy subset fill_value method :
  respects same_but_calls (apply_strategy strategy subset fill_value method).
Proof. unfold apply_strategy. respects_calls. Qed.

(** X24.  An empty list of columns is no subset: [handle_missing_values]
    with [subset_cols=[]] does what it does with [subset_cols=None]; it
    returns or raises the same, and leaves the same table, the same log
    and the same output. *)
Theorem X24_empty_subset_is_no_subset
    (strategy : string) (fill_value : option Scalar) (method : string) (s : PState) :
  let a := handle_missing_values strategy (Some []) fill_value method s in
  let b := handle_missing_values strategy None fill_value method s in
  fst a = fst b
  /\ fst (snd a) = fst (snd b)
  /\ heap (snd (snd a)) = heap (snd (snd b))
  /\ stdout (snd (snd a)) = stdout (snd (snd b)).
Proof.
  intros a b. subst a b.
  pose proof (apply_strategy_respects_calls strategy None fill_value method) as Ha.
  pose (body := try_except
               (if negb (Py.str_in strategy valid_strategies)
                then raise (ValueError (TUnsupportedStrategy strategy valid_strategies))
                else
                  temp_df <- self_df ;;
                  let missing_before := isna_count temp_df in
                  strategy_desc <- apply_strategy strategy None fill_value method ;;
                  missing_after <- count_missing_after strategy None ;;
                  _log (LogMissingHandled None strategy_desc) ;;
                  _log (LogMissingCounts missing_before missing_after))
               (fun e => _log (LogMissingError e) ;; raise e)).
  assert (Hbody : respects same_but_calls body).
  { subst body. unfold count_missing_after. respects_calls; auto. }
  assert (Ea : forall sub,
             given sub = None ->
             handle_missing_values strategy sub fill_value method s
             = body (fst s,
                     with_calls (calls (snd s)
                                 ++ [CallHandleMissing strategy sub fill_value method])
                       (snd s))).
  { intros sub Hs. unfold handle_missing_values. rewrite Hs. reflexivity. }
  rewrite (Ea (Some [])), (Ea None) by reflexivity.
  match goal with
  | |- fst (body ?s1) = fst (body ?s2) /\ _ =>
      destruct (Hbody s1 s2) as [E (E1 & E2 & E3)]; [repeat split|]
  end.
  auto.
Qed.

(** ** What a click writes and prints *)

(** A field of the world the processor leaves alone is left alone by the
    form's calls of the processor. *)
Lemma keeps_world_on_processor {A X} (g : World -> X) (m : P A) :
  keeps (same (fun s : PState => g (snd s))) m ->
  keeps (same (fun s : UI * World => g (snd s))) (on_processor m).
Proof.
  intros Hm s. unfold same, on_processor. specialize (Hm (processor (fst s), snd s)).
  unfold same in Hm. destruct (m (processor (fst s), snd s)) as [r [p w]]. exact Hm.
Qed.

Lemma keeps_world_on_drive {A X} (g : World -> X) (m : D A) :
  keeps (same g) m -> keeps (same (fun s : UI * World => g (snd s))) (on_drive m).
Proof.
  intros Hm s. unfold same, on_drive. specialize (Hm (snd s)).
  unfold same in Hm. destruct (m (snd s)) as [r w]. exact Hm.
Qed.

Lemma cleaned_surroundings v s : surroundings (snd (cleaned v s)) = surroundings (snd s).
Proof.
  assert (Hstep : forall o, keeps (same (fun s : UI * World => surroundings (snd s)))
                              (on_processor (perform o))).
  { intros o. apply (keeps_world_on_processor surroundings), perform_surroundings. }
  assert (H1 := Hstep (OpSetDatetimeIndex (Py.strip (text_time_col v))
                         (dropdown_time_errors v) (cb_infer_datetime_format v))).
  assert (H2 := fun a b c d => Hstep (OpHandleMissing a b c d)).
  assert (H3 := fun a b => Hstep (OpConvertTypes a b)).
  assert (H4 := fun a b => Hstep (OpRemoveDuplicates a b)).
  assert (H5 := fun a => Hstep (OpRenameColumns a)).
  assert (H6 := fun a => Hstep (OpSelectColumns a)).
  cbn [perform] in *.
  assert (K1 : keeps (same (fun s : UI * World => surroundings (snd s))) (step_datetime v)).
  { unfold step_datetime.
    repeat (first [exact H1 | solve [intros ?; reflexivity] | keeps_step]). }
  assert (K2 : keeps (same (fun s : UI * World => surroundings (snd s))) (step_missing v)).
  { unfold step_missing.
    repeat (first [apply H2 | solve [intros ?; reflexivity] | keeps_step]). }
  assert (K3 : keeps (same (fun s : UI * World => surroundings (snd s))) (step_convert v)).
  { unfold step_convert.
    repeat (first [apply H3 | solve [intros ?; reflexivity] | keeps_step]). }
  assert (K4 : keeps (same (fun s : UI * World => surroundings (snd s))) (step_duplicates v)).
  { unfold step_duplicates.
    repeat (first [apply H4 | solve [intros ?; reflexivity] | keeps_step]). }
  assert (K5 : keeps (same (fun s : UI * World => surroundings (snd s))) (step_rename v)).
  { unfold step_rename.
    repeat (first [apply H5 | solve [intros ?; reflexivity] | keeps_step]). }
  assert (K6 : keeps (same (fun s : UI * World => surroundings (snd s))) (step_select v)).
  { unfold step_select.
    repeat (first [apply H6 | solve [intros ?; reflexivity] | keeps_step]). }
  unfold cleaned. unfold keeps, same in *.
  rewrite K6, K5, K4, K3, K2, K1. reflexivity.
Qed.

Lemma save_dataframe_without_metadata base r filename_prefix file_format include_timestamp :
  keeps (same metadata_files)
    (save_dataframe base r filename_prefix file_format include_timestamp false).
Proof.
  intros w. unfold same. rewrite save_dataframe_run. cbv zeta.
  pose proof (_ensure_drive_mounted_leaves base
                (with_calls (calls w ++ [CallSaveDataframe filename_prefix file_format
                                           include_timestamp]) w)) as Hf.
  unfold same in Hf.
  destruct (_ensure_drive_mounted base _) as [[[|]|e] w1]; cbn [fst snd] in *;
    injection Hf as _ _ _ Hmeta _; cbn [metadata_files with_calls] in Hmeta;
    [ | exact Hmeta | exact Hmeta ].
  unfold saved_from, said.
  destruct (frame_to_write file_format _) as [[f d']|e]; [|exact Hmeta].
  destruct (write_frame f d' _); exact Hmeta.
Qed.

(** A click, from the state in which the result is bound. *)
Definition bound (s : UI * World) : UI * World :=
  (set_processed_df (Some (length (heap (snd s))))
     (fst (snd (on_processor get_processed_df s))),
   snd (snd (on_processor get_processed_df s))).

Lemma finish_bound v s :
  finish v s = (step_save v (length (heap (snd s))) ;; tell UiDone) (bound s).
Proof. reflexivity. Qed.

Lemma finish_world v s :
  snd (snd (finish v s))
  = with_stdout (stdout (snd (snd (step_save v (length (heap (snd s))) (bound s))))
                 ++ [LineUi UiDone])
      (snd (snd (step_save v (length (heap (snd s))) (bound s)))).
Proof.
  rewrite finish_bound.
  rewrite (bind_step_ok _ _ _ _ (step_save_ok v (length (heap (snd s))))).
  reflexivity.
Qed.

Lemma step_save_metadata v r s :
  metadata_files (snd (snd (step_save v r s))) = metadata_files (snd s).
Proof.
  assert (H : keeps (same (fun s : UI * World => metadata_files (snd s))) (step_save v r)).
  { unfold step_save.
    repeat (first [ apply (keeps_world_on_drive metadata_files);
                    apply save_dataframe_without_metadata
                  | solve [intros ?; reflexivity]
                  | keeps_step ]). }
  apply H.
Qed.

Lemma show_preview_world s : snd (snd (show_preview s)) = snd s.
Proof. unfold show_preview, modify. cbn [fst snd]. destruct (processed_df (fst s)); reflexivity. Qed.

(** X25.  A click writes at most one file: no metadata file, and either
    no table file or one, which holds the result of the click (for
    feather, with its index made a column) in the format chosen in the
    form. *)
Theorem X25_click_writes_at_most_one_file (u : UI) (w : World) :
  let s' := snd (_on_process_button_clicked (u, w)) in
  metadata_files (snd s') = metadata_files w
  /\ (files (snd s') = files w
      \/ exists path f d r,
           files (snd s') = files w ++ [(path, (f, d))]
           /\ get_final_dataframe (fst s') = Some r
           /\ frame_to_write (dropdown_save_format (widgets u)) (read (heap (snd s')) r)
              = Ok (f, d)).
Proof.
  intros s'.
  pose (s6 := cleaned (widgets u) (started u w)).
  pose (r := length (heap (snd s6))).
  pose (sB := bound s6).
  destruct (finish_outcome (widgets u) s6) as [Fh Fp]. fold r in Fp.
  assert (Hs6 : surroundings (snd s6) = surroundings w).
  { subst s6. rewrite cleaned_surroundings. reflexivity. }
  unfold surroundings in Hs6. injection Hs6 as _ Hfiles Hmeta _.
  assert (Es : s' = snd (show_preview (close_output w (snd (finish (widgets u) s6))))).
  { subst s'. apply clicked_from_cleaned. }
  assert (Ew : files (snd s') = files (snd (snd (finish (widgets u) s6)))
               /\ metadata_files (snd s') = metadata_files (snd (snd (finish (widgets u) s6)))
               /\ heap (snd s') = heap (snd (snd (finish (widgets u) s6)))
               /\ processed_df (fst s') = processed_df (fst (snd (finish (widgets u) s6)))).
  { rewrite Es.
    destruct (show_preview_outcome (close_output w (snd (finish (widgets u) s6))))
      as (Hh & Hp & _).
    rewrite Hh, Hp, show_preview_world. unfold close_output.
    cbn [fst snd files metadata_files heap with_stdout processed_df set_log_output].
    repeat split. }
  destruct Ew as (Ef & Em & Eh & Ep).
  rewrite Ef, Em, Eh. unfold get_final_dataframe. rewrite Ep, Fp, Fh.
  rewrite finish_world. fold r sB.
  cbn [files metadata_files with_stdout].
  split.
  { rewrite step_save_metadata. exact Hmeta. }
  rewrite step_save_files.
  pose proof (save_dataframe_cases (drive_saver (fst sB)) r
                (Py.strip (text_save_filename_prefix (widgets u)))
                (dropdown_save_format (widgets u))
                (cb_include_timestamp (widgets u)) false
                (snd (told UiHeaderSave sB))) as Hc.
  cbv zeta in Hc.
  assert (Hfb : files (snd (told UiHeaderSave sB)) = files w) by exact Hfiles.
  assert (Hhb : heap (snd (told UiHeaderSave sB)) = heap (snd s6) ++ [table (procU s6)])
    by reflexivity.
  rewrite Hfb in Hc.
  destruct (fst (_ensure_drive_mounted _ _)) as [[|]|];
    [| left; apply Hc | left; apply Hc].
  destruct (frame_to_write _ (read (heap (snd (told UiHeaderSave sB))) r))
    as [[f d]|] eqn:Efw; [| left; apply Hc].
  destruct (write_frame f d _); [left; apply Hc|].
  right. destruct Hc as [Hc _]. eexists _, f, d, r.
  split; [exact Hc|]. split; [reflexivity|].
  rewrite <- Hhb. exact Efw.
Qed.

(** [grows s s']: what is printed in [s] is still there in [s'], with
    more lines after it perhaps. *)
Definition grows (w w' : World) : Prop := exists l, stdout w' = stdout w ++ l.

#[local] Instance grows_preorder : PreOrder grows.
Proof.
  split.
  - intros w. exists []. symmetry. apply app_nil_r.
  - intros a b c [l1 H1] [l2 H2]. exists (l1 ++ l2). rewrite H2, H1. symmetry. apply app_assoc.
Qed.

Definition growsP : relation PState := fun s s' => grows (snd s) (snd s').
Definition growsU : relation (UI * World) := fun s s' => grows (snd s) (snd s').

#[local] Instance growsP_preorder : PreOrder growsP.
Proof.
  split; [intros s; unfold growsP; reflexivity|].
  intros a b c H1 H2. unfold growsP in *. etransitivity; eassumption.
Qed.

#[local] Instance growsU_preorder : PreOrder growsU.
Proof.
  split; [intros s; unfold growsU; reflexivity|].
  intros a b c H1 H2. unfold growsU in *. etransitivity; eassumption.
Qed.

Lemma perform_grows (o : Operation) : keeps growsP (perform o).
Proof.
  intros s. destruct (perform_echoes o s) as (l & _ & H). exists (map LineLog l). exact H.
Qed.

Lemma grows_on_processor {A} (m : P A) : keeps growsP m -> keeps growsU (on_processor m).
Proof.
  intros Hm s. unfold growsU, on_processor. specialize (Hm (processor (fst s), snd s)).
  unfold growsP in Hm. destruct (m (processor (fst s), snd s)) as [r [p w]]. exact Hm.
Qed.

Lemma grows_on_drive {A} (m : D A) : keeps grows m -> keeps growsU (on_drive m).
Proof.
  intros Hm s. unfold growsU, on_drive. specialize (Hm (snd s)).
  destruct (m (snd s)) as [r w]. exact Hm.
Qed.

Ltac grows_leaf :=
  solve [ intros ?; exists []; cbn; symmetry; apply app_nil_r
        | intros ?; eexists; cbn; reflexivity
        | intros ?; unfold write_to, write_metadata, os_makedirs;
          repeat (match goal with
                  | |- context [match ?x with _ => _ end] => destruct x
                  end);
          exists []; cbn; symmetry; apply app_nil_r ].

Lemma save_dataframe_grows base r filename_prefix file_format include_timestamp meta :
  keeps grows (save_dataframe base r filename_prefix file_format include_timestamp meta).
Proof.
  unfold save_dataframe, _ensure_drive_mounted, mount_drive.
  repeat (first [grows_leaf | keeps_step]).
Qed.

Lemma step_grows (o : Operation) (header : UiMsg) (report : Exn -> UiMsg) :
  keeps growsU
    (tell header ;; try_except (on_processor (perform o)) (fun e => tell (report e))).
Proof.
  repeat (first [ apply grows_on_processor; apply perform_grows
                | solve [intros ?; eexists; cbn; reflexivity]
                | keeps_step ]).
Qed.

Lemma step_json_grows (text : string) (op : list (string * string) -> Operation)
    (header : UiMsg) (report_json report : Exn -> UiMsg) :
  keeps growsU
    (tell header ;;
     try_except
       (x <- lift (json_loads text) ;; on_processor (perform (op x)))
       (fun e => if is_json_error e then tell (report_json e) else tell (report e))).
Proof.
  repeat (first [ apply grows_on_processor; apply perform_grows
                | solve [intros ?; eexists; cbn; reflexivity]
                | keeps_step ]).
Qed.

Lemma cleaned_grows v s : growsU s (cleaned v s).
Proof.
  assert (K1 : keeps growsU (step_datetime v)).
  { unfold step_datetime. destruct (cb_set_datetime_index v); [|apply keeps_ret; typeclasses eauto].
    apply (step_grows (OpSetDatetimeIndex _ _ _)). }
  assert (K2 : keeps growsU (step_missing v)).
  { unfold step_missing. destruct (cb_handle_missing v); [|apply keeps_ret; typeclasses eauto].
    apply (step_grows (OpHandleMissing _ _ _ _)). }
  assert (K3 : keeps growsU (step_convert v)).
  { unfold step_convert. destruct (cb_convert_types v); [|apply keeps_ret; typeclasses eauto].
    apply (step_json_grows _ (fun x => OpConvertTypes x _)). }
  assert (K4 : keeps growsU (step_duplicates v)).
  { unfold step_duplicates. destruct (cb_remove_duplicates v);
      [|apply keeps_ret; typeclasses eauto].
    apply (step_grows (OpRemoveDuplicates _ _)). }
  assert (K5 : keeps growsU (step_rename v)).
  { unfold step_rename. destruct (cb_rename_columns v); [|apply keeps_ret; typeclasses eauto].
    apply (step_json_grows _ (fun x => OpRenameColumns x)). }
  assert (K6 : keeps growsU (step_select v)).
  { unfold step_select. destruct (cb_select_columns v); [|apply keeps_ret; typeclasses eauto].
    destruct (Py.column_list _).
    - apply (step_grows (OpSelectColumns _)).
    - repeat (first [solve [intros ?; eexists; cbn; reflexivity] | keeps_step]). }
  unfold cleaned.
  etransitivity; [apply K1|]. etransitivity; [apply K2|]. etransitivity; [apply K3|].
  etransitivity; [apply K4|]. etransitivity; [apply K5|]. apply K6.
Qed.

Lemma step_save_grows v r : keeps growsU (step_save v r).
Proof.
  unfold step_save.
  repeat (first [ apply grows_on_drive; apply save_dataframe_grows
                | solve [intros ?; exists []; cbn; symmetry; apply app_nil_r]
                | solve [intros ?; eexists; cbn; reflexivity]
                | keeps_step ]).
Qed.

Lemma log_output_own : own_field log_output.
Proof. split; reflexivity. Qed.

(** X26.  The log widget after a click holds what this click printed and
    nothing else: the start line and the message of the new processor
    first, the completion line last, whatever failed in between; the
    lines of an earlier click are gone. *)
Theorem X26_log_widget_holds_the_lines_of_the_click (u : UI) (w : World) :
  let s' := snd (_on_process_button_clicked (u, w)) in
  exists l,
    log_output (fst s')
    = LineUi UiStart
      :: LineLog (LogCreated (shape (read (heap w) (raw_df u))))
      :: l ++ [LineUi UiDone].
Proof.
  intros s'.
  pose (s6 := cleaned (widgets u) (started u w)).
  assert (Es : s' = snd (show_preview (close_output w (snd (finish (widgets u) s6))))).
  { subst s'. apply clicked_from_cleaned. }
  assert (El : log_output (fst s')
               = log_output (fst (snd (finish (widgets u) s6)))
                 ++ stdout (snd (snd (finish (widgets u) s6)))).
  { rewrite Es. unfold show_preview, modify, close_output. cbn [fst snd].
    destruct (processed_df _); reflexivity. }
  assert (E0 : log_output (fst (snd (finish (widgets u) s6))) = []).
  { pose proof (run_steps_field log_output (widgets u) log_output_own (started u w)) as H.
    unfold same in H.
    transitivity (log_output (fst (snd (run_steps (widgets u) (started u w)))));
      [rewrite run_steps_threaded; reflexivity | rewrite H; reflexivity]. }
  rewrite El, E0. cbn [app].
  rewrite finish_world. cbn [stdout with_stdout].
  assert (Hg : growsU (started u w)
                 (snd (step_save (widgets u) (length (heap (snd s6)))
                         (bound s6)))).
  { etransitivity; [apply (cleaned_grows (widgets u))|]. fold s6.
    etransitivity; [|apply step_save_grows].
    eexists. cbn. reflexivity. }
  destruct Hg as [l Hl]. rewrite Hl.
  exists l. cbn. rewrite read_alloc. reflexivity.
Qed.

(** ** Lists of columns typed in the form *)








End Further.

(** * Closed examples on the small library *)

#[local] Existing Instance Toy.library.


(** C2 on the table of the example: the datetime step raises, the error is
    logged and printed, and the two steps after it, the retrieval and the
    export run on the table as it is. *)
Example click_goes_on_after_an_error :
  fst (_on_process_button_clicked Toy.busy_form) = Ok tt
  /\ log_messages (processor (fst (snd (_on_process_button_clicked Toy.busy_form))))
     = [LogCreated (3, 3);
        LogDatetimeError (KeyError (TColumnNotFound "time"));
        LogMissingHandled None DescZero;
        LogMissingCounts 2 0;
        LogDuplicatesRemoved 1 None (KeepStr "first");
        LogGot (2, 3)].
Proof. split; reflexivity. Qed.

(** C3, as stated, fails: for a key that is no column, [rename] of the
    library returns the table, and [rename_columns] raises. *)
Lemma C3_rename_raises_where_the_library_returns :
  rename (table Toy.fresh) [("zzz", "y")] = Ok (table Toy.fresh)
  /\ fst (rename_columns [("zzz", "y")] Toy.fresh)
     = Raise (KeyError (TRenameNotFound ["zzz"]))
  /\ ~ delegates_at Toy.fresh (rename_columns [("zzz", "y")])
         (fun d => rename d [("zzz", "y")]).
Proof.
  assert (E1 : rename (table Toy.fresh) [("zzz", "y")] = Ok (table Toy.fresh))
    by reflexivity.
  assert (E2 : fst (rename_columns [("zzz", "y")] Toy.fresh)
               = Raise (KeyError (TRenameNotFound ["zzz"]))) by reflexivity.
  split; [exact E1|]. split; [exact E2|].
  unfold delegates_at. rewrite E1, E2. intros [H _]. discriminate.
Qed.

Lemma C3_witness :
  (missing_from (table Toy.fresh) (map fst [("price", "cost")]) = []
   /\ delegates_at Toy.fresh (rename_columns [("price", "cost")])
        (fun d => rename d [("price", "cost")]))
  /\ (missing_from (table Toy.fresh) ["label"; "price"] = []
      /\ delegates_at Toy.fresh (select_columns ["label"; "price"])
           (fun d => getitem_list d ["label"; "price"]))
  /\ (subset_present (Some ["price"]) (table Toy.fresh) = true
      /\ delegates_at Toy.fresh (remove_duplicate_rows (Some ["price"]) KeepFalse)
           (fun d => drop_duplicates d (Some ["price"]) KeepFalse))
  /\ (fill_call "ffill" None "linear" = Some (fun d => fillna_method d "ffill")
      /\ delegates_at Toy.fresh (handle_missing_values "ffill" None None "linear")
           (fun d => fillna_method d "ffill"))
  /\ drops_at Toy.fresh (handle_missing_values "dropna_rows" None None "linear")
       (fun d => dropna d None).
Proof.
  destruct (C3_validated_operations_delegate_to_one_call Toy.fresh)
    as (H1 & H2 & H3 & H4 & H5).
  split; [split; [reflexivity | apply H1; reflexivity]|].
  split; [split; [reflexivity | apply H2; reflexivity]|].
  split; [split; [reflexivity | apply H3; reflexivity]|].
  split; [split; [reflexivity | apply H4; reflexivity]|].
  exact (proj1 (H5 None None "linear" eq_refl)).
Defined.

(** C4, as stated, fails: no form, in no world, makes a click call
    [apply_custom_function]. *)
Lemma C4_no_click_calls_the_custom_function :
  ~ exists (L : Library) (u : @UI L) (w : @World L),
      ~ In CallApplyCustom (calls w)
      /\ In CallApplyCustom (calls (snd (snd (_on_process_button_clicked (u, w))))).
Proof.
  intros (L & u & w & Hw & H).
  destruct (clicked_calls u w) as [_ E]. rewrite E in H.
  apply in_app_or in H. destruct H as [H|H]; [exact (Hw H)|].
  exact (planned_no_custom _ H).
Qed.



(** C6, as stated, fails: type conversion with an empty mapping returns and
    logs nothing. *)
Lemma C6_empty_conversion_logs_nothing :
  fst (convert_data_types [] "raise" Toy.fresh) = Ok tt
  /\ log_messages (fst (snd (convert_data_types [] "raise" Toy.fresh)))
     = log_messages (fst Toy.fresh).
Proof. split; reflexivity. Qed.

(** C7, as stated, fails: a change of the strategy to fill_constant while
    the checkbox of the missing values is clear displays the fill value. *)
Lemma C7_strategy_change_shows_fill_value_unchecked :
  cb_handle_missing
    (widgets (fire_all [SetMissingStrategy "fill_constant"] (created (fst Toy.form))))
  = false
  /\ show_missing_fill_value
       (layout (fire_all [SetMissingStrategy "fill_constant"] (created (fst Toy.form))))
     = Block.
Proof. split; reflexivity. Qed.

Lemma C7_witness :
  all_offered [SetHandleMissing true; SetMissingStrategy "fill_constant";
               SetDatetimeIndex true; SetMissingStrategy "interpolate";
               SetHandleMissing false]
    (created (fst Toy.form)) = true
  /\ follows_strategy
       (fire_all [SetHandleMissing true; SetMissingStrategy "fill_constant";
                  SetDatetimeIndex true; SetMissingStrategy "interpolate";
                  SetHandleMissing false]
          (created (fst Toy.form))).
Proof.
  split; [reflexivity|].
  apply (proj2 (C7_widgets_follow_checkboxes (fst Toy.form) _)). reflexivity.
Defined.


Lemma C9_witness :
  raw_df (fst Toy.busy_form) < length (heap (snd Toy.busy_form))
  /\ exists r1 r2,
      processed_df
        (fst (snd (_on_process_button_clicked (fst Toy.busy_form, snd Toy.busy_form))))
      = Some r1
      /\ processed_df
           (fst (snd (_on_process_button_clicked
                        (snd (_on_process_button_clicked
                                (fst Toy.busy_form, snd Toy.busy_form))))))
         = Some r2
      /\ read (heap (snd (snd (_on_process_button_clicked
                                 (snd (_on_process_button_clicked
                                         (fst Toy.busy_form, snd Toy.busy_form)))))))
           r2
         = read (heap (snd (snd (_on_process_button_clicked
                                   (fst Toy.busy_form, snd Toy.busy_form)))))
             r1.
Proof.
  assert (H : raw_df (fst Toy.busy_form) < length (heap (snd Toy.busy_form)))
    by (apply Nat.ltb_lt; reflexivity).
  split; [exact H|].
  pose proof (C9_second_click_gives_the_same_result (fst Toy.busy_form)
                (snd Toy.busy_form) H) as C.
  cbv zeta in C. destruct C as (_ & _ & _ & _ & C). exact C.
Defined.

Lemma C10_witness :
  (Py.str_in "fill_mode" valid_strategies = false
   /\ fst (handle_missing_values "fill_mode" None None "linear" Toy.fresh)
      = Raise (ValueError (TUnsupportedStrategy "fill_mode" valid_strategies))
   /\ unchanged Toy.fresh
        (snd (handle_missing_values "fill_mode" None None "linear" Toy.fresh)))
  /\ (first_absent ["price"; "nope"] (table Toy.fresh) = Some "nope"
      /\ fst (handle_missing_values "ffill" (Some ["price"; "nope"]) None "linear" Toy.fresh)
         = Raise (ValueError (TColumnNotFound "nope"))
      /\ unchanged Toy.fresh
           (snd (handle_missing_values "ffill" (Some ["price"; "nope"]) None "linear"
                   Toy.fresh)))
  /\ (missing_from (table Toy.fresh) (map fst [("zzz", "y")]) <> []
      /\ fst (rename_columns [("zzz", "y")] Toy.fresh)
         = Raise (KeyError (TRenameNotFound ["zzz"]))
      /\ unchanged Toy.fresh (snd (rename_columns [("zzz", "y")] Toy.fresh)))
  /\ (missing_from (table Toy.fresh) ["price"; "nope"] <> []
      /\ fst (select_columns ["price"; "nope"] Toy.fresh)
         = Raise (ValueError (TSelectNotFound ["nope"]))
      /\ unchanged Toy.fresh (snd (select_columns ["price"; "nope"] Toy.fresh))).
Proof.
  destruct (C10_invalid_arguments_raise_before_any_change Toy.fresh)
    as (H1 & H2 & H3 & H4 & H5).
  split.
  { split; [reflexivity|].
    rewrite (H1 "fill_mode" None None "linear") by reflexivity.
    split; [reflexivity | apply H5]. }
  split.
  { split; [reflexivity|].
    rewrite (H2 "ffill" ["price"; "nope"] None "linear" "nope") by reflexivity.
    split; [reflexivity | apply H5]. }
  split.
  { assert (Hm : missing_from (table Toy.fresh) (map fst [("zzz", "y")]) <> []).
    { change (missing_from (table Toy.fresh) (map fst [("zzz", "y")])) with ["zzz"].
      discriminate. }
    split; [exact Hm|]. rewrite (H3 [("zzz", "y")] Hm).
    split; [reflexivity | apply H5]. }
  assert (Hm : missing_from (table Toy.fresh) ["price"; "nope"] <> []).
  { change (missing_from (table Toy.fresh) ["price"; "nope"]) with ["nope"].
    discriminate. }
  split; [exact Hm|]. rewrite (H4 ["price"; "nope"] Hm).
  split; [reflexivity | apply H5].
Defined.

(** * Closed examples for the further properties *)

Module Cases.

(** A notebook outside Colab: no drive, and no directory can be made. *)
Definition offline : World :=
  {| heap := [Toy.sample]; stdout := []; calls := [];
     paths := []; files := []; metadata_files := [];
     colab := ColabAbsent;
     makedirs_error := Some (OtherError "PermissionError" (TText "Permission denied"));
     open_error := None; now := Toy.clock |}.

(** A Colab notebook whose drive is not mounted yet. *)
Definition unmounted : World :=
  {| heap := [Toy.sample]; stdout := []; calls := [];
     paths := []; files := []; metadata_files := [];
     colab := ColabMounts ["/content/drive/MyDrive"];
     makedirs_error := None; open_error := None; now := Toy.clock |}.

(** The notebook of the examples, on a drive where no metadata file can
    be opened. *)
Definition no_metadata : World :=
  {| heap := [Toy.sample]; stdout := []; calls := [];
     paths := ["/content/drive"; default_base_save_path];
     files := []; metadata_files := [];
     colab := ColabMounts [];
     makedirs_error := None;
     open_error := Some (OtherError "OSError" (TText "No space left on device"));
     now := Toy.clock |}.

(** A table of texts only. *)
Definition labels : Toy.frame :=
  {| Toy.names := ["label"; "note"];
     Toy.index_name := None;
     Toy.rows := [ (Some (Toy.VInt 0), [Some (Toy.VStr "a"); None]);
                   (Some (Toy.VInt 1), [Some (Toy.VStr "b"); Some (Toy.VStr "x")]) ] |}.

(** A processor on the table of texts. *)
Definition labelled : PState :=
  snd (init 0 ({| df := 0; log_messages := [] |},
               {| heap := [labels]; stdout := []; calls := [];
                  paths := []; files := []; metadata_files := [];
                  colab := ColabAbsent; makedirs_error := None; open_error := None;
                  now := Toy.clock |})).

(** A user function that empties the table it is given and then fails. *)
Definition spoiling : UserFunc :=
  fun _ => (empty_frame, Raise (OtherError "RuntimeError" (TText "failed"))).

(** The form of the examples, in the notebook outside Colab. *)
Definition offline_form : UI * World := (fst Toy.busy_form, offline).

End Cases.

Lemma X1_witness :
  Py.str_in "time" (columns (table Toy.fresh)) = false
  /\ fst (set_datetime_index "time" "raise" true Toy.fresh)
     = Raise (KeyError (TColumnNotFound "time"))
  /\ heap (snd (snd (set_datetime_index "time" "raise" true Toy.fresh)))
     = heap (snd Toy.fresh).
Proof.
  split; [reflexivity|].
  destruct (X1_set_datetime_index_rejects_absent_column "time" "raise" true Toy.fresh
              eq_refl) as (E & H & _).
  split; [rewrite E; reflexivity | exact H].
Defined.

Lemma X2_witness :
  first_absent ["price"; "nope"] (table Toy.fresh) = Some "nope"
  /\ fst (remove_duplicate_rows (Some ["price"; "nope"]) (KeepStr "first") Toy.fresh)
     = Raise (ValueError (TColumnNotFound "nope"))
  /\ heap (snd (snd (remove_duplicate_rows (Some ["price"; "nope"]) (KeepStr "first")
                       Toy.fresh)))
     = heap (snd Toy.fresh).
Proof.
  split; [reflexivity|].
  destruct (X2_remove_duplicate_rows_rejects_absent_column ["price"; "nope"]
              (KeepStr "first") "nope" Toy.fresh eq_refl) as (E & H & _).
  split; [rewrite E; reflexivity | exact H].
Defined.

Lemma X3_witness :
  missing_from (table Toy.fresh) (map fst [("price", "int"); ("zzz", "float")]) <> []
  /\ fst (convert_data_types [("price", "int"); ("zzz", "float")] "raise" Toy.fresh)
     = Raise (KeyError (TColumnsNotFound ["zzz"]))
  /\ heap (snd (snd (convert_data_types [("price", "int"); ("zzz", "float")] "raise"
                       Toy.fresh)))
     = heap (snd Toy.fresh).
Proof.
  assert (Hm : missing_from (table Toy.fresh)
                 (map fst [("price", "int"); ("zzz", "float")]) <> []).
  { change (missing_from (table Toy.fresh)
              (map fst [("price", "int"); ("zzz", "float")])) with ["zzz"].
    discriminate. }
  split; [exact Hm|].
  destruct (X3_convert_data_types_rejects_absent_columns
              [("price", "int"); ("zzz", "float")] Toy.fresh Hm) as (E & H & _).
  split; [rewrite E; reflexivity | exact H].
Defined.

Lemma X4_witness :
  given (Some []) = None
  /\ fst (handle_missing_values "fill_constant" (Some []) None "linear" Toy.fresh)
     = Raise (ValueError TFillValueRequired)
  /\ heap (snd (snd (handle_missing_values "fill_constant" (Some []) None "linear"
                       Toy.fresh)))
     = heap (snd Toy.fresh).
Proof.
  split; [reflexivity|].
  destruct (X4_fill_constant_needs_a_value (Some []) "linear" Toy.fresh eq_refl)
    as (E & H & _).
  split; [rewrite E; reflexivity | exact H].
Defined.


Lemma X8_witness :
  df (fst Toy.fresh) < length (heap (snd Toy.fresh))
  /\ Py.str_in "timestamp" (columns (table Toy.fresh)) = true
  /\ df (fst (snd (set_datetime_index "timestamp" "raise" true Toy.fresh)))
     = df (fst Toy.fresh)
  /\ columns (table (snd (set_datetime_index "timestamp" "raise" true Toy.fresh)))
     = ["price"; "label"]
  /\ log_messages (fst (snd (set_datetime_index "timestamp" "raise" true Toy.fresh)))
     = log_messages (fst Toy.fresh) ++ [LogDatetimeSet "timestamp"].
Proof.
  assert (H : df (fst Toy.fresh) < length (heap (snd Toy.fresh)))
    by (apply Nat.ltb_lt; reflexivity).
  split; [exact H|]. split; [reflexivity|].
  destruct (X8_set_datetime_index_updates_in_place "timestamp" "raise" true Toy.fresh
              _ _ _ _ H eq_refl eq_refl eq_refl eq_refl eq_refl)
    as (_ & Hd & _ & Ht & Hl).
  split; [exact Hd|]. split; [rewrite Ht; reflexivity | rewrite Hl; reflexivity].
Defined.

Lemma X9_witness :
  df (fst Toy.fresh) < length (heap (snd Toy.fresh))
  /\ custom_failure (snd (Cases.spoiling (table Toy.fresh)))
     = Some (OtherError "RuntimeError" (TText "failed"))
  /\ fst (apply_custom_function Cases.spoiling Toy.fresh)
     = Raise (OtherError "RuntimeError" (TText "failed"))
  /\ table (snd (apply_custom_function Cases.spoiling Toy.fresh)) = empty_frame.
Proof.
  assert (H : df (fst Toy.fresh) < length (heap (snd Toy.fresh)))
    by (apply Nat.ltb_lt; reflexivity).
  split; [exact H|]. split; [reflexivity|].
  destruct (X9_failed_custom_function_is_not_rolled_back Cases.spoiling Toy.fresh
              (OtherError "RuntimeError" (TText "failed")) H eq_refl)
    as (Hr & _ & Ht & _).
  split; [exact Hr | exact Ht].
Defined.

Lemma X10_witness :
  forallb (fun c => negb (Py.str_in c (columns (table Toy.fresh))))
    (map fst [("cost", "float"); ("day", "datetime")]) = true
  /\ fst (convert_data_types [("cost", "float"); ("day", "datetime")] "ignore" Toy.fresh)
     = Ok tt
  /\ log_messages
       (fst (snd (convert_data_types [("cost", "float"); ("day", "datetime")] "ignore"
                    Toy.fresh)))
     = log_messages (fst Toy.fresh) ++ [LogColumnSkipped "cost"; LogColumnSkipped "day"].
Proof.
  split; [reflexivity|].
  destruct (X10_convert_data_types_skips_absent_columns
              [("cost", "float"); ("day", "datetime")] Toy.fresh eq_refl)
    as (Hr & _ & _ & Hl).
  split; [exact Hr | exact Hl].
Defined.


Lemma X13_witness :
  _ensure_drive_mounted default_base_save_path Cases.unmounted
  = (Ok true, snd (_ensure_drive_mounted default_base_save_path Cases.unmounted))
  /\ paths (snd (_ensure_drive_mounted default_base_save_path Cases.unmounted))
     = ["/content/drive"; "/content/drive/MyDrive"; default_base_save_path]
  /\ _ensure_drive_mounted default_base_save_path
       (snd (_ensure_drive_mounted default_base_save_path Cases.unmounted))
     = (Ok true, snd (_ensure_drive_mounted default_base_save_path Cases.unmounted)).
Proof.
  assert (H : _ensure_drive_mounted default_base_save_path Cases.unmounted
              = (Ok true, snd (_ensure_drive_mounted default_base_save_path
                                 Cases.unmounted))) by reflexivity.
  split; [exact H|]. split; [reflexivity|].
  exact (X13_ensure_drive_mounted_is_idempotent default_base_save_path Cases.unmounted
           _ H).
Defined.

Lemma X16_witness :
  fst (_ensure_drive_mounted default_base_save_path
         (with_calls (calls Cases.no_metadata ++ [CallSaveDataframe "out" "csv" false])
            Cases.no_metadata))
  = Ok true
  /\ frame_to_write "csv" (read (heap Cases.no_metadata) 0) = Ok (Csv, Toy.sample)
  /\ fst (save_dataframe default_base_save_path 0 "out" "csv" false true Cases.no_metadata)
     = Ok ""
  /\ files (snd (save_dataframe default_base_save_path 0 "out" "csv" false true
                   Cases.no_metadata))
     = [("/content/drive/MyDrive/processed_data/out.csv", (Csv, Toy.sample))].
Proof.
  split; [reflexivity|]. split; [reflexivity|].
  destruct (X16_metadata_failure_leaves_the_table_file default_base_save_path 0 "out"
              "csv" false Cases.no_metadata Csv Toy.sample
              (OtherError "OSError" (TText "No space left on device"))
              eq_refl eq_refl eq_refl eq_refl)
    as (Hr & Hf & _).
  split; [exact Hr | rewrite Hf; reflexivity].
Defined.

Lemma X19_witness :
  read (heap (snd Toy.busy_form)) (raw_df (fst Toy.busy_form))
  = read (heap (snd Cases.offline_form)) (raw_df (fst Cases.offline_form))
  /\ files (snd (snd (_on_process_button_clicked
                        (fst Cases.offline_form, snd Cases.offline_form)))) = []
  /\ exists r1 r2,
      get_final_dataframe
        (fst (snd (_on_process_button_clicked (fst Toy.busy_form, snd Toy.busy_form))))
      = Some r1
      /\ get_final_dataframe
           (fst (snd (_on_process_button_clicked
                        (fst Cases.offline_form, snd Cases.offline_form))))
         = Some r2
      /\ read (heap (snd (snd (_on_process_button_clicked
                                 (fst Toy.busy_form, snd Toy.busy_form))))) r1
         = read (heap (snd (snd (_on_process_button_clicked
                                   (fst Cases.offline_form, snd Cases.offline_form)))))
             r2.
Proof.
  split; [reflexivity|]. split; [reflexivity|].
  pose proof (X19_click_result_depends_on_table_and_widgets_only
                (fst Toy.busy_form) (fst Cases.offline_form)
                (snd Toy.busy_form) (snd Cases.offline_form) eq_refl eq_refl) as C.
  cbv zeta in C. exact C.
Defined.

Lemma X21_witness :
  fill_call "fill_zero" None "linear" = Some (fun d => fillna_value d (scalar_of_int 0))
  /\ fill_desc "fill_zero" None "linear" = Some DescZero
  /\ log_messages (fst (snd (handle_missing_values "fill_zero" None None "linear"
                               Toy.fresh)))
     = log_messages (fst Toy.fresh)
       ++ [LogMissingHandled None DescZero; LogMissingCounts 2 0].
Proof.
  split; [reflexivity|]. split; [reflexivity|].
  destruct (X21_logged_missing_counts_are_those_of_the_table "fill_zero" None None
              "linear" (fun d => fillna_value d (scalar_of_int 0)) DescZero _ Toy.fresh
              eq_refl eq_refl eq_refl eq_refl) as [_ Hl].
  rewrite Hl. reflexivity.
Defined.

Lemma X22_witness :
  subset_present (Some ["price"]) (table Toy.fresh) = true
  /\ fst (remove_duplicate_rows (Some ["price"]) (KeepStr "first") Toy.fresh) = Ok tt
  /\ log_messages (fst (snd (remove_duplicate_rows (Some ["price"]) (KeepStr "first")
                               Toy.fresh)))
     = log_messages (fst Toy.fresh)
       ++ [LogDuplicatesRemoved 1 (Some ["price"]) (KeepStr "first")].
Proof.
  split; [reflexivity|].
  destruct (X22_logged_duplicates_are_the_rows_removed (Some ["price"]) (KeepStr "first")
              _ Toy.fresh eq_refl eq_refl) as (Hr & _ & Hl).
  split; [exact Hr | rewrite Hl; reflexivity].
Defined.

Lemma X23_witness :
  no_numeric_column (table Cases.labelled) = true
  /\ fst (handle_missing_values "fill_mean" None None "linear" Cases.labelled) = Ok tt
  /\ heap (snd (snd (handle_missing_values "fill_mean" None None "linear" Cases.labelled)))
     = heap (snd Cases.labelled)
  /\ log_messages (fst (snd (handle_missing_values "fill_mean" None None "linear"
                               Cases.labelled)))
     = log_messages (fst Cases.labelled)
       ++ [LogMissingHandled None DescMean; LogMissingCounts 1 1].
Proof.
  split; [reflexivity|].
  destruct (X23_fill_mean_skips_non_numeric_columns "fill_mean" None None "linear"
              Cases.labelled (or_introl eq_refl) eq_refl eq_refl)
    as (Hr & Hh & _ & Hl).
  split; [exact Hr|]. split; [exact Hh | rewrite Hl; reflexivity].
Defined.

